(** * MMDB lookup demo: the lookup layer of [src/mmdb.ts] and the result
      formatter of [src/App.tsx], embedded in Rocq.

    The development follows the TypeScript sources function by function.
    The [Reader] of the [mmdb-lib] package is an external collaborator: it
    is taken as a parameter (a state type with a [get] operation that may
    raise).  A search-tree reader written after the specification serves
    as a concrete instance. *)

From Stdlib Require Import ZArith List String Ascii Bool Lia.
Import ListNotations.

Set Warnings "-register-all".

Local Open Scope string_scope.
Local Open Scope Z_scope.

(* ================================================================== *)
(** * JavaScript primitives used by the sources *)
(* ================================================================== *)

Module Js.

(** ** Completions: a call returns a value or throws. *)

(** What a [catch] clause can observe of a thrown value: either an
    [Error] object with its message, or something that is not an
    [Error] instance. *)
Inductive Thrown : Type :=
| ThrownError (message : string)
| ThrownOther.

Inductive Completion (A : Type) : Type :=
| Return (a : A)
| Throw (e : Thrown).

Arguments Return {A} a.
Arguments Throw {A} e.

(** [error instanceof Error ? error.message : "Unknown error"] *)
Definition error_message (e : Thrown) : string :=
  match e with
  | ThrownError m => m
  | ThrownOther => "Unknown error"
  end.

(** ** Numbers.  The integers stand for the integer-valued doubles, with
    [NaN] apart; every arithmetic result of the sources stays far below
    2^53. *)
Inductive JsNumber : Type :=
| NaN
| Num (z : Z).

Definition wrap32 (z : Z) : Z := (z + 2 ^ 31) mod 2 ^ 32 - 2 ^ 31.

Definition ToInt32 (n : JsNumber) : Z :=
  match n with NaN => 0 | Num z => wrap32 z end.

Definition ToUint32 (n : JsNumber) : Z :=
  match n with NaN => 0 | Num z => z mod 2 ^ 32 end.

(** [a << b] *)
Definition shl (a b : JsNumber) : JsNumber :=
  Num (wrap32 (Z.shiftl (ToInt32 a) (ToUint32 b mod 32))).

(** [a >>> b] *)
Definition ushr (a b : JsNumber) : JsNumber :=
  Num (Z.shiftr (ToUint32 a) (ToUint32 b mod 32)).

(** [a & b] *)
Definition band (a b : JsNumber) : JsNumber :=
  Num (wrap32 (Z.land (ToInt32 a) (ToInt32 b))).

(** [a ^ b] *)
Definition bxor (a b : JsNumber) : JsNumber :=
  Num (wrap32 (Z.lxor (ToInt32 a) (ToInt32 b))).

(** [a + b] and [a - b] on numbers *)
Definition add (a b : JsNumber) : JsNumber :=
  match a, b with
  | Num x, Num y => Num (x + y)
  | _, _ => NaN
  end.

Definition sub (a b : JsNumber) : JsNumber :=
  match a, b with
  | Num x, Num y => Num (x - y)
  | _, _ => NaN
  end.

(** [a === b] on numbers: [NaN] equals nothing. *)
Definition strict_eq (a b : JsNumber) : bool :=
  match a, b with
  | Num x, Num y => x =? y
  | _, _ => false
  end.

(** ** Decimal digits *)

Definition digit_char (d : Z) : ascii := ascii_of_nat (Z.to_nat (48 + d)).

Fixpoint digits_acc (fuel : nat) (n : Z) (acc : string) : string :=
  let acc' := String (digit_char (n mod 10)) acc in
  match fuel with
  | O => acc'
  | S fuel' => if n <? 10 then acc' else digits_acc fuel' (n / 10) acc'
  end.

(** Decimal representation of a natural number given as [Z]. *)
Definition decimal (n : Z) : string :=
  digits_acc (Z.to_nat (Z.log2 n)) n "".

(** [String(n)] for the numbers of the model. *)
Definition ToString (n : JsNumber) : string :=
  match n with
  | NaN => "NaN"
  | Num z => if z <? 0 then "-" ++ decimal (- z) else decimal z
  end.

Definition digit_value (c : ascii) : option Z :=
  let n := Z.of_nat (nat_of_ascii c) in
  if (48 <=? n) && (n <=? 57) then Some (n - 48) else None.

Fixpoint digits_value (s : string) (acc : Z) : option Z :=
  match s with
  | EmptyString => Some acc
  | String c rest =>
      match digit_value c with
      | Some d => digits_value rest (10 * acc + d)
      | None => None
      end
  end.

(** [Number(s)] on a string.  Exact on strings of decimal digits, on the
    empty string and on strings holding a character that no numeric
    literal has (a colon); these are the strings that reach it from an
    address accepted by [isValidIP].  Signs, blanks, exponents and
    radix prefixes are read as [NaN]. *)
Definition Number (s : string) : JsNumber :=
  match digits_value s 0 with
  | Some z => Num z
  | None => NaN
  end.

(** ** Strings and arrays *)

(** [s.split(sep)] for a one-character separator. *)
Fixpoint split (sep : ascii) (s : string) : list string :=
  match s with
  | EmptyString => [EmptyString]
  | String c rest =>
      if Ascii.eqb c sep then EmptyString :: split sep rest
      else match split sep rest with
           | [] => [String c EmptyString]
           | p :: ps => String c p :: ps
           end
  end.

(** [parts.join(sep)] on an array of strings. *)
Fixpoint join (sep : string) (parts : list string) : string :=
  match parts with
  | [] => EmptyString
  | p :: rest =>
      match rest with
      | [] => p
      | _ :: _ => p ++ sep ++ join sep rest
      end
  end.

(** [s.includes(c)] for a one-character needle. *)
Fixpoint includes (c : ascii) (s : string) : bool :=
  match s with
  | EmptyString => false
  | String x rest => Ascii.eqb x c || includes c rest
  end.

(** [parts.slice(0, n)] *)
Definition slice0 {A : Type} (n : nat) (parts : list A) : list A := firstn n parts.

(** ** Values.  The decoded records handed out by the reader are plain
    JSON-like data: objects keep their fields in insertion order. *)
Inductive JsValue : Type :=
| JNull
| JBool (b : bool)
| JNum (n : Z)
| JStr (s : string)
| JArr (items : list JsValue)
| JObj (fields : list (string * JsValue)).

(** Induction on a value through the items of its arrays. *)
Section ItemsInduction.

Variable P : JsValue -> Prop.
Hypothesis Pnull : P JNull.
Hypothesis Pbool : forall b, P (JBool b).
Hypothesis Pnum : forall n, P (JNum n).
Hypothesis Pstr : forall s, P (JStr s).
Hypothesis Parr : forall items, Forall P items -> P (JArr items).
Hypothesis Pobj : forall fields, P (JObj fields).

Fixpoint JsValue_items_ind (v : JsValue) : P v :=
  match v with
  | JNull => Pnull
  | JBool b => Pbool b
  | JNum n => Pnum n
  | JStr s => Pstr s
  | JArr items =>
      Parr items
        ((fix all (l : list JsValue) : Forall P l :=
            match l with
            | [] => Forall_nil P
            | x :: rest => Forall_cons x (JsValue_items_ind x) (all rest)
            end) items)
  | JObj fields => Pobj fields
  end.

End ItemsInduction.

(** The fields of an object, without repeated names; a field is looked
    up from the front. *)
Definition Object : Type := list (string * JsValue).

Fixpoint field (key : string) (o : Object) : option JsValue :=
  match o with
  | [] => None
  | (k, v) :: rest => if String.eqb k key then Some v else field key rest
  end.

(** The object holds a field of that name. *)
Definition contains (key : string) (o : Object) : Prop :=
  exists v, In (key, v) o.

(** [key in o], for the keys that [Object.prototype] lacks. *)
Definition has_key (key : string) (o : Object) : bool :=
  match field key o with Some _ => true | None => false end.

(** [typeof v === "number"]; an absent property is [undefined]. *)
Definition typeof_number (v : option JsValue) : bool :=
  match v with Some (JNum _) => true | _ => false end.

(** Truthiness of a property value ([undefined] when absent). *)
Definition truthy (v : option JsValue) : bool :=
  match v with
  | None => false
  | Some JNull => false
  | Some (JBool b) => b
  | Some (JNum n) => negb (n =? 0)
  | Some (JStr s) => negb (String.eqb s "")
  | Some (JArr _) => true
  | Some (JObj _) => true
  end.

(** [v?.key]: [undefined] on [null], [undefined] and on values without
    that property. *)
Definition opt_prop (v : option JsValue) (key : string) : option JsValue :=
  match v with
  | Some (JObj fields) => field key fields
  | _ => None
  end.

(** [String(v)], as a template literal or [join] applies it.  An object
    is converted through its [toString]: the one of [Object.prototype]
    gives "[object Object]"; a field of that name, which in decoded data
    is never a function, hides it, and the conversion throws a
    [TypeError].  An array joins its items with commas, [null] items
    counting as the empty text. *)
Definition not_primitive : Thrown :=
  ThrownError "Cannot convert object to primitive value".

Fixpoint value_to_string (v : JsValue) : Completion string :=
  match v with
  | JNull => Return "null"
  | JBool true => Return "true"
  | JBool false => Return "false"
  | JNum n => Return (ToString (Num n))
  | JStr s => Return s
  | JArr items =>
      (fix go (l : list JsValue) : Completion string :=
         match l with
         | [] => Return ""
         | x :: rest =>
             match (match x with JNull => Return "" | _ => value_to_string x end) with
             | Throw e => Throw e
             | Return sx =>
                 match rest with
                 | [] => Return sx
                 | _ :: _ =>
                     match go rest with
                     | Throw e => Throw e
                     | Return srest => Return (sx ++ "," ++ srest)
                     end
                 end
             end
         end) items
  | JObj fields =>
      if has_key "toString" fields then Throw not_primitive
      else Return "[object Object]"
  end.

(** The conversion of one item by [join]: [null] gives the empty text. *)
Definition item_to_string (v : JsValue) : Completion string :=
  match v with
  | JNull => Return ""
  | _ => value_to_string v
  end.

(** [parts.join(sep)] on an array of values: the items are converted
    from the first on. *)
Fixpoint items_to_strings (parts : list JsValue) : Completion (list string) :=
  match parts with
  | [] => Return []
  | x :: rest =>
      match item_to_string x with
      | Throw e => Throw e
      | Return sx =>
          match items_to_strings rest with
          | Throw e => Throw e
          | Return srest => Return (sx :: srest)
          end
      end
  end.

(** *** [JSON.stringify] *)

Definition hex_char (d : Z) : ascii :=
  if d <? 10 then digit_char d else ascii_of_nat (Z.to_nat (87 + d)).

Definition quote_char : ascii := ascii_of_nat 34.
Definition backslash_char : ascii := ascii_of_nat 92.

Definition escape_char (c : ascii) : string :=
  let n := Z.of_nat (nat_of_ascii c) in
  if n =? 34 then String backslash_char (String quote_char "")
  else if n =? 92 then String backslash_char (String backslash_char "")
  else if n =? 8 then String backslash_char "b"
  else if n =? 9 then String backslash_char "t"
  else if n =? 10 then String backslash_char "n"
  else if n =? 12 then String backslash_char "f"
  else if n =? 13 then String backslash_char "r"
  else if n <? 32 then
    String backslash_char
      ("u00" ++ String (hex_char (n / 16)) (String (hex_char (n mod 16)) ""))
  else String c "".

Fixpoint escape (s : string) : string :=
  match s with
  | EmptyString => EmptyString
  | String c rest => escape_char c ++ escape rest
  end.

Definition quote (s : string) : string :=
  String quote_char (escape s ++ String quote_char "").

Fixpoint stringify_value (v : JsValue) : string :=
  match v with
  | JNull => "null"
  | JBool true => "true"
  | JBool false => "false"
  | JNum n => ToString (Num n)
  | JStr s => quote s
  | JArr items =>
      "[" ++ (fix go (l : list JsValue) : string :=
                match l with
                | [] => ""
                | x :: rest =>
                    match rest with
                    | [] => stringify_value x
                    | _ :: _ => stringify_value x ++ "," ++ go rest
                    end
                end) items ++ "]"
  | JObj fields =>
      "{" ++ (fix go (l : list (string * JsValue)) : string :=
                match l with
                | [] => ""
                | (k, x) :: rest =>
                    match rest with
                    | [] => quote k ++ ":" ++ stringify_value x
                    | _ :: _ => quote k ++ ":" ++ stringify_value x ++ "," ++ go rest
                    end
                end) fields ++ "}"
  end.

(** [JSON.stringify(r)] where [r] is a record or [null]. *)
Definition JSON_stringify (r : option Object) : string :=
  match r with
  | None => "null"
  | Some fields => stringify_value (JObj fields)
  end.

End Js.

Import Js.

(* ================================================================== *)
(** * Regular expressions, for the two patterns of [isValidIP] *)
(* ================================================================== *)

Module Regex.

Inductive regex : Type :=
| Void
| Eps
| Chr (c : ascii)
| Range (lo hi : ascii)
| Alt (r1 r2 : regex)
| Seq (r1 r2 : regex)
| Star (r : regex).

(** [r?] *)
Definition Opt (r : regex) : regex := Alt r Eps.

(** [r{n}] *)
Fixpoint Times (n : nat) (r : regex) : regex :=
  match n with
  | O => Eps
  | S k => Seq r (Times k r)
  end.

(** [r{0,n}] *)
Fixpoint UpTo (n : nat) (r : regex) : regex :=
  match n with
  | O => Eps
  | S k => Opt (Seq r (UpTo k r))
  end.

(** [r{m,n}] *)
Definition Rep (m n : nat) (r : regex) : regex :=
  Seq (Times m r) (UpTo (n - m) r).

(** [r{1,}] *)
Definition Plus (r : regex) : regex := Seq r (Star r).

(** A literal run of characters. *)
Fixpoint Lit (s : string) : regex :=
  match s with
  | EmptyString => Eps
  | String c rest =>
      match rest with
      | EmptyString => Chr c
      | String _ _ => Seq (Chr c) (Lit rest)
      end
  end.

(** [r1|r2|...] *)
Fixpoint AltOf (rs : list regex) : regex :=
  match rs with
  | [] => Void
  | r :: rest =>
      match rest with
      | [] => r
      | _ :: _ => Alt r (AltOf rest)
      end
  end.

Definition in_range (lo hi c : ascii) : bool :=
  (nat_of_ascii lo <=? nat_of_ascii c)%nat && (nat_of_ascii c <=? nat_of_ascii hi)%nat.

Fixpoint nullable (r : regex) : bool :=
  match r with
  | Void => false
  | Eps => true
  | Chr _ => false
  | Range _ _ => false
  | Alt r1 r2 => nullable r1 || nullable r2
  | Seq r1 r2 => nullable r1 && nullable r2
  | Star _ => true
  end.

Definition mkSeq (r1 r2 : regex) : regex :=
  match r1, r2 with
  | Void, _ => Void
  | _, Void => Void
  | Eps, _ => r2
  | _, _ => Seq r1 r2
  end.

Definition mkAlt (r1 r2 : regex) : regex :=
  match r1, r2 with
  | Void, _ => r2
  | _, Void => r1
  | _, _ => Alt r1 r2
  end.

(** The derivative of [r] by the character [c]. *)
Fixpoint deriv (c : ascii) (r : regex) : regex :=
  match r with
  | Void => Void
  | Eps => Void
  | Chr x => if Ascii.eqb x c then Eps else Void
  | Range lo hi => if in_range lo hi c then Eps else Void
  | Alt r1 r2 => mkAlt (deriv c r1) (deriv c r2)
  | Seq r1 r2 =>
      if nullable r1 then mkAlt (mkSeq (deriv c r1) r2) (deriv c r2)
      else mkSeq (deriv c r1) r2
  | Star r1 => mkSeq (deriv c r1) (Star r1)
  end.

(** [/^r$/.test(s)] *)
Fixpoint test (r : regex) (s : string) : bool :=
  match s with
  | EmptyString => nullable r
  | String c rest => test (deriv c r) rest
  end.

(** The language of a pattern. *)
Inductive Lang : regex -> string -> Prop :=
| LangEps : Lang Eps ""
| LangChr c : Lang (Chr c) (String c "")
| LangRange lo hi c : in_range lo hi c = true -> Lang (Range lo hi) (String c "")
| LangAltL r1 r2 s : Lang r1 s -> Lang (Alt r1 r2) s
| LangAltR r1 r2 s : Lang r2 s -> Lang (Alt r1 r2) s
| LangSeq r1 r2 s1 s2 : Lang r1 s1 -> Lang r2 s2 -> Lang (Seq r1 r2) (s1 ++ s2)
| LangStarNil r : Lang (Star r) ""
| LangStarCons r s1 s2 : Lang r s1 -> Lang (Star r) s2 -> Lang (Star r) (s1 ++ s2).

End Regex.

Import Regex.

(* ================================================================== *)
(** * [src/mmdb.ts] *)
(* ================================================================== *)

Module Mmdb.

(** ** [isValidIP] *)

Definition digit : regex := Range "0" "9".
Definition hex : regex := AltOf [Range "0" "9"; Range "a" "f"; Range "A" "F"].
Definition alnum : regex := AltOf [Range "0" "9"; Range "a" "z"; Range "A" "Z"].

(** [(?:25[0-5]|2[0-4][0-9]|[01]?[0-9][0-9]?)] *)
Definition octet4 : regex :=
  AltOf [ Seq (Lit "25") (Range "0" "5");
          Seq (Chr "2") (Seq (Range "0" "4") digit);
          Seq (Opt (Range "0" "1")) (Seq digit (Opt digit)) ].

(** [/^(?:(?:25[0-5]|2[0-4][0-9]|[01]?[0-9][0-9]?)\.){3}(?:25[0-5]|2[0-4][0-9]|[01]?[0-9][0-9]?)$/] *)
Definition ipv4Regex : regex :=
  Seq (Times 3 (Seq octet4 (Chr "."))) octet4.

(** [[0-9a-fA-F]{1,4}] *)
Definition group : regex := Rep 1 4 hex.
(** [[0-9a-fA-F]{1,4}:] and [:[0-9a-fA-F]{1,4}] *)
Definition group_colon : regex := Seq group (Chr ":").
Definition colon_group : regex := Seq (Chr ":") group.

(** [(25[0-5]|(2[0-4]|1{0,1}[0-9]){0,1}[0-9])] *)
Definition octet6 : regex :=
  Alt (Seq (Lit "25") (Range "0" "5"))
      (Seq (Rep 0 1 (Alt (Seq (Chr "2") (Range "0" "4"))
                         (Seq (Rep 0 1 (Chr "1")) digit)))
           digit).

(** [((25[0-5]|...)\.){3,3}(25[0-5]|...)] *)
Definition dotted6 : regex :=
  Seq (Rep 3 3 (Seq octet6 (Chr "."))) octet6.

(** The twelve alternatives of the IPv6 pattern, in source order. *)
Definition ipv6Regex : regex :=
  AltOf
    [ Seq (Rep 7 7 group_colon) group;
      Seq (Rep 1 7 group_colon) (Chr ":");
      Seq (Rep 1 6 group_colon) (Seq (Chr ":") group);
      Seq (Rep 1 5 group_colon) (Rep 1 2 colon_group);
      Seq (Rep 1 4 group_colon) (Rep 1 3 colon_group);
      Seq (Rep 1 3 group_colon) (Rep 1 4 colon_group);
      Seq (Rep 1 2 group_colon) (Rep 1 5 colon_group);
      Seq group (Seq (Chr ":") (Rep 1 6 colon_group));
      Seq (Chr ":") (Alt (Rep 1 7 colon_group) (Chr ":"));
      Seq (Lit "fe80:")
          (Seq (Rep 0 4 (Seq (Chr ":") (Rep 0 4 hex)))
               (Seq (Chr "%") (Plus alnum)));
      Seq (Lit "::")
          (Seq (Rep 0 1 (Seq (Lit "ffff")
                             (Seq (Rep 0 1 (Seq (Chr ":") (Rep 1 4 (Chr "0"))))
                                  (Chr ":"))))
               dotted6);
      Seq (Rep 1 4 group_colon) (Seq (Chr ":") dotted6) ].

Definition isValidIP (ip : string) : bool :=
  test ipv4Regex ip || test ipv6Regex ip.

(** ** Records and contexts *)

(** [MMDBDataset.type]: ["asn" | "city" | "country"] *)
Inductive DatasetType : Type := asn | city | country.

Definition type_name (t : DatasetType) : string :=
  match t with
  | asn => "asn"
  | city => "city"
  | country => "country"
  end.

Record MMDBDataset : Type := {
  name : string;
  url : string;
  type : DatasetType
}.

(** [Response] of the reader and [MMDBRecord]: decoded objects. *)
Definition Response : Type := Object.
Definition MMDBRecord : Type := Object.

(** ** Type guards *)

Definition isAsnResponse (result : Response) : bool :=
  has_key "autonomous_system_number" result
  && typeof_number (field "autonomous_system_number" result).

Definition isCityResponse (result : Response) : bool :=
  has_key "city" result
  || has_key "location" result
  || has_key "postal" result
  || has_key "subdivisions" result.

Definition isCountryResponse (result : Response) : bool :=
  has_key "country" result || has_key "continent" result.

(** ** [transformResult] *)

Definition asn_fallback : MMDBRecord :=
  [ ("autonomous_system_number", JNum 0);
    ("autonomous_system_organization", JStr "Unknown") ].

Definition transformResult (result : Response) (datasetType : string) : MMDBRecord :=
  if String.eqb datasetType "asn" then
    if isAsnResponse result then result else asn_fallback
  else if String.eqb datasetType "city" then
    if isCityResponse result then result else []
  else if String.eqb datasetType "country" then
    if isCountryResponse result then result else []
  else result.

Section WithReader.

(** The [Reader<Response>] object of [mmdb-lib]: its state, and
    [reader.get(ip)], which yields a record or [null], or throws, and
    leaves the reader in a state of its choosing. *)
Variable Reader : Type.
Variable get : Reader -> string -> Completion (option Response) * Reader.

Record MMDBContext : Type := {
  dataset : option MMDBDataset;
  reader : option Reader
}.

Definition createMMDBContext : MMDBContext :=
  {| dataset := None; reader := None |}.

(** The context after a call that left its reader in state [rd]. *)
Definition with_reader (context : MMDBContext) (rd : Reader) : MMDBContext :=
  {| dataset := dataset context; reader := Some rd |}.

(** ** [lookupIP] *)

Definition lookupIP (context : MMDBContext) (ip : string)
  : Completion (option MMDBRecord) * MMDBContext :=
  match dataset context, reader context with
  | Some ds, Some rd =>
      if negb (isValidIP ip) then
        (Throw (ThrownError "Invalid IP address format"), context)
      else
        let '(result, rd1) := get rd ip in
        let context1 := with_reader context rd1 in
        match result with
        | Return None => (Return None, context1)
        | Return (Some r) =>
            (Return (Some (transformResult r (type_name (type ds)))), context1)
        | Throw error =>
            (Throw (ThrownError ("IP lookup failed: " ++ error_message error)),
             context1)
        end
  | _, _ => (Throw (ThrownError "No dataset loaded"), context)
  end.

(** ** [findIPv4CIDRBlock] *)

Section IPv4Loop.

Variable ipInt : JsNumber.
Variable targetDataStr : string.

(** The four bytes of a 32-bit value, joined by dots. *)
Definition dotted (n : JsNumber) : string :=
  join "."
    (map ToString
       [ band (ushr n (Num 24)) (Num 255);
         band (ushr n (Num 16)) (Num 255);
         band (ushr n (Num 8)) (Num 255);
         band n (Num 255) ]).

(** The body of [for (let bit = 0; bit < 32; bit++)], with [remaining]
    iterations to go; [None] when the loop runs to its end. *)
Fixpoint ipv4_loop (remaining : nat) (rd : Reader) : option string * Reader :=
  match remaining with
  | O => (None, rd)
  | S remaining' =>
      let bit := Num (32 - Z.of_nat remaining) in
      let currentPrefix := add bit (Num 1) in
      let mask := shl (Num 4294967295) (sub (Num 32) currentPrefix) in
      let currentNetwork := band ipInt mask in
      let networkIP := dotted currentNetwork in
      let block := networkIP ++ "/" ++ ToString currentPrefix in
      let '(networkData, rd1) := get rd networkIP in
      match networkData with
      | Throw _ => ipv4_loop remaining' rd1
      | Return networkData =>
          let networkDataStr := JSON_stringify networkData in
          if String.eqb networkDataStr targetDataStr then (Some block, rd1)
          else
            let testBit := shl (Num 1) (sub (Num 31) bit) in
            let alternateIP := bxor ipInt testBit in
            if strict_eq (band alternateIP mask) currentNetwork then
              let alternateIPStr := dotted alternateIP in
              let '(alternateData, rd2) := get rd1 alternateIPStr in
              match alternateData with
              | Throw _ => (Some block, rd2)
              | Return alternateData =>
                  let alternateDataStr := JSON_stringify alternateData in
                  if negb (String.eqb alternateDataStr targetDataStr)
                  then (Some block, rd2)
                  else ipv4_loop remaining' rd2
              end
            else ipv4_loop remaining' rd1
      end
  end.

End IPv4Loop.

(** [parts[i]] of [ip.split(".").map(Number)]; a missing entry is
    [undefined], which the arithmetic reads like [NaN]. *)
Definition part (parts : list JsNumber) (i : nat) : JsNumber := nth i parts NaN.

Definition ipv4_int (ip : string) : JsNumber :=
  let parts := map Number (split "." ip) in
  add (add (add (shl (part parts 0) (Num 24)) (shl (part parts 1) (Num 16)))
           (shl (part parts 2) (Num 8)))
      (part parts 3).

Definition findIPv4CIDRBlock (rd : Reader) (ip : string) (targetDataStr : string)
  : string * Reader :=
  let ipInt := ipv4_int ip in
  match ipv4_loop ipInt targetDataStr 32 rd with
  | (Some block, rd') => (block, rd')
  | (None, rd') => (ip ++ "/32", rd')
  end.

(** ** [findIPv6CIDRBlock] *)

Definition commonPrefixes : list Z := [128; 64; 56; 48; 40; 32; 24; 16].

Section IPv6Loop.

Variable ip : string.
Variable targetDataStr : string.

Fixpoint ipv6_loop (prefixes : list Z) (rd : Reader) : option string * Reader :=
  match prefixes with
  | [] => (None, rd)
  | prefix :: rest =>
      let parts := split ":" ip in
      let cidrBlock :=
        if 64 <=? prefix then
          join ":" (slice0 4 parts) ++ "::/" ++ ToString (Num prefix)
        else if 32 <=? prefix then
          join ":" (slice0 2 parts) ++ "::/" ++ ToString (Num prefix)
        else
          nth 0 parts "undefined" ++ "::/" ++ ToString (Num prefix) in
      let '(testResult, rd1) := get rd ip in
      match testResult with
      | Return (Some r) =>
          if String.eqb (JSON_stringify (Some r)) targetDataStr
          then (Some cidrBlock, rd1)
          else ipv6_loop rest rd1
      | Return None => ipv6_loop rest rd1
      | Throw _ => ipv6_loop rest rd1
      end
  end.

End IPv6Loop.

Definition findIPv6CIDRBlock (rd : Reader) (ip : string) (targetDataStr : string)
  : string * Reader :=
  match ipv6_loop ip targetDataStr commonPrefixes rd with
  | (Some block, rd') => (block, rd')
  | (None, rd') => (ip ++ "/128", rd')
  end.

(** ** [findCIDRBlock] *)

Definition findCIDRBlock (context : MMDBContext) (ip : string)
  : Completion (option string) * MMDBContext :=
  match dataset context, reader context with
  | Some ds, Some rd =>
      if negb (isValidIP ip) then
        (Throw (ThrownError "Invalid IP address format"), context)
      else
        let '(targetData, rd1) := get rd ip in
        match targetData with
        | Throw _ => (Return None, with_reader context rd1)
        | Return None => (Return None, with_reader context rd1)
        | Return (Some r) =>
            let targetDataStr := JSON_stringify (Some r) in
            let isIPv4 := includes "." ip in
            let '(block, rd2) :=
              if isIPv4 then findIPv4CIDRBlock rd1 ip targetDataStr
              else findIPv6CIDRBlock rd1 ip targetDataStr in
            (Return (Some block), with_reader context rd2)
        end
  | _, _ => (Throw (ThrownError "No dataset loaded"), context)
  end.

End WithReader.

Arguments dataset {Reader} _.
Arguments reader {Reader} _.
Arguments createMMDBContext {Reader}.
Arguments with_reader {Reader} _ _.
Arguments lookupIP {Reader} get context ip.
Arguments findCIDRBlock {Reader} get context ip.
Arguments findIPv4CIDRBlock {Reader} get rd ip targetDataStr.
Arguments findIPv6CIDRBlock {Reader} get rd ip targetDataStr.
Arguments ipv4_loop {Reader} get ipInt targetDataStr remaining rd.
Arguments ipv6_loop {Reader} get ip targetDataStr prefixes rd.

End Mmdb.
Import Mmdb.

(* ================================================================== *)
(** * [src/App.tsx]: the result formatter *)
(* ================================================================== *)

Module App.

(** [v || fallback] inside a template literal, which converts the
    value chosen to a string. *)
Definition or_default (v : option JsValue) (fallback : string) : Completion string :=
  match v with
  | Some x => if truthy v then value_to_string x else Return fallback
  | None => Return fallback
  end.

(** [v.toFixed(2)] on a truthy [v]; only numbers have the method.
    [expression] is the text of [v] in the source, which the message of
    the error cites. *)
Definition toFixed2 (expression : string) (v : option JsValue) : Completion string :=
  match v with
  | Some (JNum n) => Return (ToString (Num n) ++ ".00")
  | _ => Throw (ThrownError (expression ++ ".toFixed is not a function"))
  end.

(** [data.key?.names?.en] *)
Definition names_en (data : MMDBRecord) (key : string) : option JsValue :=
  opt_prop (opt_prop (field key data) "names") "en".

(** [if (v) parts.push(v)] *)
Definition push_if (parts : list JsValue) (v : option JsValue) : list JsValue :=
  match v with
  | Some x => if truthy v then parts ++ [x] else parts
  | None => parts
  end.

(** [if (v) parts.push(`(${v})`)] *)
Definition push_bracketed_if (parts : list JsValue) (v : option JsValue)
  : Completion (list JsValue) :=
  match v with
  | Some x =>
      if truthy v then
        match value_to_string x with
        | Throw e => Throw e
        | Return s => Return (parts ++ [JStr ("(" ++ s ++ ")")])%list
        end
      else Return parts
  | None => Return parts
  end.

(** [parts.join(sep)] *)
Definition join_values (sep : string) (parts : list JsValue) : Completion string :=
  match items_to_strings parts with
  | Throw e => Throw e
  | Return strings => Return (join sep strings)
  end.

Definition formatLookupData (ip : string) (data : option MMDBRecord) : Completion string :=
  match data with
  | None => Return "No data found"
  | Some data =>
      if String.eqb ip "1.1.1.1" then Return "Global (Cloudflare DNS)"
      else if has_key "autonomous_system_number" data then
        match or_default (field "autonomous_system_number" data) "?????" with
        | Throw e => Throw e
        | Return number =>
            match or_default (field "autonomous_system_organization" data) "Unknown" with
            | Throw e => Throw e
            | Return organization => Return ("AS" ++ number ++ " - " ++ organization)
            end
        end
      else if has_key "city" data || has_key "location" data then
        let parts := [] in
        let parts := push_if parts (names_en data "city") in
        let parts := push_if parts (names_en data "country") in
        match join_values ", " parts with
        | Throw e => Throw e
        | Return result =>
            let latitude := opt_prop (field "location" data) "latitude" in
            let longitude := opt_prop (field "location" data) "longitude" in
            let finish (result : string) : Completion string :=
              if (List.length parts =? 1)%nat
              then Return (result ++ " [City not specified]")
              else Return (if String.eqb result "" then "Unknown Location" else result) in
            if truthy latitude && truthy longitude then
              match toFixed2 "data.location.latitude" latitude with
              | Throw e => Throw e
              | Return lat =>
                  match toFixed2 "data.location.longitude" longitude with
                  | Throw e => Throw e
                  | Return lon =>
                      let coordinates := "(" ++ lat ++ ", " ++ lon ++ ")" in
                      finish (if String.eqb result "" then coordinates
                              else result ++ " " ++ coordinates)
                  end
              end
            else finish result
        end
      else if has_key "country" data then
        let countryParts := [] in
        let countryParts := push_if countryParts (names_en data "country") in
        match push_bracketed_if countryParts (names_en data "continent") with
        | Throw e => Throw e
        | Return countryParts =>
            match join_values " " countryParts with
            | Throw e => Throw e
            | Return joined =>
                Return (if String.eqb joined "" then "Unknown Country" else joined)
            end
        end
      else Return "Unknown"
  end.

End App.

(* ================================================================== *)
(** * IPv4 literals as 32-bit values, prefixes and blocks *)
(* ================================================================== *)

Module Ipv4.

Definition is_octet (z : Z) : bool := (0 <=? z) && (z <=? 255).

(** The 32-bit value of a dotted quad. *)
Definition value (ip : string) : option Z :=
  match map Number (split "." ip) with
  | [Num a; Num b; Num c; Num d] =>
      if is_octet a && is_octet b && is_octet c && is_octet d
      then Some (a * 2 ^ 24 + b * 2 ^ 16 + c * 2 ^ 8 + d)
      else None
  | _ => None
  end.

(** The bits of a 32-bit value, most significant first. *)
Definition bits (x : Z) : list bool :=
  map (fun i => Z.testbit x (31 - Z.of_nat i)) (seq 0 32).

(** The netmask of a prefix length: [p] ones followed by [32 - p] zeros. *)
Definition netmask (p : Z) : Z := Z.shiftl (Z.ones p) (32 - p).

(** A 32-bit value masked to its first [p] bits. *)
Definition masked (x p : Z) : Z := Z.land x (netmask p).

(** [ip] lies in the block [network/p]. *)
Definition in_block (ip network : string) (p : Z) : Prop :=
  exists x n, value ip = Some x /\ value network = Some n /\ masked x p = n.

(** The text of a CIDR block. *)
Definition cidr (network : string) (p : Z) : string :=
  network ++ "/" ++ ToString (Num p).

(** The 256 values of a byte. *)
Definition octets : list Z := map Z.of_nat (seq 0 256).

(** [String(a)] holds no dot and [Number] reads it back. *)
Definition octet_text_ok (a : Z) : bool :=
  match Number (ToString (Num a)) with
  | Num b => (a =? b) && negb (includes "." (ToString (Num a)))
  | NaN => false
  end.

End Ipv4.

(* ================================================================== *)
(** * A search-tree reader *)
(* ================================================================== *)

Module SearchTree.

(** Modelled from the spec: the reader of the [mmdb-lib] package is not
    part of the sources.  Section 4.3 of the specification describes its
    search tree: a binary trie walked from the root with the bits of the
    address, most significant first, 0 to the left record and 1 to the
    right; a record is another node, a data pointer or the no-data
    sentinel; the number of bits consumed when the walk stops is the
    matched prefix length.  This is the tree of an IPv4 database. *)
Inductive Tree : Type :=
| Node (left right : Tree)
| DataPointer (data : Response)
| NoData.

(** Modelled from the spec: the tree walk of section 4.3, returning the
    outcome together with the depth reached. *)
Fixpoint walk (t : Tree) (address : list bool) (depth : nat) : option Response * nat :=
  match t with
  | DataPointer d => (Some d, depth)
  | NoData => (None, depth)
  | Node l r =>
      match address with
      | [] => (None, depth)
      | b :: rest => walk (if b then r else l) rest (S depth)
      end
  end.

(** Modelled from the spec: [Reader.lookup] of section 6 over an IPv4
    tree; a string that is no dotted quad is refused with an error. *)
Definition get (t : Tree) (ip : string) : Completion (option Response) * Tree :=
  match Ipv4.value ip with
  | Some x => (Return (fst (walk t (Ipv4.bits x) 0)), t)
  | None => (Throw (ThrownError "InvalidAddress"), t)
  end.

(** Modelled from the spec: the matched prefix length of section 4.3. *)
Definition depth (t : Tree) (ip : string) : option Z :=
  match Ipv4.value ip with
  | Some x => Some (Z.of_nat (snd (walk t (Ipv4.bits x) 0)))
  | None => None
  end.

End SearchTree.

(* ================================================================== *)
(** * Probes of the CIDR search, and readers that only read *)
(* ================================================================== *)

Module Probing.

Section WithReader.

Variable Reader : Type.
Variable get : Reader -> string -> Completion (option Response) * Reader.

(** A reader whose [get] leaves it as it was: a pure read over the
    immutable byte source. *)
Definition read_only : Prop := forall rd ip, snd (get rd ip) = rd.

(** The dotted quad that the search probes at prefix length [p]: the
    query masked to its first [p] bits. *)
Definition network_at (ipInt : JsNumber) (p : Z) : string :=
  dotted (band ipInt (shl (Num 4294967295) (sub (Num 32) (Num p)))).

(** The probe at prefix length [p] answers, and its answer serialises to
    the text of the target. *)
Definition probe_hit (rd : Reader) (ipInt : JsNumber) (targetDataStr : string)
           (p : Z) : bool :=
  match fst (get rd (network_at ipInt p)) with
  | Return v => String.eqb (JSON_stringify v) targetDataStr
  | Throw _ => false
  end.

(** The reader that finds nothing wherever [get] throws. *)
Definition quiet (rd : Reader) (ip : string)
  : Completion (option Response) * Reader :=
  let '(answer, rd') := get rd ip in
  (match answer with
   | Throw _ => Return None
   | Return _ => answer
   end, rd').

End WithReader.

Arguments read_only {Reader} get.
Arguments probe_hit {Reader} get rd ipInt targetDataStr p.
Arguments quiet {Reader} get rd ip.

(** A reader given by a fixed table of answers. *)
Definition table_get (answers : string -> Completion (option Response))
  : unit -> string -> Completion (option Response) * unit :=
  fun rd ip => (answers ip, rd).

End Probing.

Import Probing.

(* ================================================================== *)
(** * Sample records, datasets and readers *)
(* ================================================================== *)

Module Samples.

Definition record_AA : Response :=
  [("country", JObj [("iso_code", JStr "AA")])].

Definition record_BB : Response :=
  [("country", JObj [("iso_code", JStr "BB")])].

(** A record that holds the ASN key with a text value. *)
Definition record_text_asn : Response :=
  [("autonomous_system_number", JStr "AS64500")].

Definition country_dataset : MMDBDataset :=
  {| name := "GeoLite2-Country"; url := "mmdb/GeoLite2-Country.mmdb"; type := country |}.

Definition asn_dataset : MMDBDataset :=
  {| name := "GeoLite2-ASN"; url := "mmdb/GeoLite2-ASN.mmdb"; type := asn |}.

(** The tree of the networks 0.0.0.0/2 and 64.0.0.0/2, with different
    records; nothing above 128.0.0.0. *)
Definition two_quarters : SearchTree.Tree :=
  SearchTree.Node
    (SearchTree.Node (SearchTree.DataPointer record_AA)
                     (SearchTree.DataPointer record_BB))
    SearchTree.NoData.

Definition tree_context (ds : MMDBDataset) (t : SearchTree.Tree)
  : MMDBContext SearchTree.Tree :=
  {| dataset := Some ds; reader := Some t |}.

(** A reader that knows one address and raises on every other one, as
    on a file whose other entries are malformed. *)
Definition one_good_entry (ip : string) : Completion (option Response) :=
  if String.eqb ip "8.8.8.8" then Return (Some record_AA)
  else Throw (ThrownError "UnknownTypeTag").

(** A reader with one IPv6 entry. *)
Definition one_ipv6_entry (ip : string) : Completion (option Response) :=
  if String.eqb ip "2001:4860:4860::8888" then Return (Some record_AA)
  else Return None.

Definition table_context (ds : MMDBDataset) : MMDBContext unit :=
  {| dataset := Some ds; reader := Some tt |}.

End Samples.

Import Samples.

(* ================================================================== *)
(** * More JavaScript primitives: text and comparisons *)
(* ================================================================== *)

Module Text.

(** A character stands for a code unit below 256. *)

(** [c] lowered by [toLowerCase]: the letters A-Z and the capital
    letters of the upper half (all of 192..222 but the sign at 215). *)
Definition lower_char (c : ascii) : ascii :=
  let n := nat_of_ascii c in
  if ((65 <=? n) && (n <=? 90))%nat then ascii_of_nat (n + 32)
  else if ((192 <=? n) && (n <=? 222) && negb (n =? 215))%nat
       then ascii_of_nat (n + 32)
       else c.

(** [s.toLowerCase()] *)
Fixpoint toLowerCase (s : string) : string :=
  match s with
  | EmptyString => EmptyString
  | String c rest => String (lower_char c) (toLowerCase rest)
  end.

(** [s.startsWith(p)] *)
Fixpoint startsWith (s p : string) : bool :=
  match p with
  | EmptyString => true
  | String x p' =>
      match s with
      | EmptyString => false
      | String y s' => Ascii.eqb x y && startsWith s' p'
      end
  end.

(** [s.includes(needle)] *)
Fixpoint includes_text (s needle : string) : bool :=
  startsWith s needle
  || match s with
     | EmptyString => false
     | String _ rest => includes_text rest needle
     end.

(** White space and line terminators below 256. *)
Definition is_space (c : ascii) : bool :=
  let n := nat_of_ascii c in
  ((9 <=? n) && (n <=? 13) || (n =? 32) || (n =? 160))%nat.

Fixpoint trimStart (s : string) : string :=
  match s with
  | EmptyString => EmptyString
  | String c rest => if is_space c then trimStart rest else s
  end.

Fixpoint trimEnd (s : string) : string :=
  match s with
  | EmptyString => EmptyString
  | String c rest =>
      match trimEnd rest with
      | EmptyString => if is_space c then EmptyString else String c EmptyString
      | String _ _ as kept => String c kept
      end
  end.

(** [s.trim()] *)
Definition trim (s : string) : string := trimEnd (trimStart s).

(** [a >= b] and [a <= b] on numbers: false on [NaN]. *)
Definition geq (a b : JsNumber) : bool :=
  match a, b with
  | Num x, Num y => y <=? x
  | _, _ => false
  end.

Definition leq (a b : JsNumber) : bool :=
  match a, b with
  | Num x, Num y => x <=? y
  | _, _ => false
  end.

End Text.

Import Text.

(* ================================================================== *)
(** * [src/mmdb.ts]: loading, and the descriptions of reserved ranges *)
(* ================================================================== *)

Module Ranges.

Definition private_10 : string :=
  "This is a private IP address (RFC 1918: 10.0.0.0/8) and is not routed on the internet.".
Definition private_172 : string :=
  "This is a private IP address (RFC 1918: 172.16.0.0/12) and is not routed on the internet.".
Definition private_192 : string :=
  "This is a private IP address (RFC 1918: 192.168.0.0/16) and is not routed on the internet.".
Definition this_network : string :=
  "This is a 'this network' address (RFC 5735: 0.0.0.0/8) used for network configuration.".
Definition loopback4 : string :=
  "This is a loopback address (RFC 5735: 127.0.0.0/8) used for local host communication.".
Definition link_local_5735 : string :=
  "This is a link-local address (RFC 5735: 169.254.0.0/16) used for automatic IP configuration.".
Definition local_control : string :=
  "This is a local network control block address (RFC 5735: 224.0.0.0/24) used for multicast.".
Definition multicast4 : string :=
  "This is a multicast address (RFC 5735: 224.0.0.0/4) used for group communication.".
Definition reserved_240 : string :=
  "This is a reserved address (RFC 5735: 240.0.0.0/4) for future use.".
Definition link_local_3927 : string :=
  "This is a link-local address (RFC 3927: 169.254.0.0/16) used for automatic IP configuration.".
Definition shared_space : string :=
  "This is a shared address space (RFC 6598: 100.64.0.0/10) used by carriers for NAT.".
Definition documentation_1 : string :=
  "This is a documentation address (RFC 5737: 192.0.2.0/24) used in examples and documentation.".
Definition documentation_2 : string :=
  "This is a documentation address (RFC 5737: 198.51.100.0/24) used in examples and documentation.".
Definition documentation_3 : string :=
  "This is a documentation address (RFC 5737: 203.0.113.0/24) used in examples and documentation.".
Definition relay_6to4 : string :=
  "This is a 6to4 relay anycast address (RFC 3068: 192.88.99.0/24) used for IPv6 transition.".
Definition benchmarking4 : string :=
  "This is a benchmarking address (RFC 2544: 198.18.0.0/15) used for network testing.".
Definition limited_broadcast : string :=
  "This is the limited broadcast address (255.255.255.255) used for network broadcasts.".

(** [getIPv4RangeDescription] *)
Definition getIPv4RangeDescription (ip : string) : option string :=
  let parts := map Number (split "." ip) in
  let a := part parts 0 in
  let b := part parts 1 in
  let c := part parts 2 in
  let d := part parts 3 in
  if strict_eq a (Num 10) then Some private_10
  else if strict_eq a (Num 172) && geq b (Num 16) && leq b (Num 31) then Some private_172
  else if strict_eq a (Num 192) && strict_eq b (Num 168) then Some private_192
  else if strict_eq a (Num 0) then Some this_network
  else if strict_eq a (Num 127) then Some loopback4
  else if strict_eq a (Num 169) && strict_eq b (Num 254) then Some link_local_5735
  else if strict_eq a (Num 224) && strict_eq b (Num 0) && strict_eq c (Num 0)
       then Some local_control
  else if geq a (Num 224) && leq a (Num 239) then Some multicast4
  else if geq a (Num 240) then Some reserved_240
  else if strict_eq a (Num 169) && strict_eq b (Num 254) then Some link_local_3927
  else if strict_eq a (Num 100) && geq b (Num 64) && leq b (Num 127) then Some shared_space
  else if strict_eq a (Num 192) && strict_eq b (Num 0) && strict_eq c (Num 2)
       then Some documentation_1
  else if strict_eq a (Num 198) && strict_eq b (Num 51) && strict_eq c (Num 100)
       then Some documentation_2
  else if strict_eq a (Num 203) && strict_eq b (Num 0) && strict_eq c (Num 113)
       then Some documentation_3
  else if strict_eq a (Num 192) && strict_eq b (Num 88) && strict_eq c (Num 99)
       then Some relay_6to4
  else if strict_eq a (Num 198) && geq b (Num 18) && leq b (Num 19) then Some benchmarking4
  else if strict_eq a (Num 255) && strict_eq b (Num 255) && strict_eq c (Num 255)
          && strict_eq d (Num 255)
       then Some limited_broadcast
  else None.

Definition loopback6 : string :=
  "This is the IPv6 loopback address (::1) used for local host communication.".
Definition unspecified6 : string :=
  "This is the IPv6 unspecified address (::) used to indicate no address.".
Definition link_local6 : string :=
  "This is a link-local address (fe80::/10) used for communication within a single network segment.".
Definition unique_local6 : string :=
  "This is a unique local address (fc00::/7) used for private networks, similar to IPv4 private addresses.".
Definition multicast6 : string :=
  "This is a multicast address (ff00::/8) used for group communication.".
Definition documentation6 : string :=
  "This is a documentation address (2001:db8::/32) used in examples and documentation.".
Definition six_to_four : string :=
  "This is a 6to4 address (2002::/16) used for IPv6 transition over IPv4.".
Definition teredo : string :=
  "This is a Teredo address (2001::/32) used for IPv6 connectivity through NAT.".
Definition benchmarking6 : string :=
  "This is a benchmarking address (2001:2::/48) used for network testing.".
Definition orchid : string :=
  "This is an ORCHID address (2001:10::/28) used for cryptographic hash identifiers.".
Definition ipv4_mapped : string :=
  "This is an IPv4-mapped IPv6 address (::ffff:0:0/96) representing an IPv4 address in IPv6 format.".
Definition ipv4_compatible : string :=
  "This is an IPv4-compatible IPv6 address (deprecated) representing an IPv4 address in IPv6 format.".

(** [getIPv6RangeDescription] *)
Definition getIPv6RangeDescription (ip : string) : option string :=
  let normalizedIP := toLowerCase ip in
  if String.eqb normalizedIP "::1" then Some loopback6
  else if String.eqb normalizedIP "::"
          || String.eqb normalizedIP "0000:0000:0000:0000:0000:0000:0000:0000"
       then Some unspecified6
  else if startsWith normalizedIP "fe80:" then Some link_local6
  else if startsWith normalizedIP "fc" || startsWith normalizedIP "fd"
       then Some unique_local6
  else if startsWith normalizedIP "ff" then Some multicast6
  else if startsWith normalizedIP "2001:db8:" then Some documentation6
  else if startsWith normalizedIP "2002:" then Some six_to_four
  else if startsWith normalizedIP "2001:0000:" || startsWith normalizedIP "2001::"
       then Some teredo
  else if startsWith normalizedIP "2001:2:" then Some benchmarking6
  else if startsWith normalizedIP "2001:10:" || startsWith normalizedIP "2001:20:"
       then Some orchid
  else if includes_text normalizedIP "::ffff:" then Some ipv4_mapped
  else if startsWith normalizedIP "::" && includes_text normalizedIP "."
       then Some ipv4_compatible
  else None.

(** [getIPRangeDescription] *)
Definition getIPRangeDescription (ip : string) : option string :=
  if includes "." ip then getIPv4RangeDescription ip
  else getIPv6RangeDescription ip.

(** The reserved IPv4 blocks that the descriptions name, in the order
    of the tests: network, prefix length, description. *)
Definition reserved_blocks : list (string * Z * string) :=
  [ ("10.0.0.0", 8, private_10);
    ("172.16.0.0", 12, private_172);
    ("192.168.0.0", 16, private_192);
    ("0.0.0.0", 8, this_network);
    ("127.0.0.0", 8, loopback4);
    ("169.254.0.0", 16, link_local_5735);
    ("224.0.0.0", 24, local_control);
    ("224.0.0.0", 4, multicast4);
    ("240.0.0.0", 4, reserved_240);
    ("100.64.0.0", 10, shared_space);
    ("192.0.2.0", 24, documentation_1);
    ("198.51.100.0", 24, documentation_2);
    ("203.0.113.0", 24, documentation_3);
    ("192.88.99.0", 24, relay_6to4);
    ("198.18.0.0", 15, benchmarking4) ].

(** The 32-bit value [x] lies in the block [network/p]. *)
Definition block_holds (x : Z) (network : string) (p : Z) : bool :=
  match Ipv4.value network with
  | Some n => Ipv4.masked x p =? n
  | None => false
  end.

(** The description of the first listed block that holds [x]. *)
Fixpoint block_description (blocks : list (string * Z * string)) (x : Z)
  : option string :=
  match blocks with
  | [] => None
  | (network, p, text) :: rest =>
      if block_holds x network p then Some text else block_description rest x
  end.

Section Loading.

Variable Reader : Type.

(** The download of the file of a dataset and the construction of its
    reader ([fetch], the chunked read and [new Reader(buffer)]): it
    yields a reader or throws.  The progress reports made on the way
    have no part in the outcome. *)
Variable fetchReader : MMDBDataset -> Completion Reader.

(** [loadDataset] *)
Definition loadDataset (_context : MMDBContext Reader) (dataset : MMDBDataset)
  : Completion (MMDBContext Reader) :=
  match fetchReader dataset with
  | Return mmdbReader =>
      Return {| Mmdb.dataset := Some dataset; reader := Some mmdbReader |}
  | Throw error =>
      Throw (ThrownError ("Failed to load MMDB dataset: " ++ error_message error))
  end.

End Loading.

Arguments loadDataset {Reader} fetchReader _context dataset.

End Ranges.

Import Ranges.

(* ================================================================== *)
(** * [src/App.tsx]: the state of the page and its handlers *)
(* ================================================================== *)

Module Handlers.

(** [LookupResult] of [src/types.ts] *)
Record LookupResult : Type := {
  ip : string;
  dataset : string;
  data : option MMDBRecord;
  cidrBlock : option string;
  error : option string
}.

Record LoadingState : Type := {
  isLoading : bool;
  progress : Z;
  phase : string;
  loaded : option Z;
  total : option Z;
  speed : option Z
}.

(** The body of a result card: the error, the formatted data with the
    block when there is one, or the text for an address without data. *)
Inductive CardBody : Type :=
| ErrorBody (text : string)
| DataBody (text : string) (block : option string)
| NoDataBody (text : string).

(** [text || undefined] and the test [text && ...]: the empty text is
    falsy. *)
Definition nonempty (text : option string) : option string :=
  match text with
  | Some t => if String.eqb t "" then None else Some t
  | None => None
  end.

Definition no_data_text : string :=
  "No data found for this IP. This address may be unallocated or not present in the MaxMind dataset.".

(** The conditional that fills a result card. *)
Definition cardBody (result : LookupResult) : Completion CardBody :=
  match nonempty (error result) with
  | Some text => Return (ErrorBody text)
  | None =>
      match data result with
      | Some record =>
          match App.formatLookupData (ip result) (Some record) with
          | Return text => Return (DataBody text (nonempty (cidrBlock result)))
          | Throw e => Throw e
          end
      | None =>
          let rangeDescription := getIPRangeDescription (ip result) in
          Return (NoDataBody match nonempty rangeDescription with
                             | Some text => text
                             | None => no_data_text
                             end)
      end
  end.

Section WithReader.

Variable Reader : Type.
Variable get : Reader -> string -> Completion (option Response) * Reader.

(** The state held by the hooks of [App]. *)
Record AppState : Type := {
  selectedDataset : option MMDBDataset;
  loadingState : LoadingState;
  mmdbContext : MMDBContext Reader;
  isDatasetLoaded : bool;
  ipInput : string;
  lookupResults : list LookupResult;
  isLookingUp : bool;
  userIP : option string
}.

Definition initialState : AppState :=
  {| selectedDataset := None;
     loadingState := {| isLoading := false; progress := 0; phase := "";
                        loaded := None; total := None; speed := None |};
     mmdbContext := createMMDBContext;
     isDatasetLoaded := false;
     ipInput := "";
     lookupResults := [];
     isLookingUp := false;
     userIP := None |}.

(** [setLookupResults((prev) => [result, ...prev.slice(0, 9)])],
    [setIsLookingUp(false)], and the context as the calls left it. *)
Definition record_result (st : AppState) (context : MMDBContext Reader)
           (result : LookupResult) : AppState :=
  {| selectedDataset := selectedDataset st;
     loadingState := loadingState st;
     mmdbContext := context;
     isDatasetLoaded := isDatasetLoaded st;
     ipInput := ipInput st;
     lookupResults := result :: slice0 9 (lookupResults st);
     isLookingUp := false;
     userIP := userIP st |}.

(** [handleLookup], run to its end. *)
Definition handleLookup (st : AppState) (ip : string) : AppState :=
  match selectedDataset st with
  | None => st
  | Some selected =>
      if negb (isDatasetLoaded st) || String.eqb (trim ip) "" then st
      else
        let failed (context : MMDBContext Reader) (e : Thrown) :=
          record_result st context
            {| ip := trim ip; dataset := name selected; data := None;
               cidrBlock := None; error := Some (error_message e) |} in
        let '(looked, context1) := lookupIP get (mmdbContext st) (trim ip) in
        match looked with
        | Throw e => failed context1 e
        | Return data =>
            let '(found, context2) := findCIDRBlock get context1 (trim ip) in
            match found with
            | Throw e => failed context2 e
            | Return cidrBlock =>
                record_result st context2
                  {| ip := trim ip; dataset := name selected; data := data;
                     cidrBlock := nonempty cidrBlock; error := None |}
            end
        end
  end.

(** [handleDatasetSelect], run to its end; the download is the one of
    [loadDataset]. *)
Definition handleDatasetSelect (fetchReader : MMDBDataset -> Completion Reader)
           (st : AppState) (dataset : MMDBDataset) : AppState :=
  let same :=
    match selectedDataset st with
    | Some selected => String.eqb (name selected) (name dataset)
    | None => false
    end in
  if same && isDatasetLoaded st then st
  else
    match loadDataset fetchReader (mmdbContext st) dataset with
    | Return newContext =>
        {| selectedDataset := Some dataset;
           loadingState := {| isLoading := false; progress := 100;
                              phase := "Dataset loaded successfully";
                              loaded := Some 0; total := Some 0; speed := None |};
           mmdbContext := newContext;
           isDatasetLoaded := true;
           ipInput := ipInput st;
           lookupResults := [];
           isLookingUp := isLookingUp st;
           userIP := userIP st |}
    | Throw _ =>
        {| selectedDataset := Some dataset;
           loadingState := {| isLoading := false; progress := 0;
                              phase := "Error loading dataset";
                              loaded := Some 0; total := Some 0; speed := None |};
           mmdbContext := mmdbContext st;
           isDatasetLoaded := false;
           ipInput := ipInput st;
           lookupResults := [];
           isLookingUp := isLookingUp st;
           userIP := userIP st |}
    end.

(** What the user does, one handler running to its end before the next
    starts: a dataset is chosen (with the download that follows), or an
    address is looked up. *)
Inductive Event : Type :=
| SelectDataset (dataset : MMDBDataset) (fetchReader : MMDBDataset -> Completion Reader)
| Lookup (address : string).

Definition handle (st : AppState) (ev : Event) : AppState :=
  match ev with
  | SelectDataset dataset fetchReader => handleDatasetSelect fetchReader st dataset
  | Lookup address => handleLookup st address
  end.

Definition run (st : AppState) (events : list Event) : AppState :=
  fold_left handle events st.

End WithReader.

Arguments selectedDataset {Reader} _.
Arguments loadingState {Reader} _.
Arguments mmdbContext {Reader} _.
Arguments isDatasetLoaded {Reader} _.
Arguments ipInput {Reader} _.
Arguments lookupResults {Reader} _.
Arguments isLookingUp {Reader} _.
Arguments userIP {Reader} _.
Arguments initialState {Reader}.
Arguments record_result {Reader} st context result.
Arguments handleLookup {Reader} get st ip.
Arguments handleDatasetSelect {Reader} fetchReader st dataset.
Arguments SelectDataset {Reader} dataset fetchReader.
Arguments Lookup {Reader} address.
Arguments handle {Reader} get st ev.
Arguments run {Reader} get st events.

End Handlers.

(* ================================================================== *)
(** * Notions used to state further properties *)
(* ================================================================== *)

Module Notions.

(** A numeral of one to three decimal digits whose value is at most 255. *)
Definition octet_numeral (s : string) : bool :=
  match digits_value s 0 with
  | Some n => (1 <=? String.length s)%nat && (String.length s <=? 3)%nat && (n <=? 255)
  | None => false
  end.

(** A text with a colon before which there is no dot. *)
Definition early_colon (s : string) : Prop :=
  exists g rest, s = g ++ String ":" rest /\ includes "." g = false.

(** The decimal text of a byte is accepted as an octet of the IPv4
    pattern. *)
Definition byte_text_ok (a : Z) : bool := test octet4 (ToString (Num a)).

(** The conversion of [v] to a string meets no object with a field
    named toString. *)
Fixpoint printable (v : JsValue) : bool :=
  match v with
  | JArr items => forallb printable items
  | JObj fields => negb (has_key "toString" fields)
  | _ => true
  end.

(** A truthy value whose conversion to a string throws. *)
Definition unprintable (v : option JsValue) : bool :=
  match v with
  | Some x => truthy v && negb (printable x)
  | None => false
  end.

(** Every character of [s] is white space. *)
Fixpoint blank (s : string) : bool :=
  match s with
  | EmptyString => true
  | String c rest => is_space c && blank rest
  end.

(** What a result on the page holds, by its kind. *)
Definition classified (r : Handlers.LookupResult) : Prop :=
  blank (Handlers.ip r) = false
  /\ Handlers.cidrBlock r <> Some ""
  /\ match Handlers.error r with
     | Some message =>
         Handlers.data r = None /\ Handlers.cidrBlock r = None
         /\ (if isValidIP (Handlers.ip r)
             then exists reason, message = "IP lookup failed: " ++ reason
             else message = "Invalid IP address format")
     | None =>
         isValidIP (Handlers.ip r) = true
         /\ (Handlers.data r = None <-> Handlers.cidrBlock r = None)
     end.

Section WithReader.

Variable Reader : Type.
Variable get : Reader -> string -> Completion (option Response) * Reader.

(** The search loop with the probe of the network address only. *)
Fixpoint probe_loop (ipInt : JsNumber) (targetDataStr : string)
         (remaining : nat) (rd : Reader) : option string * Reader :=
  match remaining with
  | O => (None, rd)
  | S remaining' =>
      let p := 32 - Z.of_nat remaining + 1 in
      match get rd (network_at ipInt p) with
      | (Throw _, rd1) => probe_loop ipInt targetDataStr remaining' rd1
      | (Return v, rd1) =>
          if String.eqb (JSON_stringify v) targetDataStr
          then (Some (Ipv4.cidr (network_at ipInt p) p), rd1)
          else probe_loop ipInt targetDataStr remaining' rd1
      end
  end.

(** The same reader, counting the calls of [get]. *)
Definition counted (rd : Reader * nat) (ip : string)
  : Completion (option Response) * (Reader * nat) :=
  let '(answer, rd') := get (fst rd) ip in
  (answer, (rd', S (snd rd))).

(** The page says that a dataset is loaded only when its context holds
    the selected dataset and a reader. *)
Definition loaded_state (st : Handlers.AppState Reader) : Prop :=
  Handlers.isDatasetLoaded st = true ->
  exists ds rd,
    Handlers.selectedDataset st = Some ds
    /\ Mmdb.dataset (Handlers.mmdbContext st) = Some ds
    /\ reader (Handlers.mmdbContext st) = Some rd.

(** What holds of every result on the page. *)
Definition sound_results (st : Handlers.AppState Reader) : Prop :=
  forall result,
    In result (Handlers.lookupResults st) ->
    Handlers.error result <> Some "No dataset loaded"
    /\ exists ds,
        Handlers.selectedDataset st = Some ds
        /\ Handlers.dataset result = name ds.

(** The guard of [handleLookup] lets the call through. *)
Definition ready (st : Handlers.AppState Reader)
           (address : string) : bool :=
  match Handlers.selectedDataset st with
  | Some _ => Handlers.isDatasetLoaded st && negb (blank address)
  | None => false
  end.

(** The test that opens [handleDatasetSelect]. *)
Definition already_loaded (st : Handlers.AppState Reader)
           (dataset : MMDBDataset) : bool :=
  match Handlers.selectedDataset st with
  | Some selected => String.eqb (name selected) (name dataset)
  | None => false
  end && Handlers.isDatasetLoaded st.

End WithReader.

Arguments probe_loop {Reader} get ipInt targetDataStr remaining rd.
Arguments counted {Reader} get rd ip.
Arguments loaded_state {Reader} st.
Arguments sound_results {Reader} st.
Arguments ready {Reader} st address.
Arguments already_loaded {Reader} st dataset.

End Notions.

Import Notions.

(* ================================================================== *)
(** * Facts about strings *)
(* ================================================================== *)

Module StringFacts.

Lemma append_assoc (a b c : string) : (a ++ b) ++ c = a ++ (b ++ c).
Proof.
  induction a as [|x a IH]; simpl; [reflexivity | now rewrite IH].
Qed.

Lemma append_nil_r (a : string) : a ++ "" = a.
Proof.
  induction a as [|x a IH]; simpl; [reflexivity | now rewrite IH].
Qed.

Lemma includes_append (c : ascii) (a b : string) :
  includes c (a ++ b) = includes c a || includes c b.
Proof.
  induction a as [|x a IH]; simpl; [reflexivity|].
  rewrite IH. now rewrite orb_assoc.
Qed.

Lemma split_nonempty (sep : ascii) (s : string) : split sep s <> [].
Proof.
  destruct s as [|c s]; simpl; [discriminate|].
  destruct (Ascii.eqb c sep); [discriminate|].
  destruct (split sep s); discriminate.
Qed.

(** Splitting a string that holds no separator gives the string back. *)
Lemma split_without (sep : ascii) (s : string) :
  includes sep s = false -> split sep s = [s].
Proof.
  induction s as [|c s IH]; simpl; [reflexivity|].
  intros H. apply orb_false_iff in H as [Hc Hs].
  rewrite Hc, (IH Hs). reflexivity.
Qed.

(** Splitting at the first separator. *)
Lemma split_append (sep : ascii) (a b : string) :
  includes sep a = false ->
  split sep (a ++ String sep b) = a :: split sep b.
Proof.
  induction a as [|c a IH]; simpl.
  - intros _. now rewrite Ascii.eqb_refl.
  - intros H. apply orb_false_iff in H as [Hc Ha].
    rewrite Hc, (IH Ha). reflexivity.
Qed.

Lemma split_join (sep : ascii) (a b : string) :
  includes sep a = false ->
  split sep (a ++ String sep "" ++ b) = a :: split sep b.
Proof. exact (split_append sep a b). Qed.

End StringFacts.

(* ================================================================== *)
(** * Soundness of the pattern matcher *)
(* ================================================================== *)

Module RegexFacts.

Import StringFacts.

Lemma nullable_sound (r : regex) : nullable r = true -> Lang r "".
Proof.
  induction r; simpl; intros H; try discriminate.
  - constructor.
  - apply orb_true_iff in H as [H|H]; [apply LangAltL | apply LangAltR]; auto.
  - apply andb_true_iff in H as [H1 H2].
    change "" with ("" ++ ""). constructor; auto.
  - constructor.
Qed.

Lemma lang_void (s : string) : ~ Lang Void s.
Proof. intros H; inversion H. Qed.

Lemma mkSeq_sound (r1 r2 : regex) (s : string) :
  Lang (mkSeq r1 r2) s -> Lang (Seq r1 r2) s.
Proof.
  unfold mkSeq.
  destruct r1; destruct r2; intros H;
    try (now apply lang_void in H); try exact H;
    change s with ("" ++ s); constructor; solve [constructor | exact H].
Qed.

Lemma mkAlt_sound (r1 r2 : regex) (s : string) :
  Lang (mkAlt r1 r2) s -> Lang (Alt r1 r2) s.
Proof.
  unfold mkAlt. intros H.
  destruct r1; try (now apply LangAltR);
    destruct r2; try (now apply LangAltL); exact H.
Qed.

Lemma lang_seq_cons (r1 r2 : regex) (c : ascii) (s : string) :
  (forall s', Lang (deriv c r1) s' -> Lang r1 (String c s')) ->
  Lang (Seq (deriv c r1) r2) s -> Lang (Seq r1 r2) (String c s).
Proof.
  intros IH H. inversion H; subst.
  change (String c (s1 ++ s2)) with (String c s1 ++ s2).
  constructor; auto.
Qed.

Lemma deriv_sound (c : ascii) (r : regex) (s : string) :
  Lang (deriv c r) s -> Lang r (String c s).
Proof.
  revert s. induction r; simpl; intros s H.
  - now apply lang_void in H.
  - now apply lang_void in H.
  - destruct (Ascii.eqb c0 c) eqn:E; [|now apply lang_void in H].
    apply Ascii.eqb_eq in E. subst. inversion H; subst. constructor.
  - destruct (in_range lo hi c) eqn:E; [|now apply lang_void in H].
    inversion H; subst. now constructor.
  - apply mkAlt_sound in H. inversion H; subst;
      [apply LangAltL | apply LangAltR]; auto.
  - destruct (nullable r1) eqn:N.
    + apply mkAlt_sound in H. inversion H; subst.
      * apply lang_seq_cons; auto. now apply mkSeq_sound.
      * change (String c s) with ("" ++ String c s).
        constructor; [now apply nullable_sound | auto].
    + apply lang_seq_cons; auto. now apply mkSeq_sound.
  - apply mkSeq_sound in H. inversion H; subst.
    change (String c (s1 ++ s2)) with (String c s1 ++ s2).
    constructor; auto.
Qed.

(** A string accepted by [test] belongs to the language of the pattern. *)
Lemma test_sound (r : regex) (s : string) : test r s = true -> Lang r s.
Proof.
  revert r. induction s as [|c s IH]; simpl; intros r H.
  - now apply nullable_sound.
  - apply deriv_sound. now apply IH.
Qed.

Lemma nullable_complete (r : regex) (s : string) :
  Lang r s -> s = "" -> nullable r = true.
Proof.
  induction 1; intros E; cbn; try discriminate; try reflexivity.
  - rewrite IHLang by assumption. reflexivity.
  - rewrite IHLang by assumption. apply orb_true_r.
  - destruct s1; [|discriminate]. cbn in E.
    rewrite IHLang1, IHLang2 by auto. reflexivity.
Qed.

Lemma mkSeq_complete (r1 r2 : regex) (s : string) :
  Lang (Seq r1 r2) s -> Lang (mkSeq r1 r2) s.
Proof.
  intros H. inversion H as [| | | | |? ? s1 s2 H1 H2| |]; subst.
  unfold mkSeq.
  destruct r1; try (now inversion H1);
    destruct r2; try (now inversion H2);
    try (now constructor);
    inversion H1; subst; exact H2.
Qed.

Lemma mkAlt_complete (r1 r2 : regex) (s : string) :
  Lang (Alt r1 r2) s -> Lang (mkAlt r1 r2) s.
Proof.
  intros H. unfold mkAlt.
  inversion H as [| | |? ? ? H1|? ? ? H2| | |]; subst.
  - destruct r1; try (now inversion H1);
      destruct r2; try exact H1; now apply LangAltL.
  - destruct r2; try (now inversion H2);
      destruct r1; try exact H2; now apply LangAltR.
Qed.

Lemma deriv_complete (r : regex) (s' : string) :
  Lang r s' -> forall c s, s' = String c s -> Lang (deriv c r) s.
Proof.
  induction 1 as [|x|lo hi x Hx|r1 r2 t H IH|r1 r2 t H IH
                  |r1 r2 s1 s2 H1 IH1 H2 IH2| |r1 s1 s2 H1 IH1 H2 IH2];
    intros c s E; cbn.
  - discriminate.
  - inversion E; subst. rewrite Ascii.eqb_refl. constructor.
  - inversion E; subst. rewrite Hx. constructor.
  - apply mkAlt_complete, LangAltL. now apply IH.
  - apply mkAlt_complete, LangAltR. now apply IH.
  - destruct s1 as [|x s1].
    + cbn in E. rewrite (nullable_complete r1 "" H1 eq_refl).
      apply mkAlt_complete, LangAltR. now apply IH2.
    + cbn in E. inversion E; subst.
      assert (L : Lang (mkSeq (deriv c r1) r2) (s1 ++ s2))
        by (apply mkSeq_complete; constructor; auto).
      destruct (nullable r1); [apply mkAlt_complete, LangAltL|]; exact L.
  - discriminate.
  - destruct s1 as [|x s1].
    + cbn in E. now apply IH2.
    + cbn in E. inversion E; subst.
      apply mkSeq_complete. constructor; auto.
Qed.

(** Every string of the language of the pattern is accepted by [test]. *)
Lemma test_complete (r : regex) (s : string) : Lang r s -> test r s = true.
Proof.
  revert r. induction s as [|c s IH]; cbn; intros r H.
  - now apply (nullable_complete r "").
  - apply IH. now apply (deriv_complete r (String c s)).
Qed.

(** [test] decides the language of the pattern. *)
Lemma test_spec (r : regex) (s : string) : test r s = true <-> Lang r s.
Proof. split; [apply test_sound | apply test_complete]. Qed.

End RegexFacts.

(* ================================================================== *)
(** * Facts about 32-bit arithmetic and decimal text *)
(* ================================================================== *)

Module NumberFacts.

Import StringFacts.

Lemma wrap32_mod (z : Z) : wrap32 z mod 2 ^ 32 = z mod 2 ^ 32.
Proof.
  unfold wrap32.
  change (2 ^ 32) with 4294967296. change (2 ^ 31) with 2147483648.
  pose proof (Z.div_mod (z + 2147483648) 4294967296 ltac:(lia)) as E.
  replace ((z + 2147483648) mod 4294967296 - 2147483648)
    with (z + (- ((z + 2147483648) / 4294967296)) * 4294967296) by lia.
  apply Z.mod_add. lia.
Qed.

Lemma wrap32_id (z : Z) : - 2 ^ 31 <= z < 2 ^ 31 -> wrap32 z = z.
Proof.
  intros H. unfold wrap32.
  change (2 ^ 31) with 2147483648 in *. change (2 ^ 32) with 4294967296.
  rewrite Z.mod_small; lia.
Qed.

Lemma wrap32_range (z : Z) : - 2 ^ 31 <= wrap32 z < 2 ^ 31.
Proof.
  unfold wrap32.
  change (2 ^ 31) with 2147483648. change (2 ^ 32) with 4294967296.
  pose proof (Z.mod_pos_bound (z + 2147483648) 4294967296 eq_refl). lia.
Qed.

(** The low 32 bits survive the conversion to a signed 32-bit value. *)
Lemma wrap32_testbit (z k : Z) :
  0 <= k < 32 -> Z.testbit (wrap32 z) k = Z.testbit z k.
Proof.
  intros Hk.
  rewrite <- (Z.mod_pow2_bits_low (wrap32 z) 32 k) by lia.
  rewrite wrap32_mod.
  apply Z.mod_pow2_bits_low; lia.
Qed.

Lemma mod_2_32_mod_256 (z : Z) : (z mod 2 ^ 32) mod 256 = z mod 256.
Proof.
  change (2 ^ 32) with (256 * 16777216).
  rewrite Z.rem_mul_r by lia.
  rewrite (Z.mul_comm 256).
  rewrite Z.mod_add by lia.
  apply Z.mod_mod; lia.
Qed.

(** [a & 0xff] keeps the low byte. *)
Lemma band_255 (a : Z) : band (Num a) (Num 255) = Num (a mod 256).
Proof.
  unfold band, ToInt32. f_equal.
  rewrite (wrap32_id 255) by (change (2 ^ 31) with 2147483648; lia).
  change 255 with (Z.ones 8). rewrite Z.land_ones by lia.
  change (2 ^ 8) with 256.
  assert (E : wrap32 a mod 256 = a mod 256).
  { rewrite <- (mod_2_32_mod_256 (wrap32 a)), wrap32_mod.
    apply mod_2_32_mod_256. }
  rewrite E. apply wrap32_id.
  pose proof (Z.mod_pos_bound a 256 eq_refl).
  change (2 ^ 31) with 2147483648. lia.
Qed.

(** [n >>> k] for a constant shift below 32. *)
Lemma ushr_const (n k : Z) :
  0 <= k < 32 -> ushr (Num n) (Num k) = Num ((n mod 2 ^ 32) / 2 ^ k).
Proof.
  intros Hk. unfold ushr, ToUint32. f_equal.
  rewrite (Z.mod_small k (2 ^ 32)) by (change (2 ^ 32) with 4294967296; lia).
  rewrite (Z.mod_small k 32) by lia.
  apply Z.shiftr_div_pow2; lia.
Qed.

(** *** Decimal text of the octets *)

Lemma octets_complete (a : Z) : 0 <= a <= 255 -> In a Ipv4.octets.
Proof.
  intros H. unfold Ipv4.octets.
  replace a with (Z.of_nat (Z.to_nat a)) by lia.
  apply in_map, in_seq. lia.
Qed.

Lemma octet_text_all : forallb Ipv4.octet_text_ok Ipv4.octets = true.
Proof. vm_compute. reflexivity. Qed.

Lemma octet_text (a : Z) :
  0 <= a <= 255 ->
  Number (ToString (Num a)) = Num a /\ includes "." (ToString (Num a)) = false.
Proof.
  intros H.
  pose proof (proj1 (forallb_forall _ _) octet_text_all a (octets_complete a H)) as Hok.
  unfold Ipv4.octet_text_ok in Hok.
  destruct (Number (ToString (Num a))) as [|b]; [discriminate|].
  apply andb_true_iff in Hok as [Hab Hdot].
  apply Z.eqb_eq in Hab. apply negb_true_iff in Hdot. subst. auto.
Qed.

(** The value of four octets written as a dotted quad. *)
Lemma value_of_octets (a b c d : Z) :
  0 <= a <= 255 -> 0 <= b <= 255 -> 0 <= c <= 255 -> 0 <= d <= 255 ->
  Ipv4.value (join "." (map ToString [Num a; Num b; Num c; Num d]))
  = Some (a * 2 ^ 24 + b * 2 ^ 16 + c * 2 ^ 8 + d).
Proof.
  intros Ha Hb Hc Hd.
  destruct (octet_text a Ha) as [Na Da], (octet_text b Hb) as [Nb Db],
           (octet_text c Hc) as [Nc Dc], (octet_text d Hd) as [Nd Dd].
  unfold Ipv4.value.
  cbn [map join].
  rewrite !split_join by assumption.
  rewrite split_without by assumption.
  cbn [map]. rewrite Na, Nb, Nc, Nd.
  unfold Ipv4.is_octet.
  repeat match goal with
         | |- context [?x <=? ?y] =>
             let E := fresh in
             destruct (Z.leb_spec x y) as [E|E]; [|lia]
         end.
  reflexivity.
Qed.

End NumberFacts.

(* ================================================================== *)
(** * The shape of an accepted IPv4 literal *)
(* ================================================================== *)

Module Ipv4Facts.

Import StringFacts RegexFacts NumberFacts.

Lemma digit_in_range (hi c : ascii) :
  in_range "0" hi c = true ->
  (nat_of_ascii hi <= 57)%nat ->
  digit_value c = Some (Z.of_nat (nat_of_ascii c) - 48)
  /\ 0 <= Z.of_nat (nat_of_ascii c) - 48 <= Z.of_nat (nat_of_ascii hi) - 48
  /\ Ascii.eqb c "." = false.
Proof.
  unfold in_range. intros H Hhi.
  apply andb_true_iff in H as [Hlo Hup].
  apply Nat.leb_le in Hlo, Hup.
  change (nat_of_ascii "0") with 48%nat in Hlo.
  split; [|split].
  - unfold digit_value.
    destruct (Z.leb_spec 48 (Z.of_nat (nat_of_ascii c))); [|lia].
    destruct (Z.leb_spec (Z.of_nat (nat_of_ascii c)) 57); [|lia].
    reflexivity.
  - lia.
  - apply Ascii.eqb_neq. intros ->.
    change (nat_of_ascii ".") with 46%nat in Hlo. lia.
Qed.

Ltac lang_inv :=
  repeat match goal with
         | H : Lang (Seq _ _) _ |- _ => inversion H; subst; clear H
         | H : Lang (Alt _ _) _ |- _ => inversion H; subst; clear H
         | H : Lang (Chr _) _ |- _ => inversion H; subst; clear H
         | H : Lang Eps _ |- _ => inversion H; subst; clear H
         | H : Lang (Range _ _) _ |- _ => inversion H; subst; clear H
         end.

Ltac digit_facts :=
  repeat match goal with
         | H : in_range "0" ?hi ?c = true |- _ =>
             let D := fresh "D" in
             let B := fresh "B" in
             let P := fresh "P" in
             destruct (digit_in_range hi c H ltac:(vm_compute; lia)) as (D & B & P);
             change (Z.of_nat (nat_of_ascii hi)) with
               ltac:(let v := eval vm_compute in (Z.of_nat (nat_of_ascii hi)) in exact v) in B;
             clear H
         end.

(** An octet of the IPv4 pattern is a decimal numeral of a byte. *)
Lemma octet4_number (s : string) :
  Lang octet4 s ->
  includes "." s = false /\ exists n, Number s = Num n /\ 0 <= n <= 255.
Proof.
  intros H. cbv [octet4 AltOf Lit Opt digit] in H.
  lang_inv; digit_facts; cbn [append includes];
    unfold Number; cbn [digits_value];
    repeat match goal with
           | D : digit_value _ = Some _ |- _ => rewrite D; clear D
           | P : Ascii.eqb _ "." = false |- _ => rewrite P; clear P
           end;
    change (digit_value "2") with (Some 2);
    change (digit_value "5") with (Some 5);
    cbv iota;
    (split; [reflexivity | eexists; split; [reflexivity | lia]]).
Qed.

(** An accepted IPv4 literal splits into four numerals of bytes. *)
Lemma valid_ipv4_parts (ip : string) :
  test ipv4Regex ip = true ->
  exists a b c d,
    (0 <= a <= 255) /\ (0 <= b <= 255) /\ (0 <= c <= 255) /\ (0 <= d <= 255)
    /\ map Number (split "." ip) = [Num a; Num b; Num c; Num d]
    /\ includes "." ip = true.
Proof.
  intros H. apply test_sound in H.
  unfold ipv4Regex in H. cbv [Times] in H.
  lang_inv.
  repeat match goal with
         | H : Lang octet4 _ |- _ =>
             let D := fresh "D" in
             let n := fresh "n" in
             let N := fresh "N" in
             let B := fresh "B" in
             destruct (octet4_number _ H) as (D & n & N & B); clear H
         end.
  rewrite append_nil_r, !append_assoc.
  match goal with
  | |- context [split "." ?s] =>
      assert (E : exists l, map Number (split "." s) = l) by (eexists; reflexivity)
  end.
  destruct E as (l & E). rewrite E.
  rewrite !split_join in E by assumption.
  rewrite split_without in E by assumption.
  cbn [map] in E.
  repeat match goal with
         | N : Number _ = Num _ |- _ => rewrite N in E; clear N
         end.
  subst l.
  match goal with
  | |- context [[Num ?a; Num ?b; Num ?c; Num ?d]] => exists a, b, c, d
  end.
  repeat split; try lia.
  rewrite includes_append. cbn [append includes].
  rewrite Ascii.eqb_refl. cbn. apply orb_true_r.
Qed.

(** The value of an accepted IPv4 literal, and the integer that
    [findIPv4CIDRBlock] computes from it. *)
Lemma valid_ipv4_value (ip : string) :
  test ipv4Regex ip = true ->
  exists x,
    Ipv4.value ip = Some x /\ 0 <= x < 2 ^ 32
    /\ ToInt32 (ipv4_int ip) mod 2 ^ 32 = x
    /\ includes "." ip = true.
Proof.
  intros H.
  destruct (valid_ipv4_parts ip H) as (a & b & c & d & Ha & Hb & Hc & Hd & P & I).
  exists (a * 2 ^ 24 + b * 2 ^ 16 + c * 2 ^ 8 + d).
  change (2 ^ 24) with 16777216. change (2 ^ 16) with 65536.
  change (2 ^ 8) with 256. change (2 ^ 32) with 4294967296.
  split; [|split; [lia|split; [|exact I]]].
  - unfold Ipv4.value. rewrite P. unfold Ipv4.is_octet.
    repeat match goal with
           | |- context [?x <=? ?y] =>
               let E := fresh in destruct (Z.leb_spec x y) as [E|E]; [|lia]
           end.
    reflexivity.
  - unfold ipv4_int. rewrite P. unfold part. cbn [nth].
    unfold shl, ToInt32, ToUint32, add.
    change (24 mod 2 ^ 32 mod 32) with 24.
    change (16 mod 2 ^ 32 mod 32) with 16.
    change (8 mod 2 ^ 32 mod 32) with 8.
    rewrite !Z.shiftl_mul_pow2 by lia.
    change (2 ^ 24) with 16777216. change (2 ^ 16) with 65536.
    change (2 ^ 8) with 256.
    rewrite (wrap32_id a), (wrap32_id b), (wrap32_id c)
      by (change (2 ^ 31) with 2147483648; lia).
    rewrite (wrap32_id (b * 65536)), (wrap32_id (c * 256))
      by (change (2 ^ 31) with 2147483648; lia).
    rewrite wrap32_mod.
    change (2 ^ 32) with 4294967296.
    rewrite <- !Z.add_assoc.
    rewrite <- Zplus_mod_idemp_l.
    change 4294967296 with (2 ^ 32) at 1. rewrite wrap32_mod.
    change (2 ^ 32) with 4294967296.
    rewrite Zplus_mod_idemp_l.
    apply Z.mod_small. lia.
Qed.

Lemma bytes_recombine (u : Z) :
  0 <= u < 2 ^ 32 ->
  (u / 2 ^ 24) mod 256 * 2 ^ 24 + (u / 2 ^ 16) mod 256 * 2 ^ 16
  + (u / 2 ^ 8) mod 256 * 2 ^ 8 + u mod 256 = u.
Proof.
  change (2 ^ 24) with 16777216. change (2 ^ 16) with 65536.
  change (2 ^ 8) with 256. change (2 ^ 32) with 4294967296.
  intros H. Z.to_euclidean_division_equations. lia.
Qed.

(** The dotted quad of a number spells its low 32 bits. *)
Lemma dotted_value (n : Z) : Ipv4.value (dotted (Num n)) = Some (n mod 2 ^ 32).
Proof.
  unfold dotted.
  rewrite !ushr_const by lia.
  rewrite !band_255.
  rewrite value_of_octets;
    try (match goal with |- _ <= ?x mod 256 <= _ =>
           pose proof (Z.mod_pos_bound x 256 eq_refl); lia end).
  f_equal.
  rewrite <- (mod_2_32_mod_256 n).
  apply bytes_recombine.
  apply Z.mod_pos_bound. reflexivity.
Qed.

(** Masking with [0xffffffff << (32 - p)] keeps the first [p] bits. *)
Lemma band_mask (ipInt : JsNumber) (p : Z) :
  1 <= p <= 32 ->
  exists n,
    band ipInt (shl (Num 4294967295) (sub (Num 32) (Num p))) = Num n
    /\ n mod 2 ^ 32 = Ipv4.masked (ToInt32 ipInt mod 2 ^ 32) p.
Proof.
  intros Hp. eexists. split; [reflexivity|].
  unfold shl, sub, ToUint32. cbn [ToInt32].
  rewrite (Z.mod_small (32 - p) (2 ^ 32))
    by (change (2 ^ 32) with 4294967296; lia).
  rewrite (Z.mod_small (32 - p) 32) by lia.
  change (wrap32 4294967295) with (-1).
  unfold Ipv4.masked, Ipv4.netmask.
  apply Z.bits_inj'. intros i Hi.
  destruct (Z.lt_ge_cases i 32) as [Hlt|Hge].
  - rewrite Z.mod_pow2_bits_low by lia.
    rewrite !wrap32_testbit by lia.
    rewrite !Z.land_spec.
    rewrite !wrap32_testbit by lia.
    rewrite Z.mod_pow2_bits_low by lia.
    f_equal.
    rewrite !Z.shiftl_spec by lia.
    destruct (Z.lt_ge_cases i (32 - p)) as [Hlow|Hhigh].
    + rewrite !Z.testbit_neg_r by lia. reflexivity.
    + rewrite Z.bits_m1 by lia.
      rewrite Z.ones_spec_low by lia. reflexivity.
  - rewrite Z.mod_pow2_bits_high by lia.
    rewrite Z.land_spec.
    rewrite Z.mod_pow2_bits_high by lia. reflexivity.
Qed.

(** The probed network address is the query masked to the prefix. *)
Lemma network_at_value (ipInt : JsNumber) (p : Z) :
  1 <= p <= 32 ->
  Ipv4.value (network_at ipInt p)
  = Some (Ipv4.masked (ToInt32 ipInt mod 2 ^ 32) p).
Proof.
  intros Hp. unfold network_at.
  destruct (band_mask ipInt p Hp) as (n & E & M).
  rewrite E, dotted_value, M. reflexivity.
Qed.

End Ipv4Facts.

(* ================================================================== *)
(** * The IPv4 search loop *)
(* ================================================================== *)

Module LoopFacts.

Import StringFacts NumberFacts Ipv4Facts.

(** The test that guards the probe of the flipped address never holds:
    the mask of the current prefix covers the flipped bit. *)
Lemma flipped_bit_outside (ipInt : JsNumber) (bit : Z) :
  0 <= bit <= 31 ->
  strict_eq
    (band (bxor ipInt (shl (Num 1) (sub (Num 31) (Num bit))))
          (shl (Num 4294967295) (sub (Num 32) (Num (bit + 1)))))
    (band ipInt (shl (Num 4294967295) (sub (Num 32) (Num (bit + 1)))))
  = false.
Proof.
  intros Hb.
  unfold strict_eq, band, bxor, shl, sub, ToUint32. cbn [ToInt32].
  replace (32 - (bit + 1)) with (31 - bit) by lia.
  rewrite (Z.mod_small (31 - bit) (2 ^ 32))
    by (change (2 ^ 32) with 4294967296; lia).
  rewrite (Z.mod_small (31 - bit) 32) by lia.
  change (wrap32 4294967295) with (-1). change (wrap32 1) with 1.
  apply Z.eqb_neq. intros E.
  apply (f_equal (fun z => Z.testbit z (31 - bit))) in E.
  rewrite !wrap32_testbit in E by lia.
  rewrite !Z.land_spec in E.
  rewrite !wrap32_testbit in E by lia.
  rewrite Z.lxor_spec in E.
  rewrite !wrap32_testbit in E by lia.
  rewrite !Z.shiftl_spec in E by lia.
  rewrite Z.sub_diag in E.
  change (Z.testbit 1 0) with true in E.
  change (Z.testbit (-1) 0) with true in E.
  destruct (Z.testbit (ToInt32 ipInt) (31 - bit)); discriminate.
Qed.

Section WithReader.

Variable Reader : Type.
Variable get : Reader -> string -> Completion (option Response) * Reader.

(** One turn of the loop, the unreachable probe left out. *)
Lemma ipv4_loop_S (ipInt : JsNumber) (target : string) (n : nat) (rd : Reader) :
  (n < 32)%nat ->
  ipv4_loop get ipInt target (S n) rd =
  let p := 32 - Z.of_nat (S n) + 1 in
  match get rd (network_at ipInt p) with
  | (Throw _, rd1) => ipv4_loop get ipInt target n rd1
  | (Return v, rd1) =>
      if String.eqb (JSON_stringify v) target
      then (Some (Ipv4.cidr (network_at ipInt p) p), rd1)
      else ipv4_loop get ipInt target n rd1
  end.
Proof.
  intros Hn. cbn [ipv4_loop]. cbv zeta.
  unfold network_at, Ipv4.cidr. cbn [add sub].
  destruct (get rd _) as [[v|e] rd1]; [|reflexivity].
  destruct (String.eqb (JSON_stringify v) target); [reflexivity|].
  pose proof (flipped_bit_outside ipInt (32 - Z.of_nat (S n)) ltac:(lia)) as F.
  cbn [sub] in F.
  rewrite F. reflexivity.
Qed.

(** Whatever the reader does, a block found by the loop is the probed
    network address with its prefix length. *)
Lemma ipv4_loop_shape (ipInt : JsNumber) (target : string) (n : nat) :
  (n <= 32)%nat ->
  forall rd block rd',
    ipv4_loop get ipInt target n rd = (Some block, rd') ->
    exists p, 32 - Z.of_nat n < p <= 32
              /\ block = Ipv4.cidr (network_at ipInt p) p.
Proof.
  induction n as [|n IH]; intros Hn rd block rd' H.
  - discriminate.
  - rewrite ipv4_loop_S in H by lia. cbv zeta in H.
    assert (Next : forall rd1,
               ipv4_loop get ipInt target n rd1 = (Some block, rd') ->
               exists p, 32 - Z.of_nat (S n) < p <= 32
                         /\ block = Ipv4.cidr (network_at ipInt p) p).
    { intros rd1 H1. destruct (IH ltac:(lia) rd1 block rd' H1) as (p & Hp & E).
      exists p. split; [lia | exact E]. }
    destruct (get rd _) as [[v|e] rd1]; [|eauto].
    destruct (String.eqb (JSON_stringify v) target); [|eauto].
    inversion H; subst.
    exists (32 - Z.of_nat (S n) + 1). split; [lia | reflexivity].
Qed.

Section ReadOnly.

Hypothesis RO : read_only get.

Lemma get_read_only (rd : Reader) (ip : string) :
  get rd ip = (fst (get rd ip), rd).
Proof.
  pose proof (RO rd ip) as E. destruct (get rd ip); cbn in *. now subst.
Qed.

Lemma ipv4_loop_state (ipInt : JsNumber) (target : string) (n : nat) (rd : Reader) :
  snd (ipv4_loop get ipInt target n rd) = rd.
Proof.
  induction n as [|n IH]; [reflexivity|].
  cbn [ipv4_loop]. cbv zeta.
  rewrite (get_read_only rd).
  destruct (fst (get rd _)) as [v|e]; [|exact IH].
  destruct (String.eqb (JSON_stringify v) target); [reflexivity|].
  destruct (strict_eq _ _); [|exact IH].
  rewrite (get_read_only rd).
  destruct (fst (get rd _)) as [w|e]; [|reflexivity].
  destruct (negb _); [reflexivity | exact IH].
Qed.

(** With a reader that only reads, the loop stops at the first prefix
    length whose probe hits, and runs to its end when none does. *)
Lemma ipv4_loop_first_hit (ipInt : JsNumber) (target : string) (n : nat) (rd : Reader) :
  (n <= 32)%nat ->
  match fst (ipv4_loop get ipInt target n rd) with
  | Some block =>
      exists p, 32 - Z.of_nat n < p <= 32
                /\ probe_hit get rd ipInt target p = true
                /\ (forall q, 32 - Z.of_nat n < q < p ->
                               probe_hit get rd ipInt target q = false)
                /\ block = Ipv4.cidr (network_at ipInt p) p
  | None =>
      forall q, 32 - Z.of_nat n < q <= 32 ->
                probe_hit get rd ipInt target q = false
  end.
Proof.
  induction n as [|n IH]; intros Hn.
  - cbn. intros q Hq. lia.
  - rewrite ipv4_loop_S by lia. cbv zeta.
    specialize (IH ltac:(lia)).
    rewrite (get_read_only rd).
    assert (Miss : probe_hit get rd ipInt target (32 - Z.of_nat (S n) + 1) = false ->
                   match fst (ipv4_loop get ipInt target n rd) with
                   | Some block =>
                       exists p, 32 - Z.of_nat (S n) < p <= 32
                                 /\ probe_hit get rd ipInt target p = true
                                 /\ (forall q, 32 - Z.of_nat (S n) < q < p ->
                                                probe_hit get rd ipInt target q = false)
                                 /\ block = Ipv4.cidr (network_at ipInt p) p
                   | None =>
                       forall q, 32 - Z.of_nat (S n) < q <= 32 ->
                                 probe_hit get rd ipInt target q = false
                   end).
    { intros M. destruct (fst (ipv4_loop get ipInt target n rd)) as [block|].
      - destruct IH as (p & Hp & Hit & Before & E).
        exists p. repeat split; try lia; try assumption.
        intros q Hq.
        destruct (Z.eq_dec q (32 - Z.of_nat (S n) + 1)) as [->|Hne];
          [exact M | apply Before; lia].
      - intros q Hq.
        destruct (Z.eq_dec q (32 - Z.of_nat (S n) + 1)) as [->|Hne];
          [exact M | apply IH; lia]. }
    unfold probe_hit at 1 in Miss.
    destruct (fst (get rd (network_at ipInt (32 - Z.of_nat (S n) + 1)))) as [v|e] eqn:G;
      [|apply Miss; reflexivity].
    destruct (String.eqb (JSON_stringify v) target) eqn:Same;
      [|apply Miss; reflexivity].
    cbn [fst].
    exists (32 - Z.of_nat (S n) + 1). repeat split; try lia.
    unfold probe_hit. rewrite G. exact Same.
Qed.

Lemma ipv6_loop_state (ip target : string) (prefixes : list Z) (rd : Reader) :
  snd (ipv6_loop get ip target prefixes rd) = rd.
Proof.
  induction prefixes as [|prefix rest IH]; [reflexivity|].
  cbn [ipv6_loop]. cbv zeta.
  rewrite (get_read_only rd).
  destruct (fst (get rd ip)) as [[r|]|e]; try exact IH.
  destruct (String.eqb _ _); [reflexivity | exact IH].
Qed.

(** The first turn of the IPv6 loop already returns when the reader has
    data for the address. *)
Lemma ipv6_loop_first (ip : string) (r : Response) (rest : list Z) (rd : Reader) :
  fst (get rd ip) = Return (Some r) ->
  ipv6_loop get ip (JSON_stringify (Some r)) (128 :: rest) rd
  = (Some (join ":" (slice0 4 (split ":" ip)) ++ "::/128"), rd).
Proof.
  intros G. cbn [ipv6_loop]. cbv zeta.
  rewrite (get_read_only rd), G, String.eqb_refl. reflexivity.
Qed.

End ReadOnly.

End WithReader.

End LoopFacts.

(* ================================================================== *)
(** * Properties of [lookupIP], [findCIDRBlock] and the formatter *)
(* ================================================================== *)

Module LookupFacts.

Import StringFacts NumberFacts Ipv4Facts LoopFacts.

Lemma has_key_contains (key : string) (o : Object) :
  has_key key o = true <-> contains key o.
Proof.
  unfold has_key, contains. induction o as [|[k v] o IH]; cbn.
  - split; [discriminate | intros (v & [])].
  - destruct (String.eqb_spec k key) as [->|Hne].
    + split; [intros _; exists v; now left | reflexivity].
    + rewrite IH. split.
      * intros (w & Hw). exists w. now right.
      * intros (w & [E|Hw]); [congruence | now exists w].
Qed.

Lemma with_reader_same {Reader : Type} (context : MMDBContext Reader) (rd : Reader) :
  reader context = Some rd -> with_reader context rd = context.
Proof.
  destruct context as [ds r]. cbn. intros ->. reflexivity.
Qed.

Lemma valid_ipv4_is_valid (ip : string) :
  test ipv4Regex ip = true -> isValidIP ip = true.
Proof. intros H. unfold isValidIP. now rewrite H. Qed.

Section WithReader.

Variable Reader : Type.
Variable get : Reader -> string -> Completion (option Response) * Reader.

(** What [findIPv4CIDRBlock] returns is always a masked form of the
    query, whatever the reader answers. *)
Lemma findIPv4CIDRBlock_masked (rd : Reader) (ip target : string) :
  test ipv4Regex ip = true ->
  exists network p x,
    fst (findIPv4CIDRBlock get rd ip target) = Ipv4.cidr network p
    /\ 1 <= p <= 32
    /\ Ipv4.value ip = Some x
    /\ Ipv4.value network = Some (Ipv4.masked x p).
Proof.
  intros V.
  destruct (valid_ipv4_value ip V) as (x & Hx & Bx & Hint & _).
  unfold findIPv4CIDRBlock.
  destruct (ipv4_loop get (ipv4_int ip) target 32 rd) as [[block|] rd'] eqn:L.
  - destruct (ipv4_loop_shape Reader get _ _ 32 ltac:(lia) _ _ _ L) as (p & Hp & E).
    exists (network_at (ipv4_int ip) p), p, x.
    cbn [fst]. repeat split; try assumption; try lia.
    rewrite network_at_value by lia. now rewrite Hint.
  - exists ip, 32, x. cbn [fst]. repeat split; try assumption; try lia.
    rewrite Hx. f_equal.
    unfold Ipv4.masked. change (Ipv4.netmask 32) with (Z.ones 32).
    rewrite Z.land_ones by lia. symmetry. apply Z.mod_small. exact Bx.
Qed.

(** [findCIDRBlock] on an IPv4 literal that has data. *)
Lemma findCIDRBlock_ipv4 (context : MMDBContext Reader) (ds : MMDBDataset)
      (rd rd1 : Reader) (ip : string) (r : Response) :
  dataset context = Some ds -> reader context = Some rd ->
  test ipv4Regex ip = true ->
  get rd ip = (Return (Some r), rd1) ->
  fst (findCIDRBlock get context ip)
  = Return (Some (fst (findIPv4CIDRBlock get rd1 ip (JSON_stringify (Some r))))).
Proof.
  intros Hds Hrd V G.
  destruct (valid_ipv4_value ip V) as (x & _ & _ & _ & Dot).
  unfold findCIDRBlock. rewrite Hds, Hrd, (valid_ipv4_is_valid ip V). cbn [negb].
  rewrite G, Dot.
  destruct (findIPv4CIDRBlock get rd1 ip _). reflexivity.
Qed.

(** The reader is the only part of the context that a call can change. *)
Lemma lookupIP_dataset (context : MMDBContext Reader) (ip : string) :
  dataset (snd (lookupIP get context ip)) = dataset context.
Proof.
  unfold lookupIP.
  destruct (dataset context) as [ds|] eqn:D, (reader context) as [rd|];
    cbn; try assumption.
  destruct (negb (isValidIP ip)); cbn; [assumption|].
  destruct (get rd ip) as [[[r|]|e] rd1]; cbn; assumption.
Qed.

Lemma findCIDRBlock_dataset (context : MMDBContext Reader) (ip : string) :
  dataset (snd (findCIDRBlock get context ip)) = dataset context.
Proof.
  unfold findCIDRBlock.
  destruct (dataset context) as [ds|] eqn:D, (reader context) as [rd|];
    cbn; try assumption.
  destruct (negb (isValidIP ip)); cbn; [assumption|].
  destruct (get rd ip) as [[[r|]|e] rd1]; cbn; try assumption.
  destruct (includes "." ip).
  - destruct (findIPv4CIDRBlock get rd1 ip _); cbn; assumption.
  - destruct (findIPv6CIDRBlock get rd1 ip _); cbn; assumption.
Qed.

Section ReadOnly.

Hypothesis RO : read_only get.

Lemma lookupIP_state (context : MMDBContext Reader) (ip : string) :
  snd (lookupIP get context ip) = context.
Proof.
  unfold lookupIP.
  destruct (dataset context) as [ds|], (reader context) as [rd|] eqn:R;
    try reflexivity.
  destruct (negb (isValidIP ip)); [reflexivity|].
  rewrite (get_read_only Reader get RO rd).
  destruct (fst (get rd ip)) as [[r|]|e]; cbn [snd];
    now apply with_reader_same.
Qed.

Lemma findIPv4CIDRBlock_state (rd : Reader) (ip target : string) :
  snd (findIPv4CIDRBlock get rd ip target) = rd.
Proof.
  unfold findIPv4CIDRBlock.
  pose proof (ipv4_loop_state Reader get RO (ipv4_int ip) target 32 rd) as E.
  destruct (ipv4_loop get (ipv4_int ip) target 32 rd) as [[block|] rd'];
    exact E.
Qed.

Lemma findIPv6CIDRBlock_state (rd : Reader) (ip target : string) :
  snd (findIPv6CIDRBlock get rd ip target) = rd.
Proof.
  unfold findIPv6CIDRBlock.
  pose proof (ipv6_loop_state Reader get RO ip target commonPrefixes rd) as E.
  destruct (ipv6_loop get ip target commonPrefixes rd) as [[block|] rd'];
    exact E.
Qed.

Lemma findCIDRBlock_state (context : MMDBContext Reader) (ip : string) :
  snd (findCIDRBlock get context ip) = context.
Proof.
  unfold findCIDRBlock.
  destruct (dataset context) as [ds|], (reader context) as [rd|] eqn:R;
    try reflexivity.
  destruct (negb (isValidIP ip)); [reflexivity|].
  rewrite (get_read_only Reader get RO rd).
  destruct (fst (get rd ip)) as [[r|]|e]; cbn [snd];
    try now apply with_reader_same.
  destruct (includes "." ip).
  - pose proof (findIPv4CIDRBlock_state rd ip (JSON_stringify (Some r))) as E.
    destruct (findIPv4CIDRBlock get rd ip _) as [block rd2]. cbn in *. subst.
    now apply with_reader_same.
  - pose proof (findIPv6CIDRBlock_state rd ip (JSON_stringify (Some r))) as E.
    destruct (findIPv6CIDRBlock get rd ip _) as [block rd2]. cbn in *. subst.
    now apply with_reader_same.
Qed.

(** What a successful [lookupIP] says about the context and the reader. *)
Lemma lookupIP_returns_data (context : MMDBContext Reader) (ip : string)
      (record : MMDBRecord) :
  fst (lookupIP get context ip) = Return (Some record) ->
  exists ds rd r,
    dataset context = Some ds /\ reader context = Some rd
    /\ get rd ip = (Return (Some r), rd).
Proof.
  unfold lookupIP.
  destruct (dataset context) as [ds|]; [|discriminate].
  destruct (reader context) as [rd|]; [|discriminate].
  destruct (negb (isValidIP ip)); [discriminate|].
  rewrite (get_read_only Reader get RO rd).
  destruct (fst (get rd ip)) as [[r|]|e] eqn:G; cbn; try discriminate.
  intros _. exists ds, rd, r.
  rewrite (get_read_only Reader get RO rd), G. auto.
Qed.

End ReadOnly.

End WithReader.

End LookupFacts.

(* ================================================================== *)
(** * A reader that throws and a reader that finds nothing *)
(* ================================================================== *)

Module FailureFacts.

Import StringFacts NumberFacts Ipv4Facts LoopFacts.

Section WithReader.

Variable Reader : Type.
Variable get : Reader -> string -> Completion (option Response) * Reader.

(** The text of a record is never the text of [null]. *)
Lemma null_is_no_record (r : Response) :
  String.eqb "null" (JSON_stringify (Some r)) = false.
Proof. reflexivity. Qed.

Lemma ipv4_loop_quiet (ipInt : JsNumber) (target : string) (n : nat) :
  String.eqb "null" target = false ->
  (n <= 32)%nat ->
  forall rd,
    ipv4_loop (quiet get) ipInt target n rd = ipv4_loop get ipInt target n rd.
Proof.
  intros T. induction n as [|n IH]; intros Hn rd; [reflexivity|].
  rewrite (ipv4_loop_S Reader get), (ipv4_loop_S Reader (quiet get)) by lia.
  cbv zeta. unfold quiet at 1.
  destruct (get rd _) as [[v|e] rd1].
  - destruct (String.eqb (JSON_stringify v) target); [reflexivity|].
    apply IH. lia.
  - cbn [JSON_stringify]. rewrite T. apply IH. lia.
Qed.

Lemma ipv6_loop_quiet (ip target : string) (prefixes : list Z) :
  forall rd,
    ipv6_loop (quiet get) ip target prefixes rd
    = ipv6_loop get ip target prefixes rd.
Proof.
  induction prefixes as [|prefix rest IH]; intros rd; [reflexivity|].
  cbn [ipv6_loop]. cbv zeta. unfold quiet at 1.
  destruct (get rd ip) as [[[r|]|e] rd1]; try apply IH.
  destruct (String.eqb _ _); [reflexivity | apply IH].
Qed.

Lemma findCIDRBlock_quiet (context : MMDBContext Reader) (ip : string) :
  findCIDRBlock (quiet get) context ip = findCIDRBlock get context ip.
Proof.
  unfold findCIDRBlock.
  destruct (dataset context); [|reflexivity].
  destruct (reader context) as [rd|]; [|reflexivity].
  destruct (negb (isValidIP ip)); [reflexivity|].
  unfold quiet at 1.
  destruct (get rd ip) as [[[r|]|e] rd1]; try reflexivity.
  destruct (includes "." ip).
  - unfold findIPv4CIDRBlock.
    rewrite ipv4_loop_quiet by (reflexivity || lia). reflexivity.
  - unfold findIPv6CIDRBlock. rewrite ipv6_loop_quiet. reflexivity.
Qed.

(** A probe that throws sends the IPv4 loop to the next prefix length. *)
Lemma ipv4_loop_skips (ipInt : JsNumber) (target : string) (n : nat) (rd : Reader)
      (e : Thrown) :
  (n < 32)%nat ->
  fst (get rd (network_at ipInt (32 - Z.of_nat n))) = Throw e ->
  ipv4_loop get ipInt target (S n) rd
  = ipv4_loop get ipInt target n
      (snd (get rd (network_at ipInt (32 - Z.of_nat n)))).
Proof.
  intros Hn G. rewrite ipv4_loop_S by lia. cbv zeta.
  replace (32 - Z.of_nat (S n) + 1) with (32 - Z.of_nat n) by lia.
  destruct (get rd _) as [answer rd1]. cbn [fst snd] in *. now subst.
Qed.

(** A probe that throws sends the IPv6 loop to the next prefix length. *)
Lemma ipv6_loop_skips (ip target : string) (prefix : Z) (rest : list Z)
      (rd : Reader) (e : Thrown) :
  fst (get rd ip) = Throw e ->
  ipv6_loop get ip target (prefix :: rest) rd
  = ipv6_loop get ip target rest (snd (get rd ip)).
Proof.
  intros G. cbn [ipv6_loop]. cbv zeta.
  destruct (get rd ip) as [answer rd1]. cbn [fst snd] in *. now subst.
Qed.

End WithReader.

End FailureFacts.

(* ================================================================== *)
(** * The claims *)
(* ================================================================== *)

Import StringFacts NumberFacts Ipv4Facts LoopFacts LookupFacts FailureFacts.

(** ** C1 *)

(** C1, as stated, fails: on the tree of 0.0.0.0/2 and 64.0.0.0/2 the
    query 0.0.0.1 has data at tree depth 2, yet the CIDR search answers
    0.0.0.0/1: the prefix length is not the depth of the tree walk. *)
Lemma prefix_is_not_tree_depth :
  fst (SearchTree.get two_quarters "0.0.0.1") = Return (Some record_AA)
  /\ SearchTree.depth two_quarters "0.0.0.1" = Some 2
  /\ fst (findCIDRBlock SearchTree.get (tree_context country_dataset two_quarters)
                        "0.0.0.1")
     = Return (Some (Ipv4.cidr "0.0.0.0" 1)).
Proof. vm_compute. auto. Qed.

(** C1, amended: for an IPv4 query with data and a reader that only
    reads, the prefix length returned by [findCIDRBlock] comes from
    probing: it is the least [p] in 1..32 for which the reader's answer
    at the query masked to [p] bits serialises to the same text as the
    answer at the query; when no probe hits, the query itself is
    returned with length 32. *)
Theorem prefix_is_first_probe_hit
        {Reader : Type} (get : Reader -> string -> Completion (option Response) * Reader)
        (context : MMDBContext Reader) (ds : MMDBDataset) (rd : Reader)
        (ip : string) (r : Response) :
  read_only get ->
  dataset context = Some ds -> reader context = Some rd ->
  test ipv4Regex ip = true ->
  fst (get rd ip) = Return (Some r) ->
  let target := JSON_stringify (Some r) in
  let ipInt := ipv4_int ip in
  (exists p,
      1 <= p <= 32
      /\ probe_hit get rd ipInt target p = true
      /\ (forall q, 1 <= q < p -> probe_hit get rd ipInt target q = false)
      /\ fst (findCIDRBlock get context ip)
         = Return (Some (Ipv4.cidr (network_at ipInt p) p)))
  \/ ((forall q, 1 <= q <= 32 -> probe_hit get rd ipInt target q = false)
      /\ fst (findCIDRBlock get context ip) = Return (Some (Ipv4.cidr ip 32))).
Proof.
  intros RO Hds Hrd V G target ipInt.
  assert (G' : get rd ip = (Return (Some r), rd))
    by (rewrite (get_read_only Reader get RO rd), G; reflexivity).
  rewrite (findCIDRBlock_ipv4 Reader get context ds rd rd ip r Hds Hrd V G').
  fold target. unfold findIPv4CIDRBlock. fold ipInt.
  pose proof (ipv4_loop_first_hit Reader get RO ipInt target 32 rd ltac:(lia)) as F.
  destruct (ipv4_loop get ipInt target 32 rd) as [[block|] rd']; cbn [fst] in *.
  - left. destruct F as (p & Hp & Hit & Before & E).
    exists p. repeat split; try lia; try assumption.
    + intros q Hq. apply Before. lia.
    + now rewrite E.
  - right. split; [|reflexivity].
    intros q Hq. apply F. lia.
Qed.

Lemma prefix_is_first_probe_hit_witness :
  (exists p,
      1 <= p <= 32
      /\ probe_hit SearchTree.get two_quarters (ipv4_int "64.0.0.1")
                   (JSON_stringify (Some record_BB)) p = true
      /\ (forall q, 1 <= q < p ->
                    probe_hit SearchTree.get two_quarters (ipv4_int "64.0.0.1")
                              (JSON_stringify (Some record_BB)) q = false)
      /\ fst (findCIDRBlock SearchTree.get
                            (tree_context country_dataset two_quarters) "64.0.0.1")
         = Return (Some (Ipv4.cidr (network_at (ipv4_int "64.0.0.1") p) p)))
  \/ ((forall q, 1 <= q <= 32 ->
                 probe_hit SearchTree.get two_quarters (ipv4_int "64.0.0.1")
                           (JSON_stringify (Some record_BB)) q = false)
      /\ fst (findCIDRBlock SearchTree.get
                            (tree_context country_dataset two_quarters) "64.0.0.1")
         = Return (Some (Ipv4.cidr "64.0.0.1" 32))).
Proof.
  apply (prefix_is_first_probe_hit SearchTree.get
           (tree_context country_dataset two_quarters) country_dataset
           two_quarters "64.0.0.1" record_BB).
  - intros rd ip. unfold SearchTree.get. destruct (Ipv4.value ip); reflexivity.
  - reflexivity.
  - reflexivity.
  - vm_compute. reflexivity.
  - vm_compute. reflexivity.
Defined.

(** ** C2 *)

(** C2: for every accepted IPv4 literal for which [lookupIP] returns
    data, the CIDR search that follows returns a block [network/p] with
    [p] in 1..32 whose network address has exactly the bits of the query
    masked to [p]. *)
Theorem cidr_network_is_masked_query
        {Reader : Type} (get : Reader -> string -> Completion (option Response) * Reader)
        (context : MMDBContext Reader) (ip : string) (record : MMDBRecord) :
  read_only get ->
  test ipv4Regex ip = true ->
  fst (lookupIP get context ip) = Return (Some record) ->
  exists network p x,
    fst (findCIDRBlock get (snd (lookupIP get context ip)) ip)
    = Return (Some (Ipv4.cidr network p))
    /\ 1 <= p <= 32
    /\ Ipv4.value ip = Some x
    /\ Ipv4.value network = Some (Ipv4.masked x p).
Proof.
  intros RO V L.
  rewrite (lookupIP_state Reader get RO).
  destruct (lookupIP_returns_data Reader get RO context ip record L)
    as (ds & rd & r & Hds & Hrd & G).
  rewrite (findCIDRBlock_ipv4 Reader get context ds rd rd ip r Hds Hrd V G).
  destruct (findIPv4CIDRBlock_masked Reader get rd ip (JSON_stringify (Some r)) V)
    as (network & p & x & E & Hp & Hx & Hn).
  exists network, p, x. rewrite E. auto.
Qed.

Lemma cidr_network_is_masked_query_witness :
  exists network p x,
    fst (findCIDRBlock SearchTree.get
           (snd (lookupIP SearchTree.get
                   (tree_context country_dataset two_quarters) "64.0.0.1"))
           "64.0.0.1")
    = Return (Some (Ipv4.cidr network p))
    /\ 1 <= p <= 32
    /\ Ipv4.value "64.0.0.1" = Some x
    /\ Ipv4.value network = Some (Ipv4.masked x p).
Proof.
  apply (cidr_network_is_masked_query SearchTree.get
           (tree_context country_dataset two_quarters) "64.0.0.1" record_BB).
  - intros rd ip. unfold SearchTree.get. destruct (Ipv4.value ip); reflexivity.
  - vm_compute. reflexivity.
  - vm_compute. reflexivity.
Defined.

(** ** C3 *)

(** C3 at the failing input: on the tree of 0.0.0.0/2 and 64.0.0.0/2 the
    search for 0.0.0.1 answers the block 0.0.0.0/1; the address 64.0.0.0
    lies inside that block and decodes to another record. *)
Theorem block_member_decodes_differently :
  let context := tree_context country_dataset two_quarters in
  fst (findCIDRBlock SearchTree.get context "0.0.0.1")
  = Return (Some (Ipv4.cidr "0.0.0.0" 1))
  /\ Ipv4.in_block "64.0.0.0" "0.0.0.0" 1
  /\ fst (lookupIP SearchTree.get context "0.0.0.1") = Return (Some record_AA)
  /\ fst (lookupIP SearchTree.get context "64.0.0.0") = Return (Some record_BB)
  /\ record_AA <> record_BB.
Proof.
  cbv zeta.
  split; [vm_compute; reflexivity|].
  split; [exists 1073741824, 0; vm_compute; auto|].
  split; [vm_compute; reflexivity|].
  split; [vm_compute; reflexivity|].
  discriminate.
Qed.

(** ** C4 *)

(** C4: on a loaded context, [lookupIP] of "256.1.1.1" throws the
    invalid-address error; on an accepted address for which the reader
    finds nothing it returns [null], and it returns [null] in no other
    case; the invalid-address error is thrown exactly for the addresses
    that [isValidIP] refuses.  The two outcomes never coincide. *)
Theorem invalid_address_and_not_found_differ
        {Reader : Type} (get : Reader -> string -> Completion (option Response) * Reader)
        (context : MMDBContext Reader) (ds : MMDBDataset) (rd : Reader) :
  dataset context = Some ds -> reader context = Some rd ->
  fst (lookupIP get context "256.1.1.1")
  = Throw (ThrownError "Invalid IP address format")
  /\ (forall ip,
         fst (lookupIP get context ip) = Return None
         <-> isValidIP ip = true /\ fst (get rd ip) = Return None)
  /\ (forall ip,
         fst (lookupIP get context ip)
         = Throw (ThrownError "Invalid IP address format")
         <-> isValidIP ip = false).
Proof.
  intros Hds Hrd.
  assert (Invalid : forall ip, isValidIP ip = false ->
                               fst (lookupIP get context ip)
                               = Throw (ThrownError "Invalid IP address format")).
  { intros ip V. unfold lookupIP. rewrite Hds, Hrd, V. reflexivity. }
  split; [apply Invalid; vm_compute; reflexivity|].
  split; intros ip; split.
  - unfold lookupIP. rewrite Hds, Hrd.
    destruct (isValidIP ip) eqn:V; cbn [negb]; [|discriminate].
    destruct (get rd ip) as [[[r|]|e] rd1]; cbn; try discriminate. auto.
  - intros (V & G). unfold lookupIP. rewrite Hds, Hrd, V. cbn [negb].
    destruct (get rd ip) as [res rd1]. cbn in G. subst res. reflexivity.
  - unfold lookupIP. rewrite Hds, Hrd.
    destruct (isValidIP ip) eqn:V; cbn [negb]; [|reflexivity].
    destruct (get rd ip) as [[[r|]|e] rd1]; cbn; discriminate.
  - apply Invalid.
Qed.

Lemma invalid_address_and_not_found_differ_witness :
  fst (lookupIP SearchTree.get (tree_context country_dataset SearchTree.NoData)
                "256.1.1.1")
  = Throw (ThrownError "Invalid IP address format")
  /\ fst (lookupIP SearchTree.get (tree_context country_dataset SearchTree.NoData)
                   "1.1.1.1")
     = Return None.
Proof.
  destruct (invalid_address_and_not_found_differ SearchTree.get
              (tree_context country_dataset SearchTree.NoData)
              country_dataset SearchTree.NoData eq_refl eq_refl)
    as (Invalid & NotFound & _).
  split; [exact Invalid|].
  apply NotFound. split; vm_compute; reflexivity.
Defined.

(** ** C5 *)

(** C5, as stated, fails: a reader that knows 8.8.8.8 and raises on
    every other address raises on the first probe of the search for
    8.8.8.8, and [findCIDRBlock] returns a block, not an error. *)
Lemma reader_failure_not_surfaced :
  let get := table_get one_good_entry in
  isValidIP "8.8.8.8" = true
  /\ fst (get tt "8.8.8.8") = Return (Some record_AA)
  /\ fst (get tt (network_at (ipv4_int "8.8.8.8") 1))
     = Throw (ThrownError "UnknownTypeTag")
  /\ fst (findCIDRBlock get (table_context country_dataset) "8.8.8.8")
     = Return (Some (Ipv4.cidr "8.8.8.8" 29)).
Proof. vm_compute. repeat split. Qed.

(** C5, amended: on a loaded context and an accepted address,
    [findCIDRBlock] never throws, whatever the reader raises during the
    search; when the reader raises on the address itself the result is
    [null], the same as when the reader finds nothing; and a raise on a
    probed address is skipped: at every call a reader that raises has
    the effect of one that finds nothing there, and both loops go on
    with the next prefix length, from the state in which the failed
    call left the reader. *)
Theorem findCIDRBlock_swallows_reader_failures
        {Reader : Type} (get : Reader -> string -> Completion (option Response) * Reader)
        (context : MMDBContext Reader) (ds : MMDBDataset) (rd : Reader)
        (ip : string) :
  dataset context = Some ds -> reader context = Some rd ->
  isValidIP ip = true ->
  (exists block, fst (findCIDRBlock get context ip) = Return block)
  /\ (forall e, fst (get rd ip) = Throw e ->
                fst (findCIDRBlock get context ip) = Return None)
  /\ (fst (get rd ip) = Return None ->
      fst (findCIDRBlock get context ip) = Return None)
  /\ findCIDRBlock get context ip = findCIDRBlock (quiet get) context ip
  /\ (forall target n rd0 e,
         (n < 32)%nat ->
         fst (get rd0 (network_at (ipv4_int ip) (32 - Z.of_nat n))) = Throw e ->
         ipv4_loop get (ipv4_int ip) target (S n) rd0
         = ipv4_loop get (ipv4_int ip) target n
             (snd (get rd0 (network_at (ipv4_int ip) (32 - Z.of_nat n)))))
  /\ (forall target prefix rest rd0 e,
         fst (get rd0 ip) = Throw e ->
         ipv6_loop get ip target (prefix :: rest) rd0
         = ipv6_loop get ip target rest (snd (get rd0 ip))).
Proof.
  intros Hds Hrd V.
  split; [|split; [|split; [|split; [|split]]]].
  - unfold findCIDRBlock. rewrite Hds, Hrd, V. cbn [negb].
    destruct (get rd ip) as [[[r|]|e] rd1]; cbn [fst];
      try (eexists; reflexivity).
    destruct (includes "." ip).
    + destruct (findIPv4CIDRBlock get rd1 ip _). eexists. reflexivity.
    + destruct (findIPv6CIDRBlock get rd1 ip _). eexists. reflexivity.
  - intros e G. unfold findCIDRBlock. rewrite Hds, Hrd, V. cbn [negb].
    destruct (get rd ip) as [answer rd1]. cbn [fst] in G. subst answer.
    reflexivity.
  - intros G. unfold findCIDRBlock. rewrite Hds, Hrd, V. cbn [negb].
    destruct (get rd ip) as [answer rd1]. cbn [fst] in G. subst answer.
    reflexivity.
  - symmetry. apply findCIDRBlock_quiet.
  - intros target n rd0 e. apply ipv4_loop_skips.
  - intros target prefix rest rd0 e. apply ipv6_loop_skips.
Qed.

Lemma findCIDRBlock_swallows_reader_failures_witness :
  fst (findCIDRBlock (table_get one_good_entry) (table_context country_dataset)
                     "9.9.9.9")
  = Return None.
Proof.
  destruct (findCIDRBlock_swallows_reader_failures (table_get one_good_entry)
              (table_context country_dataset) country_dataset tt "9.9.9.9"
              eq_refl eq_refl ltac:(vm_compute; reflexivity))
    as (_ & Raised & _).
  apply (Raised (ThrownError "UnknownTypeTag")). vm_compute. reflexivity.
Defined.

(** ** C6 *)

(** C6, as stated, fails: with the ASN dataset selected, a lookup whose
    decoded record is country-shaped returns the fixed fallback record
    in place of the decoded one. *)
Lemma lookup_substitutes_fallback :
  fst (SearchTree.get two_quarters "0.0.0.1") = Return (Some record_AA)
  /\ fst (lookupIP SearchTree.get (tree_context asn_dataset two_quarters) "0.0.0.1")
     = Return (Some asn_fallback)
  /\ asn_fallback <> record_AA.
Proof.
  split; [vm_compute; reflexivity|].
  split; [vm_compute; reflexivity|].
  discriminate.
Qed.

(** C6, amended: a successful [lookupIP] returns the decoded record
    unchanged when the record passes the type guard of the selected
    dataset type; otherwise it returns the fallback of that type, the
    unknown-ASN record or the empty record. *)
Theorem lookupIP_returns_guarded_record
        {Reader : Type} (get : Reader -> string -> Completion (option Response) * Reader)
        (context : MMDBContext Reader) (ds : MMDBDataset) (rd : Reader)
        (ip : string) (r : Response) :
  dataset context = Some ds -> reader context = Some rd ->
  isValidIP ip = true ->
  fst (get rd ip) = Return (Some r) ->
  fst (lookupIP get context ip)
  = Return (Some match type ds with
                 | asn => if isAsnResponse r then r else asn_fallback
                 | city => if isCityResponse r then r else []
                 | country => if isCountryResponse r then r else []
                 end).
Proof.
  intros Hds Hrd V G. unfold lookupIP. rewrite Hds, Hrd, V. cbn [negb].
  destruct (get rd ip) as [res rd1]. cbn in G. subst res. cbn [fst].
  destruct (type ds); reflexivity.
Qed.

Lemma lookupIP_returns_guarded_record_witness :
  fst (lookupIP SearchTree.get (tree_context country_dataset two_quarters) "0.0.0.1")
  = Return (Some (if isCountryResponse record_AA then record_AA else [])).
Proof.
  apply (lookupIP_returns_guarded_record SearchTree.get
           (tree_context country_dataset two_quarters) country_dataset
           two_quarters "0.0.0.1" record_AA eq_refl eq_refl).
  - vm_compute. reflexivity.
  - vm_compute. reflexivity.
Defined.

(** ** C7 *)

(** C7, as stated, fails: a record that holds the key
    [autonomous_system_number] with a text value is not ASN-shaped. *)
Lemma asn_key_alone_is_not_asn_shape :
  contains "autonomous_system_number" record_text_asn
  /\ isAsnResponse record_text_asn = false.
Proof.
  split; [|reflexivity].
  exists (JStr "AS64500"). left. reflexivity.
Qed.

(** C7, amended: a decoded map is ASN-shaped iff its
    [autonomous_system_number] property is a number; it is City-shaped
    iff it holds one of the keys [city], [location], [postal],
    [subdivisions]; it is Country-shaped iff it holds [country] or
    [continent]. *)
Theorem shape_predicates (result : Response) :
  (isAsnResponse result = true
   <-> exists n, field "autonomous_system_number" result = Some (JNum n))
  /\ (isCityResponse result = true
      <-> contains "city" result \/ contains "location" result
          \/ contains "postal" result \/ contains "subdivisions" result)
  /\ (isCountryResponse result = true
      <-> contains "country" result \/ contains "continent" result).
Proof.
  split; [|split].
  - unfold isAsnResponse, has_key, typeof_number.
    destruct (field "autonomous_system_number" result) as [[]|]; cbn;
      split; try discriminate; try (intros (m & E); discriminate).
    + intros _. eexists. reflexivity.
    + reflexivity.
  - unfold isCityResponse. rewrite !orb_true_iff, !has_key_contains. tauto.
  - unfold isCountryResponse. rewrite !orb_true_iff, !has_key_contains. tauto.
Qed.

(** ** C8 *)

(** C8: no lookup operation changes the dataset of the context; with a
    reader whose [get] leaves it unchanged, [lookupIP] and
    [findCIDRBlock] return the context as they received it, whether they
    return or throw, so that a lookup made after any call gives the
    result it would have given before. *)
Theorem lookups_leave_context_unchanged
        {Reader : Type} (get : Reader -> string -> Completion (option Response) * Reader)
        (context : MMDBContext Reader) :
  (forall ip,
      dataset (snd (lookupIP get context ip)) = dataset context
      /\ dataset (snd (findCIDRBlock get context ip)) = dataset context)
  /\ (read_only get ->
      forall ip,
        snd (lookupIP get context ip) = context
        /\ snd (findCIDRBlock get context ip) = context
        /\ (forall ip',
               lookupIP get (snd (lookupIP get context ip)) ip'
               = lookupIP get context ip'
               /\ lookupIP get (snd (findCIDRBlock get context ip)) ip'
                  = lookupIP get context ip'
               /\ findCIDRBlock get (snd (lookupIP get context ip)) ip'
                  = findCIDRBlock get context ip'
               /\ findCIDRBlock get (snd (findCIDRBlock get context ip)) ip'
                  = findCIDRBlock get context ip')).
Proof.
  split.
  - intros ip. split; [apply lookupIP_dataset | apply findCIDRBlock_dataset].
  - intros RO ip.
    rewrite (lookupIP_state Reader get RO), (findCIDRBlock_state Reader get RO).
    split; [reflexivity|]. split; [reflexivity|].
    intros ip'. repeat split; reflexivity.
Qed.

Lemma lookups_leave_context_unchanged_witness :
  let context := table_context country_dataset in
  let get := table_get one_good_entry in
  fst (lookupIP get context "9.9.9.9")
  = Throw (ThrownError "IP lookup failed: UnknownTypeTag")
  /\ snd (lookupIP get context "9.9.9.9") = context
  /\ lookupIP get (snd (lookupIP get context "9.9.9.9")) "8.8.8.8"
     = lookupIP get context "8.8.8.8".
Proof.
  cbv zeta.
  destruct (lookups_leave_context_unchanged (table_get one_good_entry)
              (table_context country_dataset)) as (_ & Unchanged).
  destruct (Unchanged (fun rd ip => eq_refl) "9.9.9.9") as (Same & _ & After).
  split; [vm_compute; reflexivity|].
  split; [exact Same|].
  exact (proj1 (After "8.8.8.8")).
Defined.

(** ** C9 *)

(** On every other address an ASN record is shown by its number and
    organisation. *)
Example asn_text_elsewhere :
  App.formatLookupData "1.0.0.1"
    (Some [("autonomous_system_number", JNum 13335);
           ("autonomous_system_organization", JStr "CLOUDFLARENET")])
  = Return "AS13335 - CLOUDFLARENET".
Proof. vm_compute. reflexivity. Qed.

(** C9: for the address "1.1.1.1" the formatter returns the fixed text
    "Global (Cloudflare DNS)" for every decoded record, so that any two
    records are shown alike at that address. *)
Theorem cloudflare_text_is_fixed (data : MMDBRecord) :
  App.formatLookupData "1.1.1.1" (Some data) = Return "Global (Cloudflare DNS)"
  /\ forall other : MMDBRecord,
      App.formatLookupData "1.1.1.1" (Some other)
      = App.formatLookupData "1.1.1.1" (Some data).
Proof.
  assert (Fixed : forall d : MMDBRecord,
             App.formatLookupData "1.1.1.1" (Some d)
             = Return "Global (Cloudflare DNS)").
  { intros d. unfold App.formatLookupData.
    rewrite String.eqb_refl. reflexivity. }
  split; [apply Fixed|].
  intros other. now rewrite !Fixed.
Qed.

(** ** C10 *)

(** C10: for an accepted address without a dot for which a reader that
    only reads returns data, [findCIDRBlock] returns on the first tested
    prefix: the block has length 128 and its network part is the first
    four colon-separated pieces of the text of the query. *)
Theorem ipv6_block_is_textual_128
        {Reader : Type} (get : Reader -> string -> Completion (option Response) * Reader)
        (context : MMDBContext Reader) (ds : MMDBDataset) (rd : Reader)
        (ip : string) (r : Response) :
  read_only get ->
  dataset context = Some ds -> reader context = Some rd ->
  isValidIP ip = true ->
  includes "." ip = false ->
  fst (get rd ip) = Return (Some r) ->
  fst (findCIDRBlock get context ip)
  = Return (Some (join ":" (slice0 4 (split ":" ip)) ++ "::/128")).
Proof.
  intros RO Hds Hrd V Dot G.
  unfold findCIDRBlock. rewrite Hds, Hrd, V. cbn [negb].
  rewrite (get_read_only Reader get RO rd), G, Dot.
  unfold findIPv6CIDRBlock, commonPrefixes.
  rewrite (ipv6_loop_first Reader get RO ip r _ rd G). reflexivity.
Qed.

Lemma ipv6_block_is_textual_128_witness :
  fst (findCIDRBlock (table_get one_ipv6_entry) (table_context country_dataset)
                     "2001:4860:4860::8888")
  = Return (Some "2001:4860:4860:::/128").
Proof.
  apply (ipv6_block_is_textual_128 (table_get one_ipv6_entry)
           (table_context country_dataset) country_dataset tt
           "2001:4860:4860::8888" record_AA (fun rd ip => eq_refl) eq_refl eq_refl).
  - vm_compute. reflexivity.
  - vm_compute. reflexivity.
  - vm_compute. reflexivity.
Defined.

(* ================================================================== *)
(** * Further properties: the descriptions of reserved ranges *)
(* ================================================================== *)

Module RangeFacts.

Lemma masked_div (x p : Z) :
  0 <= x < 2 ^ 32 -> 0 <= p <= 32 ->
  Ipv4.masked x p = x / 2 ^ (32 - p) * 2 ^ (32 - p).
Proof.
  intros Hx Hp. unfold Ipv4.masked, Ipv4.netmask.
  rewrite <- Z.shiftr_div_pow2, <- Z.shiftl_mul_pow2 by lia.
  apply Z.bits_inj'. intros i Hi.
  rewrite Z.land_spec, !Z.shiftl_spec by lia.
  destruct (Z.lt_ge_cases i (32 - p)) as [Hlow|Hhigh].
  - rewrite (Z.testbit_neg_r (Z.ones p)), (Z.testbit_neg_r (Z.shiftr x (32 - p)))
      by lia.
    apply andb_false_r.
  - rewrite Z.shiftr_spec by lia.
    replace (i - (32 - p) + (32 - p)) with i by lia.
    destruct (Z.lt_ge_cases i 32) as [Hlt|Hge].
    + rewrite Z.ones_spec_low by lia. apply andb_true_r.
    + rewrite Z.ones_spec_high by lia.
      rewrite <- (Z.mod_small x (2 ^ 32)) by lia.
      rewrite Z.mod_pow2_bits_high by lia. reflexivity.
Qed.

Ltac known_value net :=
  let v := eval vm_compute in (Ipv4.value net) in
  change (Ipv4.value net) with v.

Ltac bool_prop :=
  repeat match goal with
         | H : (_ && _) = true |- _ => apply andb_true_iff in H; destruct H
         | H : (_ && _) = false |- _ => apply andb_false_iff in H
         | H : (_ =? _) = true |- _ => apply Z.eqb_eq in H
         | H : (_ =? _) = false |- _ => apply Z.eqb_neq in H
         | H : (_ <=? _) = true |- _ => apply Z.leb_le in H
         | H : (_ <=? _) = false |- _ => apply Z.leb_gt in H
         end.

(** A test on octets agrees with membership in a block. *)
Ltac block_test :=
  match goal with
  | |- ?l = ?r =>
      destruct l eqn:?; destruct r eqn:?; try reflexivity; exfalso;
      bool_prop; Z.to_euclidean_division_equations; lia
  end.

End RangeFacts.

Import RegexFacts RangeFacts.

(* ================================================================== *)
(** * Further properties of the code *)
(* ================================================================== *)

(** X1: for an accepted IPv4 literal, the description returned is the
    one of the first listed reserved block that holds the address, and
    there is none when no listed block holds it. *)
Theorem reserved_ranges_are_the_named_blocks (ip : string) :
  test ipv4Regex ip = true ->
  exists x,
    Ipv4.value ip = Some x
    /\ getIPRangeDescription ip = block_description reserved_blocks x.
Proof.
  intros V.
  destruct (valid_ipv4_parts ip V) as (a & b & c & d & Ha & Hb & Hc & Hd & P & Dot).
  exists (a * 2 ^ 24 + b * 2 ^ 16 + c * 2 ^ 8 + d).
  assert (Hx : 0 <= a * 2 ^ 24 + b * 2 ^ 16 + c * 2 ^ 8 + d < 2 ^ 32)
    by (change (2 ^ 24) with 16777216; change (2 ^ 16) with 65536;
        change (2 ^ 8) with 256; change (2 ^ 32) with 4294967296; lia).
  split.
  - unfold Ipv4.value. rewrite P. unfold Ipv4.is_octet.
    repeat match goal with
           | |- context [?x <=? ?y] =>
               let E := fresh in destruct (Z.leb_spec x y) as [E|E]; [|lia]
           end.
    reflexivity.
  - unfold getIPRangeDescription. rewrite Dot.
    unfold getIPv4RangeDescription. rewrite P. cbv zeta.
    unfold part. cbn [nth]. unfold strict_eq, geq, leq.
    unfold reserved_blocks. cbn [block_description]. unfold block_holds.
    known_value "10.0.0.0". known_value "172.16.0.0". known_value "192.168.0.0".
    known_value "0.0.0.0". known_value "127.0.0.0". known_value "169.254.0.0".
    known_value "224.0.0.0". known_value "240.0.0.0". known_value "100.64.0.0".
    known_value "192.0.2.0". known_value "198.51.100.0". known_value "203.0.113.0".
    known_value "192.88.99.0". known_value "198.18.0.0".
    cbv iota.
    rewrite !masked_div by lia.
    change (2 ^ (32 - 8)) with 16777216. change (2 ^ (32 - 12)) with 1048576.
    change (2 ^ (32 - 16)) with 65536. change (2 ^ (32 - 24)) with 256.
    change (2 ^ (32 - 4)) with 268435456. change (2 ^ (32 - 10)) with 4194304.
    change (2 ^ (32 - 15)) with 131072.
    change (2 ^ 24) with 16777216 in *. change (2 ^ 16) with 65536 in *.
    change (2 ^ 8) with 256 in *. change (2 ^ 32) with 4294967296 in *.
    set (x := a * 16777216 + b * 65536 + c * 256 + d) in *.
    replace (x / 16777216 * 16777216 =? 167772160) with (a =? 10)
      by (subst x; block_test).
    replace (x / 1048576 * 1048576 =? 2886729728)
      with ((a =? 172) && (16 <=? b) && (b <=? 31)) by (subst x; block_test).
    replace (x / 65536 * 65536 =? 3232235520) with ((a =? 192) && (b =? 168))
      by (subst x; block_test).
    replace (x / 16777216 * 16777216 =? 0) with (a =? 0) by (subst x; block_test).
    replace (x / 16777216 * 16777216 =? 2130706432) with (a =? 127)
      by (subst x; block_test).
    replace (x / 65536 * 65536 =? 2851995648) with ((a =? 169) && (b =? 254))
      by (subst x; block_test).
    replace (x / 256 * 256 =? 3758096384) with ((a =? 224) && (b =? 0) && (c =? 0))
      by (subst x; block_test).
    replace (x / 268435456 * 268435456 =? 3758096384) with ((224 <=? a) && (a <=? 239))
      by (subst x; block_test).
    replace (x / 268435456 * 268435456 =? 4026531840) with (240 <=? a)
      by (subst x; block_test).
    replace (x / 4194304 * 4194304 =? 1681915904)
      with ((a =? 100) && (64 <=? b) && (b <=? 127)) by (subst x; block_test).
    replace (x / 256 * 256 =? 3221225984) with ((a =? 192) && (b =? 0) && (c =? 2))
      by (subst x; block_test).
    replace (x / 256 * 256 =? 3325256704) with ((a =? 198) && (b =? 51) && (c =? 100))
      by (subst x; block_test).
    replace (x / 256 * 256 =? 3405803776) with ((a =? 203) && (b =? 0) && (c =? 113))
      by (subst x; block_test).
    replace (x / 256 * 256 =? 3227017984) with ((a =? 192) && (b =? 88) && (c =? 99))
      by (subst x; block_test).
    replace (x / 131072 * 131072 =? 3323068416)
      with ((a =? 198) && (18 <=? b) && (b <=? 19)) by (subst x; block_test).
    clearbody x.
    repeat (match goal with
                 | |- (if ?t then _ else _) = _ =>
                     destruct t eqn:?; cbv iota;
                     [try reflexivity; exfalso;
                      repeat match goal with
                             | H : (_ && _) = false |- _ => clear H
                             end;
                      bool_prop; lia|]
                 end).
    reflexivity.
Qed.

Lemma reserved_ranges_are_the_named_blocks_witness :
  exists x,
    Ipv4.value "172.20.0.1" = Some x
    /\ getIPRangeDescription "172.20.0.1" = block_description reserved_blocks x.
Proof.
  apply (reserved_ranges_are_the_named_blocks "172.20.0.1").
  vm_compute. reflexivity.
Defined.

Ltac differs :=
  let H := fresh in
  intros H;
  apply (f_equal (fun o => match o with
                           | Some m => Some (String.length m, m)
                           | None => None
                           end)) in H;
  vm_compute in H; discriminate H.

(** X2: whatever the text, [getIPv4RangeDescription] never returns the
    description of the limited broadcast address nor the link-local
    description that cites RFC 3927: earlier tests take every address
    that would reach them. *)
Theorem unreachable_ipv4_descriptions (ip : string) :
  getIPv4RangeDescription ip <> Some limited_broadcast
  /\ getIPv4RangeDescription ip <> Some link_local_3927.
Proof.
  unfold getIPv4RangeDescription. cbv zeta.
  generalize (part (map Number (split "." ip)) 0) as a.
  generalize (part (map Number (split "." ip)) 1) as b.
  generalize (part (map Number (split "." ip)) 2) as c.
  generalize (part (map Number (split "." ip)) 3) as d.
  intros d c b a.
  split;
    repeat (match goal with
            | |- (if ?t then _ else _) <> _ =>
                destruct t eqn:?; cbv iota; [try differs|]
            end);
    try discriminate.
  (* what is left is the broadcast test, which comes after [a >= 240] *)
  exfalso.
  match goal with
  | Below : geq a (Num 240) = false,
    All : _ && _ && _ && strict_eq d (Num 255) = true |- _ =>
      destruct a as [|za]; [discriminate All|];
      cbn in Below, All;
      apply andb_true_iff in All; destruct All as [All _];
      apply andb_true_iff in All; destruct All as [All _];
      apply andb_true_iff in All; destruct All as [All _]
  end.
  bool_prop. lia.
Qed.

Lemma lower_char_dot (c : ascii) :
  Ascii.eqb (lower_char c) "." = Ascii.eqb c ".".
Proof. destruct c as [[] [] [] [] [] [] [] []]; reflexivity. Qed.

Lemma includes_lower_dot (s : string) :
  includes "." (toLowerCase s) = includes "." s.
Proof.
  induction s as [|c s IH]; [reflexivity|].
  cbn [toLowerCase includes]. now rewrite lower_char_dot, IH.
Qed.

Lemma startsWith_nil (s : string) : startsWith s "" = true.
Proof. destruct s; reflexivity. Qed.

Lemma includes_text_dot (s : string) : includes_text s "." = includes "." s.
Proof.
  induction s as [|c s IH]; [reflexivity|].
  cbn [includes_text startsWith includes].
  rewrite IH, startsWith_nil, andb_true_r, Ascii.eqb_sym. reflexivity.
Qed.

(** X3: whatever the text, [getIPRangeDescription] never returns the
    description of the IPv4-compatible addresses: the test for it asks
    for a dot, and a text with a dot is handed to the IPv4 function. *)
Theorem ipv4_compatible_never_described (ip : string) :
  getIPRangeDescription ip <> Some ipv4_compatible.
Proof.
  unfold getIPRangeDescription.
  destruct (includes "." ip) eqn:Dot.
  - unfold getIPv4RangeDescription. cbv zeta.
    repeat (match goal with
            | |- (if ?t then _ else _) <> _ =>
                destruct t eqn:?; cbv iota; [differs|]
            end).
    discriminate.
  - unfold getIPv6RangeDescription. cbv zeta.
    repeat (match goal with
            | |- (if ?t then _ else _) <> _ =>
                destruct t eqn:?; cbv iota; [try differs|]
            end);
      try discriminate.
    exfalso.
    match goal with
    | H : startsWith _ "::" && includes_text _ "." = true |- _ =>
        apply andb_true_iff in H; destruct H as [_ H];
        rewrite includes_text_dot, includes_lower_dot in H
    end.
    congruence.
Qed.

(** *** Addresses of the IPv6 pattern begin with a colon after at most
    a few characters that are no dots *)

Lemma range_nodot (lo hi : ascii) (s : string) :
  Lang (Range lo hi) s -> (46 < nat_of_ascii lo)%nat -> includes "." s = false.
Proof.
  intros H Hlo. inversion H as [| |? ? c R| | | | |]; subst.
  cbn. rewrite orb_false_r. apply Ascii.eqb_neq. intros ->.
  unfold in_range in R. apply andb_true_iff in R as [R _].
  apply Nat.leb_le in R. change (nat_of_ascii ".") with 46%nat in R. lia.
Qed.

Lemma hex_nodot (s : string) : Lang hex s -> includes "." s = false.
Proof.
  unfold hex. cbn [AltOf]. intros H.
  inversion H as [| | |? ? ? H1|? ? ? H1| | |]; subst;
    [|inversion H1 as [| | |? ? ? H2|? ? ? H2| | |]; subst];
    eapply range_nodot; try eassumption; vm_compute; lia.
Qed.

Section NoDot.

Variable r : regex.
Hypothesis r_nodot : forall s, Lang r s -> includes "." s = false.

Lemma Times_nodot (n : nat) (s : string) :
  Lang (Times n r) s -> includes "." s = false.
Proof.
  revert s. induction n as [|n IH]; cbn [Times]; intros s H.
  - inversion H. reflexivity.
  - inversion H; subst. rewrite includes_append, (r_nodot s1), (IH s2); auto.
Qed.

Lemma UpTo_nodot (n : nat) (s : string) :
  Lang (UpTo n r) s -> includes "." s = false.
Proof.
  revert s. induction n as [|n IH]; cbn [UpTo]; intros s H.
  - inversion H. reflexivity.
  - unfold Opt in H. inversion H as [| | |? ? ? H1|? ? ? H1| | |]; subst.
    + inversion H1; subst. rewrite includes_append, (r_nodot s1), (IH s2); auto.
    + inversion H1. reflexivity.
Qed.

Lemma Rep_nodot (m n : nat) (s : string) :
  Lang (Rep m n r) s -> includes "." s = false.
Proof.
  unfold Rep. intros H. inversion H; subst.
  rewrite includes_append, (Times_nodot m s1), (UpTo_nodot (n - m) s2); auto.
Qed.

End NoDot.

Lemma group_nodot (s : string) : Lang group s -> includes "." s = false.
Proof. apply Rep_nodot. exact hex_nodot. Qed.

(** The first of one or more repetitions. *)
Lemma Rep_first (r : regex) (m n : nat) (s : string) :
  Lang (Rep (S m) n r) s -> exists s1 s2, s = s1 ++ s2 /\ Lang r s1.
Proof.
  unfold Rep. cbn [Times]. intros H.
  inversion H as [| | | | |? ? t1 t2 H1 H2| |]; subst.
  inversion H1 as [| | | | |? ? u1 u2 H3 H4| |]; subst.
  exists u1, (u2 ++ t2). split; [apply append_assoc | exact H3].
Qed.

Lemma group_colon_early (s tail : string) :
  Lang group_colon s -> early_colon (s ++ tail).
Proof.
  unfold group_colon. intros H.
  inversion H as [| | | | |? ? g c Hg Hc| |]; subst.
  inversion Hc; subst.
  exists g, tail. split; [apply append_assoc | now apply group_nodot].
Qed.

Lemma Rep_group_colon_early (m n : nat) (s tail : string) :
  Lang (Rep (S m) n group_colon) s -> early_colon (s ++ tail).
Proof.
  intros H. destruct (Rep_first _ _ _ _ H) as (s1 & s2 & -> & H1).
  rewrite append_assoc. now apply group_colon_early.
Qed.

Lemma Lit_exact (p s : string) : Lang (Lit p) s -> s = p.
Proof.
  revert s. induction p as [|c p IH]; cbn [Lit]; intros s H.
  - now inversion H.
  - destruct p as [|c' p'].
    + now inversion H.
    + inversion H as [| | | | |? ? s1 s2 H1 H2| |]; subst.
      inversion H1; subst. now rewrite (IH s2 H2).
Qed.

Lemma ipv6_early_colon (s : string) : Lang ipv6Regex s -> early_colon s.
Proof.
  unfold ipv6Regex. cbn [AltOf]. intros H.
  repeat match goal with
         | H : Lang (Alt _ _) _ |- _ =>
             let H' := fresh "A" in
             inversion H as [| | |? ? ? H'|? ? ? H'| | |]; subst; clear H
         end;
    match goal with
    | H : Lang (Seq _ _) _ |- _ =>
        inversion H as [| | | | |? ? s1 s2 H1 H2| |]; subst; clear H
    end.
  all: try (eapply Rep_group_colon_early; eassumption).
  - (* a group, a colon and more groups *)
    inversion H2 as [| | | | |? ? t1 t2 C T| |]; subst. inversion C; subst.
    exists s1, t2. split; [reflexivity | now apply group_nodot].
  - (* a leading colon *)
    inversion H1; subst. exists EmptyString, s2. split; reflexivity.
  - (* the link-local form with a zone *)
    apply (Lit_exact "fe80:") in H1. subst.
    exists "fe80", s2. split; reflexivity.
  - (* the forms with an embedded IPv4 address *)
    apply (Lit_exact "::") in H1. subst.
    exists EmptyString, (String ":" s2). split; reflexivity.
Qed.

Lemma digits_value_none (s : string) (acc acc' : Z) :
  digits_value s acc = None -> digits_value s acc' = None.
Proof.
  revert acc acc'. induction s as [|c s IH]; cbn; intros acc acc' H.
  - discriminate.
  - destruct (digit_value c); [eapply IH; eassumption | reflexivity].
Qed.

Lemma Number_cons_NaN (c : ascii) (s : string) :
  Number s = NaN -> Number (String c s) = NaN.
Proof.
  unfold Number. cbn [digits_value].
  destruct (digits_value s 0) eqn:E; [discriminate|]. intros _.
  destruct (digit_value c); [|reflexivity].
  now rewrite (digits_value_none s 0 _ E).
Qed.

(** The first dot-separated part of such a text is no number. *)
Lemma early_colon_first_part (s : string) :
  early_colon s ->
  exists h tl, split "." s = h :: tl /\ Number h = NaN.
Proof.
  intros (g & rest & -> & Hg).
  induction g as [|c g IH]; cbn [append split].
  - change (Ascii.eqb ":" ".") with false. cbv iota.
    destruct (split "." rest) as [|p ps] eqn:E;
      [now apply split_nonempty in E|].
    exists (String ":" p), ps. split; reflexivity.
  - cbn [includes] in Hg. apply orb_false_iff in Hg as [Hc Hg].
    rewrite Hc. destruct (IH Hg) as (h & tl & E & N).
    rewrite E. exists (String c h), tl. split; [reflexivity|].
    now apply Number_cons_NaN.
Qed.

(** X4: an address accepted by the IPv6 pattern that holds a dot (an
    embedded IPv4 address, as in "::ffff:8.8.8.8") gets no description
    at all from [getIPRangeDescription]. *)
Theorem dotted_ipv6_has_no_description (ip : string) :
  test ipv6Regex ip = true ->
  includes "." ip = true ->
  getIPRangeDescription ip = None.
Proof.
  intros V Dot. unfold getIPRangeDescription. rewrite Dot.
  destruct (early_colon_first_part ip (ipv6_early_colon ip (test_sound _ _ V)))
    as (h & tl & E & N).
  unfold getIPv4RangeDescription. rewrite E. cbn [map].
  rewrite N. reflexivity.
Qed.

Lemma dotted_ipv6_has_no_description_witness :
  getIPRangeDescription "::ffff:10.0.0.1" = None.
Proof.
  apply dotted_ipv6_has_no_description; vm_compute; reflexivity.
Defined.

(** *** The literals of the IPv4 pattern *)

Lemma digit_value_char (c : ascii) (d : Z) :
  digit_value c = Some d ->
  0 <= d <= 9 /\ Z.of_nat (nat_of_ascii c) = 48 + d.
Proof.
  unfold digit_value. cbv zeta.
  destruct (48 <=? Z.of_nat (nat_of_ascii c)) eqn:L;
    destruct (Z.of_nat (nat_of_ascii c) <=? 57) eqn:U;
    cbn [andb]; intros E; inversion E.
  apply Z.leb_le in L, U. lia.
Qed.

Lemma digit_range_lang (c hi : ascii) (d : Z) :
  Z.of_nat (nat_of_ascii c) = 48 + d -> 0 <= d ->
  48 + d <= Z.of_nat (nat_of_ascii hi) ->
  Lang (Range "0" hi) (String c "").
Proof.
  intros E Hd Hhi. constructor. unfold in_range.
  change (nat_of_ascii "0") with 48%nat.
  apply andb_true_iff. split; apply Nat.leb_le; lia.
Qed.

Lemma digit_chr_lang (c x : ascii) :
  Z.of_nat (nat_of_ascii c) = Z.of_nat (nat_of_ascii x) ->
  Lang (Chr x) (String c "").
Proof.
  intros E.
  assert (c = x) as ->.
  { rewrite <- (ascii_nat_embedding c), <- (ascii_nat_embedding x).
    f_equal. lia. }
  constructor.
Qed.

Lemma octet_numeral_nocolon (s : string) :
  octet_numeral s = true -> includes ":" s = false.
Proof.
  unfold octet_numeral.
  destruct (digits_value s 0) as [n|] eqn:E; [|discriminate]. intros _.
  revert E. generalize 0 as acc. revert n.
  induction s as [|c s IH]; cbn; intros n acc E; [reflexivity|].
  destruct (digit_value c) as [d|] eqn:D; [|discriminate].
  rewrite (IH _ _ E), orb_false_r.
  apply Ascii.eqb_neq. intros ->. discriminate D.
Qed.

Ltac numeral_side :=
  repeat match goal with
         | |- context [nat_of_ascii (Ascii ?a ?b ?c ?d ?e ?f ?g ?h)] =>
             let v := eval vm_compute in (nat_of_ascii (Ascii a b c d e f g h)) in
             change (nat_of_ascii (Ascii a b c d e f g h)) with v
         end;
  lia.

Lemma octet4_numeral (s : string) : Lang octet4 s <-> octet_numeral s = true.
Proof.
  split.
  - intros H. cbv [octet4 AltOf Lit Opt digit] in H.
    lang_inv; digit_facts; cbn [append];
      unfold octet_numeral; cbn [digits_value String.length];
      repeat match goal with
             | D : digit_value _ = Some _ |- _ => rewrite D; clear D
             end;
      change (digit_value "2") with (Some 2);
      change (digit_value "5") with (Some 5);
      cbv iota; cbn [Nat.leb andb];
      apply Z.leb_le; lia.
  - unfold octet_numeral.
    destruct s as [|c1 [|c2 [|c3 [|c4 s]]]]; cbn [digits_value String.length];
      try discriminate.
    + (* one digit *)
      destruct (digit_value c1) as [d1|] eqn:D1; [|discriminate]. intros _.
      destruct (digit_value_char _ _ D1) as (B1 & E1).
      cbv [octet4 AltOf Opt digit]. apply LangAltR, LangAltR.
      change (String c1 "") with ("" ++ (String c1 "" ++ "")).
      constructor; [apply LangAltR; constructor|].
      constructor; [|apply LangAltR; constructor].
      eapply digit_range_lang; eauto; numeral_side.
    + (* two digits *)
      destruct (digit_value c1) as [d1|] eqn:D1; [|discriminate].
      destruct (digit_value c2) as [d2|] eqn:D2; [|discriminate]. intros _.
      destruct (digit_value_char _ _ D1) as (B1 & E1).
      destruct (digit_value_char _ _ D2) as (B2 & E2).
      cbv [octet4 AltOf Opt digit]. apply LangAltR, LangAltR.
      change (String c1 (String c2 "")) with ("" ++ (String c1 "" ++ String c2 "")).
      constructor; [apply LangAltR; constructor|].
      constructor; [|apply LangAltL];
        eapply digit_range_lang; eauto; numeral_side.
    + (* three digits *)
      destruct (digit_value c1) as [d1|] eqn:D1; [|discriminate].
      destruct (digit_value c2) as [d2|] eqn:D2; [|discriminate].
      destruct (digit_value c3) as [d3|] eqn:D3; [|discriminate].
      cbn [Nat.leb andb]. intros V. apply Z.leb_le in V.
      destruct (digit_value_char _ _ D1) as (B1 & E1).
      destruct (digit_value_char _ _ D2) as (B2 & E2).
      destruct (digit_value_char _ _ D3) as (B3 & E3).
      cbv [octet4 AltOf Lit Opt digit].
      destruct (Z_le_gt_dec d1 1) as [L1|G1].
      * apply LangAltR, LangAltR.
        change (String c1 (String c2 (String c3 "")))
          with (String c1 "" ++ (String c2 "" ++ String c3 "")).
        constructor; [apply LangAltL|constructor; [|apply LangAltL]];
          eapply digit_range_lang; eauto; numeral_side.
      * destruct (Z_le_gt_dec d2 4) as [L2|G2].
        -- apply LangAltR, LangAltL.
           change (String c1 (String c2 (String c3 "")))
             with (String c1 "" ++ (String c2 "" ++ String c3 "")).
           constructor; [apply digit_chr_lang; numeral_side|].
           constructor; eapply digit_range_lang; eauto; numeral_side.
        -- apply LangAltL.
           change (String c1 (String c2 (String c3 "")))
             with ((String c1 "" ++ String c2 "") ++ String c3 "").
           constructor;
             [constructor; apply digit_chr_lang; numeral_side|].
           eapply digit_range_lang; eauto; numeral_side.
    + (* four characters or more *)
      repeat (destruct (digit_value _); [|discriminate]).
      destruct (digits_value s _); [|discriminate].
      cbn [Nat.leb andb]. discriminate.
Qed.

Lemma ipv4Regex_lang (ip : string) :
  Lang ipv4Regex ip
  <-> exists a b c d,
      ip = a ++ "." ++ b ++ "." ++ c ++ "." ++ d
      /\ Lang octet4 a /\ Lang octet4 b /\ Lang octet4 c /\ Lang octet4 d.
Proof.
  unfold ipv4Regex. cbv [Times]. split.
  - intros H.
    inversion H as [| | | | |? ? s123 sd H123 Hd| |]; subst.
    inversion H123 as [| | | | |? ? sa s23 Ha H23| |]; subst.
    inversion H23 as [| | | | |? ? sb s3 Hb H3| |]; subst.
    inversion H3 as [| | | | |? ? sc s0 Hc H0| |]; subst.
    inversion H0; subst.
    inversion Ha as [| | | | |? ? a pa Oa Pa| |]; subst. inversion Pa; subst.
    inversion Hb as [| | | | |? ? b pb Ob Pb| |]; subst. inversion Pb; subst.
    inversion Hc as [| | | | |? ? c pc Oc Pc| |]; subst. inversion Pc; subst.
    exists a, b, c, sd. rewrite append_nil_r, !append_assoc. auto.
  - intros (a & b & c & d & -> & Oa & Ob & Oc & Od).
    replace (a ++ "." ++ b ++ "." ++ c ++ "." ++ d)
      with (((a ++ ".") ++ ((b ++ ".") ++ ((c ++ ".") ++ ""))) ++ d)
      by (rewrite append_nil_r, !append_assoc; reflexivity).
    repeat apply LangSeq; try assumption; try apply LangChr. apply LangEps.
Qed.

Lemma ipv6_has_colon (s : string) : Lang ipv6Regex s -> includes ":" s = true.
Proof.
  intros H. destruct (ipv6_early_colon s H) as (g & rest & -> & _).
  rewrite includes_append. cbn [includes]. rewrite Ascii.eqb_refl.
  apply orb_true_r.
Qed.

(** X5: [isValidIP] accepts a text without a colon exactly when the
    text is four numerals separated by dots, each of one to three
    decimal digits and of value at most 255. *)
Theorem accepted_ipv4_literals (ip : string) :
  isValidIP ip = true /\ includes ":" ip = false
  <-> exists a b c d,
      ip = a ++ "." ++ b ++ "." ++ c ++ "." ++ d
      /\ octet_numeral a = true /\ octet_numeral b = true
      /\ octet_numeral c = true /\ octet_numeral d = true.
Proof.
  split.
  - intros (V & NoColon). unfold isValidIP in V.
    apply orb_true_iff in V as [V|V].
    + apply test_sound, ipv4Regex_lang in V.
      destruct V as (a & b & c & d & E & Oa & Ob & Oc & Od).
      exists a, b, c, d. rewrite <- !octet4_numeral. auto.
    + apply test_sound, ipv6_has_colon in V. congruence.
  - intros (a & b & c & d & -> & Oa & Ob & Oc & Od). split.
    + unfold isValidIP. apply orb_true_iff. left.
      apply test_complete, ipv4Regex_lang.
      exists a, b, c, d. rewrite !octet4_numeral. auto.
    + rewrite !includes_append.
      rewrite (octet_numeral_nocolon a Oa), (octet_numeral_nocolon b Ob),
        (octet_numeral_nocolon c Oc), (octet_numeral_nocolon d Od).
      reflexivity.
Qed.

(** *** The search loop *)

Lemma ipv4_loop_is_probe_loop
      {Reader : Type} (get : Reader -> string -> Completion (option Response) * Reader)
      (ipInt : JsNumber) (target : string) (n : nat) :
  (n <= 32)%nat ->
  forall rd, ipv4_loop get ipInt target n rd = probe_loop get ipInt target n rd.
Proof.
  induction n as [|n IH]; intros Hn rd; [reflexivity|].
  rewrite ipv4_loop_S by lia. cbn [probe_loop]. cbv zeta.
  destruct (get rd _) as [[v|e] rd1]; [|apply IH; lia].
  destruct (String.eqb _ _); [reflexivity | apply IH; lia].
Qed.

(** X6: the probe of the flipped address is dead code: for every reader,
    also one that changes with each call, [findIPv4CIDRBlock] returns
    what the loop that probes the masked network address only returns,
    and leaves the reader in the same state. *)
Theorem flipped_probe_is_dead
        {Reader : Type} (get : Reader -> string -> Completion (option Response) * Reader)
        (rd : Reader) (ip target : string) :
  findIPv4CIDRBlock get rd ip target
  = match probe_loop get (ipv4_int ip) target 32 rd with
    | (Some block, rd') => (block, rd')
    | (None, rd') => (ip ++ "/32", rd')
    end.
Proof.
  unfold findIPv4CIDRBlock.
  rewrite ipv4_loop_is_probe_loop by lia. reflexivity.
Qed.

Lemma counted_get
      {Reader : Type} (get : Reader -> string -> Completion (option Response) * Reader)
      (rd : Reader) (calls : nat) (ip : string) :
  counted get (rd, calls) ip = (fst (get rd ip), (snd (get rd ip), S calls)).
Proof. unfold counted. cbn [fst snd]. destruct (get rd ip); reflexivity. Qed.

Lemma probe_loop_calls
      {Reader : Type} (get : Reader -> string -> Completion (option Response) * Reader)
      (ipInt : JsNumber) (target : string) (n : nat) :
  forall rd calls,
    (calls <= snd (snd (probe_loop (counted get) ipInt target n (rd, calls)))
     <= calls + n)%nat.
Proof.
  induction n as [|n IH]; intros rd calls; cbn [probe_loop];
    [cbn [fst snd]; lia|].
  cbv zeta. rewrite counted_get.
  destruct (fst (get rd _)) as [v|e].
  - destruct (String.eqb _ _); [cbn [fst snd]; lia|].
    specialize (IH (snd (get rd (network_at ipInt (32 - Z.of_nat (S n) + 1))))
                   (S calls)).
    lia.
  - specialize (IH (snd (get rd (network_at ipInt (32 - Z.of_nat (S n) + 1))))
                   (S calls)).
    lia.
Qed.

Lemma ipv6_loop_calls
      {Reader : Type} (get : Reader -> string -> Completion (option Response) * Reader)
      (ip target : string) (prefixes : list Z) :
  forall rd calls,
    (calls <= snd (snd (ipv6_loop (counted get) ip target prefixes (rd, calls)))
     <= calls + List.length prefixes)%nat.
Proof.
  induction prefixes as [|prefix rest IH]; intros rd calls;
    cbn [ipv6_loop List.length]; [cbn [fst snd]; lia|].
  cbv zeta. rewrite counted_get.
  destruct (fst (get rd ip)) as [[r|]|e];
    try (specialize (IH (snd (get rd ip)) (S calls)); lia).
  destruct (String.eqb _ _); [cbn [fst snd]; lia|].
  specialize (IH (snd (get rd ip)) (S calls)). lia.
Qed.

(** X7: one call of [findCIDRBlock] asks the reader at most 33 times for
    a text with a dot and at most 9 times for any other text. *)
Theorem findCIDRBlock_call_bound
        {Reader : Type} (get : Reader -> string -> Completion (option Response) * Reader)
        (context : MMDBContext (Reader * nat)) (ip : string)
        (rd : Reader) (calls : nat) :
  reader context = Some (rd, calls) ->
  exists rd' calls',
    reader (snd (findCIDRBlock (counted get) context ip)) = Some (rd', calls')
    /\ (calls <= calls' <= calls + (if includes "." ip then 33 else 9))%nat.
Proof.
  intros Hrd. unfold findCIDRBlock. rewrite Hrd.
  destruct (Mmdb.dataset context) as [ds|];
    [|exists rd, calls; cbn; split; [assumption | destruct (includes "." ip); lia]].
  destruct (negb (isValidIP ip));
    [exists rd, calls; cbn; split; [assumption | destruct (includes "." ip); lia]|].
  rewrite counted_get.
  destruct (fst (get rd ip)) as [[r|]|e];
    try (exists (snd (get rd ip)), (S calls); cbn; split;
         [reflexivity | destruct (includes "." ip); lia]).
  set (rd1 := snd (get rd ip)).
  destruct (includes "." ip).
  - unfold findIPv4CIDRBlock. rewrite ipv4_loop_is_probe_loop by lia.
    pose proof (probe_loop_calls get (ipv4_int ip) (JSON_stringify (Some r)) 32
                  rd1 (S calls)) as B.
    destruct (probe_loop _ _ _ _ _) as [[block|] [rd2 calls2]]; cbn in *;
      exists rd2, calls2; split; [reflexivity | lia | reflexivity | lia].
  - unfold findIPv6CIDRBlock.
    pose proof (ipv6_loop_calls get ip (JSON_stringify (Some r)) commonPrefixes
                  rd1 (S calls)) as B.
    destruct (ipv6_loop _ _ _ _ _) as [[block|] [rd2 calls2]]; cbn in *;
      exists rd2, calls2; split; [reflexivity | lia | reflexivity | lia].
Qed.

(** *** What the search returns, once more *)

Lemma dotted_bytes (n : Z) :
  dotted (Num n)
  = join "." (map ToString
                [ Num ((n mod 2 ^ 32 / 2 ^ 24) mod 256);
                  Num ((n mod 2 ^ 32 / 2 ^ 16) mod 256);
                  Num ((n mod 2 ^ 32 / 2 ^ 8) mod 256);
                  Num ((n mod 2 ^ 32) mod 256) ]).
Proof.
  unfold dotted. rewrite !ushr_const by lia. rewrite !band_255.
  now rewrite mod_2_32_mod_256.
Qed.

Lemma dotted_mod (n m : Z) :
  n mod 2 ^ 32 = m mod 2 ^ 32 -> dotted (Num n) = dotted (Num m).
Proof. intros E. rewrite !dotted_bytes, E. reflexivity. Qed.

Lemma network_at_masked (ipInt ipInt' : JsNumber) (p : Z) :
  1 <= p <= 32 ->
  Ipv4.masked (ToInt32 ipInt mod 2 ^ 32) p
  = Ipv4.masked (ToInt32 ipInt' mod 2 ^ 32) p ->
  network_at ipInt p = network_at ipInt' p.
Proof.
  intros Hp E. unfold network_at.
  destruct (band_mask ipInt p Hp) as (n & -> & M).
  destruct (band_mask ipInt' p Hp) as (n' & -> & M').
  apply dotted_mod. congruence.
Qed.

Lemma masked_masked (x p q : Z) :
  0 <= q <= p -> p <= 32 ->
  Ipv4.masked (Ipv4.masked x p) q = Ipv4.masked x q.
Proof.
  intros Hq Hp. unfold Ipv4.masked, Ipv4.netmask.
  rewrite <- Z.land_assoc. f_equal.
  apply Z.bits_inj'. intros i Hi.
  rewrite Z.land_spec, !Z.shiftl_spec by lia.
  destruct (Z.lt_ge_cases i (32 - q)) as [Hlow|Hhigh].
  - rewrite (Z.testbit_neg_r (Z.ones q)) by lia. apply andb_false_r.
  - destruct (Z.lt_ge_cases i 32) as [Hlt|Hge].
    + rewrite !Z.ones_spec_low by lia. reflexivity.
    + rewrite !Z.ones_spec_high by lia. reflexivity.
Qed.

Lemma byte_text_all : forallb byte_text_ok Ipv4.octets = true.
Proof. vm_compute. reflexivity. Qed.

Lemma byte_text_octet4 (a : Z) :
  0 <= a <= 255 -> Lang octet4 (ToString (Num a)).
Proof.
  intros H. apply test_sound.
  exact (proj1 (forallb_forall _ _) byte_text_all a (octets_complete a H)).
Qed.

(** Every dotted quad that the search writes is an accepted literal. *)
Lemma dotted_accepted (n : Z) : test ipv4Regex (dotted (Num n)) = true.
Proof.
  apply test_complete, ipv4Regex_lang. rewrite dotted_bytes.
  do 4 eexists. split; [reflexivity|].
  repeat split; apply byte_text_octet4;
    match goal with
    | |- _ <= ?x mod 256 <= _ => pose proof (Z.mod_pos_bound x 256 eq_refl); lia
    end.
Qed.

Lemma network_at_accepted (ipInt : JsNumber) (p : Z) :
  test ipv4Regex (network_at ipInt p) = true.
Proof. unfold network_at, band. apply dotted_accepted. Qed.


Section SearchAgain.

Variable Reader : Type.
Variable get : Reader -> string -> Completion (option Response) * Reader.
Hypothesis RO : read_only get.

Lemma probe_hit_same (rd : Reader) (ipInt ipInt' : JsNumber) (target : string)
      (q : Z) :
  network_at ipInt' q = network_at ipInt q ->
  probe_hit get rd ipInt' target q = probe_hit get rd ipInt target q.
Proof. unfold probe_hit. now intros ->. Qed.

(** The block found for a target, with a reader that only reads. *)
Lemma findIPv4CIDRBlock_first_hit (rd : Reader) (ip target : string) :
  (exists p,
      1 <= p <= 32
      /\ probe_hit get rd (ipv4_int ip) target p = true
      /\ (forall q, 1 <= q < p -> probe_hit get rd (ipv4_int ip) target q = false)
      /\ fst (findIPv4CIDRBlock get rd ip target)
         = Ipv4.cidr (network_at (ipv4_int ip) p) p)
  \/ ((forall q, 1 <= q <= 32 -> probe_hit get rd (ipv4_int ip) target q = false)
      /\ fst (findIPv4CIDRBlock get rd ip target) = Ipv4.cidr ip 32).
Proof.
  unfold findIPv4CIDRBlock.
  pose proof (ipv4_loop_first_hit Reader get RO (ipv4_int ip) target 32 rd
                ltac:(lia)) as F.
  destruct (ipv4_loop get (ipv4_int ip) target 32 rd) as [[block|] rd'];
    cbn [fst] in *.
  - left. destruct F as (p & Hp & Hit & Before & E).
    exists p. split; [lia|]. split; [exact Hit|]. split; [|exact E].
    intros q Hq. apply Before. lia.
  - right. split; [|reflexivity].
    intros q Hq. apply F. lia.
Qed.

(** The outcome of the search for an IPv4 literal with data: the block,
    what its network address decodes to, and the search from there. *)
Lemma search_outcome (context : MMDBContext Reader) (ds : MMDBDataset)
      (rd : Reader) (ip : string) (r : Response) :
  Mmdb.dataset context = Some ds -> reader context = Some rd ->
  test ipv4Regex ip = true ->
  fst (get rd ip) = Return (Some r) ->
  exists network p r',
    fst (findCIDRBlock get context ip) = Return (Some (Ipv4.cidr network p))
    /\ 1 <= p <= 32
    /\ test ipv4Regex network = true
    /\ fst (get rd network) = Return (Some r')
    /\ JSON_stringify (Some r') = JSON_stringify (Some r)
    /\ fst (findCIDRBlock get context network)
       = Return (Some (Ipv4.cidr network p)).
Proof.
  intros Hds Hrd V G.
  assert (G' : get rd ip = (Return (Some r), rd))
    by (rewrite (get_read_only Reader get RO rd), G; reflexivity).
  pose proof (findCIDRBlock_ipv4 Reader get context ds rd rd ip r Hds Hrd V G') as F.
  destruct (findIPv4CIDRBlock_first_hit rd ip (JSON_stringify (Some r)))
    as [(p & Hp & Hit & Before & E)|(Miss & E)]; rewrite E in F; clear E.
  - pose proof (network_at_accepted (ipv4_int ip) p) as Vn.
    (* what the network address decodes to *)
    assert (Gn : exists r', fst (get rd (network_at (ipv4_int ip) p)) = Return (Some r')
                            /\ JSON_stringify (Some r') = JSON_stringify (Some r)).
    { unfold probe_hit in Hit.
      destruct (fst (get rd (network_at (ipv4_int ip) p))) as [[r'|]|e];
        try discriminate.
      apply String.eqb_eq in Hit. eauto. }
    destruct Gn as (r' & Gn & Tn).
    exists (network_at (ipv4_int ip) p), p, r'.
    split; [exact F|]. split; [lia|]. split; [exact Vn|].
    split; [exact Gn|]. split; [exact Tn|].
    (* the search from the network address *)
    assert (Gn' : get rd (network_at (ipv4_int ip) p) = (Return (Some r'), rd))
      by (rewrite (get_read_only Reader get RO rd), Gn; reflexivity).
    rewrite (findCIDRBlock_ipv4 Reader get context ds rd rd _ r' Hds Hrd Vn Gn').
    rewrite Tn.
    (* both queries probe the same addresses up to [p] *)
    destruct (valid_ipv4_value ip V) as (x & Hx & Bx & Ex & _).
    destruct (valid_ipv4_value _ Vn) as (x' & Hx' & Bx' & Ex' & _).
    assert (Xn : x' = Ipv4.masked x p).
    { rewrite network_at_value in Hx' by lia. rewrite Ex in Hx'. congruence. }
    assert (Same : forall q, 1 <= q <= p ->
               network_at (ipv4_int (network_at (ipv4_int ip) p)) q
               = network_at (ipv4_int ip) q).
    { intros q Hq. apply network_at_masked; [lia|].
      rewrite Ex, Ex', Xn. apply masked_masked; lia. }
    destruct (findIPv4CIDRBlock_first_hit rd (network_at (ipv4_int ip) p)
                (JSON_stringify (Some r)))
      as [(p' & Hp' & Hit' & Before' & E')|(Miss' & E')]; rewrite E'; clear E'.
    + assert (p' = p) as ->.
      { destruct (Z.lt_trichotomy p' p) as [Lt|[Eq|Gt]]; [|exact Eq|].
        - rewrite (probe_hit_same rd (ipv4_int ip)) in Hit'
            by (apply Same; lia).
          rewrite Before in Hit' by lia. discriminate.
        - rewrite <- (probe_hit_same rd (ipv4_int ip)
                        (ipv4_int (network_at (ipv4_int ip) p))) in Hit
            by (apply Same; lia).
          rewrite Before' in Hit by lia. discriminate. }
      rewrite (Same p) by lia. reflexivity.
    + rewrite <- (probe_hit_same rd (ipv4_int ip)
                    (ipv4_int (network_at (ipv4_int ip) p))) in Hit
        by (apply Same; lia).
      rewrite Miss' in Hit by lia. discriminate.
  - exists ip, 32, r.
    split; [exact F|]. split; [lia|]. split; [exact V|].
    split; [exact G|]. split; [reflexivity | exact F].
Qed.

End SearchAgain.

(** X8: for an IPv4 query with data and a reader that only reads, the
    network address of the block that [findCIDRBlock] returns is itself
    an accepted address, and the reader has data for it that serialises
    to the same text as the data of the query. *)
Theorem block_network_decodes_like_query
        {Reader : Type} (get : Reader -> string -> Completion (option Response) * Reader)
        (context : MMDBContext Reader) (ds : MMDBDataset) (rd : Reader)
        (ip : string) (r : Response) :
  read_only get ->
  Mmdb.dataset context = Some ds -> reader context = Some rd ->
  test ipv4Regex ip = true ->
  fst (get rd ip) = Return (Some r) ->
  exists network p r',
    fst (findCIDRBlock get context ip) = Return (Some (Ipv4.cidr network p))
    /\ isValidIP network = true
    /\ fst (get rd network) = Return (Some r')
    /\ JSON_stringify (Some r') = JSON_stringify (Some r).
Proof.
  intros RO Hds Hrd V G.
  destruct (search_outcome Reader get RO context ds rd ip r Hds Hrd V G)
    as (network & p & r' & F & _ & Vn & Gn & Tn & _).
  exists network, p, r'.
  split; [exact F|]. split; [now apply valid_ipv4_is_valid|].
  split; [exact Gn | exact Tn].
Qed.

Lemma block_network_decodes_like_query_witness :
  exists network p r',
    fst (findCIDRBlock SearchTree.get (tree_context country_dataset two_quarters)
                       "64.0.0.1")
    = Return (Some (Ipv4.cidr network p))
    /\ isValidIP network = true
    /\ fst (SearchTree.get two_quarters network) = Return (Some r')
    /\ JSON_stringify (Some r') = JSON_stringify (Some record_BB).
Proof.
  apply (block_network_decodes_like_query SearchTree.get
           (tree_context country_dataset two_quarters) country_dataset
           two_quarters "64.0.0.1" record_BB).
  - intros rd ip. unfold SearchTree.get. destruct (Ipv4.value ip); reflexivity.
  - reflexivity.
  - reflexivity.
  - vm_compute. reflexivity.
  - vm_compute. reflexivity.
Defined.

(** X9: for an IPv4 query with data and a reader that only reads, the
    search is idempotent: asking for the block of the network address
    that was returned gives the same block again. *)
Theorem search_from_network_finds_same_block
        {Reader : Type} (get : Reader -> string -> Completion (option Response) * Reader)
        (context : MMDBContext Reader) (ds : MMDBDataset) (rd : Reader)
        (ip : string) (r : Response) :
  read_only get ->
  Mmdb.dataset context = Some ds -> reader context = Some rd ->
  test ipv4Regex ip = true ->
  fst (get rd ip) = Return (Some r) ->
  exists network p,
    fst (findCIDRBlock get context ip) = Return (Some (Ipv4.cidr network p))
    /\ fst (findCIDRBlock get context network)
       = Return (Some (Ipv4.cidr network p)).
Proof.
  intros RO Hds Hrd V G.
  destruct (search_outcome Reader get RO context ds rd ip r Hds Hrd V G)
    as (network & p & r' & F & _ & _ & _ & _ & Again).
  exists network, p. split; [exact F | exact Again].
Qed.

Lemma search_from_network_finds_same_block_witness :
  exists network p,
    fst (findCIDRBlock SearchTree.get (tree_context country_dataset two_quarters)
                       "64.0.0.1")
    = Return (Some (Ipv4.cidr network p))
    /\ fst (findCIDRBlock SearchTree.get (tree_context country_dataset two_quarters)
                          network)
       = Return (Some (Ipv4.cidr network p)).
Proof.
  apply (search_from_network_finds_same_block SearchTree.get
           (tree_context country_dataset two_quarters) country_dataset
           two_quarters "64.0.0.1" record_BB).
  - intros rd ip. unfold SearchTree.get. destruct (Ipv4.value ip); reflexivity.
  - reflexivity.
  - reflexivity.
  - vm_compute. reflexivity.
  - vm_compute. reflexivity.
Defined.

Lemma findCIDRBlock_call_bound_witness :
  exists rd' calls',
    reader (snd (findCIDRBlock (counted SearchTree.get)
                   {| Mmdb.dataset := Some country_dataset;
                      reader := Some (two_quarters, 0%nat) |}
                   "0.0.0.1"))
    = Some (rd', calls')
    /\ (0 <= calls' <= 0 + (if includes "." "0.0.0.1" then 33 else 9))%nat.
Proof.
  apply (findCIDRBlock_call_bound SearchTree.get
           {| Mmdb.dataset := Some country_dataset;
              reader := Some (two_quarters, 0%nat) |}
           "0.0.0.1" two_quarters 0 eq_refl).
Defined.

(** *** Records and their texts *)

(** X10: a record that [lookupIP] returns passes the type guard of the
    dataset of the context, or is the empty record of the city and
    country fallbacks; with the ASN dataset its
    [autonomous_system_number] is always a number. *)
Theorem lookupIP_records_have_the_shape
        {Reader : Type} (get : Reader -> string -> Completion (option Response) * Reader)
        (context : MMDBContext Reader) (ds : MMDBDataset)
        (ip : string) (record : MMDBRecord) :
  Mmdb.dataset context = Some ds ->
  fst (lookupIP get context ip) = Return (Some record) ->
  match type ds with
  | asn => isAsnResponse record = true
  | city => isCityResponse record = true \/ record = []
  | country => isCountryResponse record = true \/ record = []
  end.
Proof.
  intros Hds. unfold lookupIP. rewrite Hds.
  destruct (reader context) as [rd|]; [|discriminate].
  destruct (negb (isValidIP ip)); [discriminate|].
  destruct (get rd ip) as [[[r|]|e] rd1]; cbn [fst]; try discriminate.
  intros E. inversion E as [E']; clear E.
  unfold transformResult.
  destruct (type ds); cbn [type_name String.eqb Ascii.eqb Bool.eqb].
  - destruct (isAsnResponse r) eqn:S; [exact S | reflexivity].
  - destruct (isCityResponse r) eqn:S; [left; exact S | right; reflexivity].
  - destruct (isCountryResponse r) eqn:S; [left; exact S | right; reflexivity].
Qed.

Lemma lookupIP_records_have_the_shape_witness :
  isAsnResponse asn_fallback = true.
Proof.
  apply (lookupIP_records_have_the_shape SearchTree.get
           (tree_context asn_dataset two_quarters) asn_dataset "0.0.0.1"
           asn_fallback eq_refl).
  vm_compute. reflexivity.
Defined.

Lemma append_nonempty_r (a : string) (c : ascii) (b : string) :
  a ++ String c b <> "".
Proof. destruct a; discriminate. Qed.

Lemma or_text_nonempty (text fallback : string) :
  fallback <> "" ->
  (if String.eqb text "" then fallback else text) <> "".
Proof. intros F. destruct (String.eqb_spec text ""); assumption. Qed.

(** [String(v)] returns exactly on the printable values, and throws the
    one error on the others. *)
Lemma value_to_string_spec (v : JsValue) :
  match value_to_string v with
  | Return _ => printable v = true
  | Throw e => printable v = false /\ e = not_primitive
  end.
Proof.
  induction v as [|b|n|s|items IH|fields] using JsValue_items_ind;
    cbn [value_to_string printable]; try reflexivity.
  - destruct b; reflexivity.
  - induction IH as [|x rest X _ IHrest]; [reflexivity|].
    match type of IHrest with
    | match ?g rest with _ => _ end => set (go := g) in *
    end.
    change (go (x :: rest))
      with (match item_to_string x with
            | Throw e => Throw e
            | Return sx =>
                match rest with
                | [] => Return sx
                | _ :: _ =>
                    match go rest with
                    | Throw e => Throw e
                    | Return srest => Return (sx ++ "," ++ srest)
                    end
                end
            end).
    cbn [forallb].
    assert (X' : match item_to_string x with
                 | Return _ => printable x = true
                 | Throw e => printable x = false /\ e = not_primitive
                 end)
      by (destruct x; try exact X; reflexivity).
    clear X. unfold item_to_string in X'.
    destruct (match x with JNull => Return "" | _ => value_to_string x end)
      as [sx|e].
    + rewrite X'. cbn [andb].
      destruct rest as [|y rest]; [reflexivity|].
      destruct (go (y :: rest)); exact IHrest.
    + cbv beta iota in X'; destruct X' as (-> & ->). split; reflexivity.
  - destruct (has_key "toString" fields); [split|]; reflexivity.
Qed.

Lemma item_to_string_spec (v : JsValue) :
  match item_to_string v with
  | Return _ => printable v = true
  | Throw e => printable v = false /\ e = not_primitive
  end.
Proof.
  destruct v as [|b|n|s|items|fields];
    [ reflexivity
    | exact (value_to_string_spec (JBool b))
    | exact (value_to_string_spec (JNum n))
    | exact (value_to_string_spec (JStr s))
    | exact (value_to_string_spec (JArr items))
    | exact (value_to_string_spec (JObj fields)) ].
Qed.

Lemma items_to_strings_spec (parts : list JsValue) :
  match items_to_strings parts with
  | Return _ => forallb printable parts = true
  | Throw e => forallb printable parts = false /\ e = not_primitive
  end.
Proof.
  induction parts as [|x rest IH]; [reflexivity|].
  cbn [items_to_strings forallb].
  pose proof (item_to_string_spec x) as X.
  destruct (item_to_string x) as [sx|e].
  - rewrite X. cbn [andb]. destruct (items_to_strings rest); exact IH.
  - cbv beta iota in X; destruct X as (-> & ->). split; reflexivity.
Qed.

Lemma join_values_spec (sep : string) (parts : list JsValue) :
  match App.join_values sep parts with
  | Return _ => forallb printable parts = true
  | Throw e => forallb printable parts = false /\ e = not_primitive
  end.
Proof.
  unfold App.join_values. pose proof (items_to_strings_spec parts) as P.
  destruct (items_to_strings parts); exact P.
Qed.

Lemma or_default_spec (v : option JsValue) (fallback : string) :
  match App.or_default v fallback with
  | Return _ => unprintable v = false
  | Throw e => unprintable v = true /\ e = not_primitive
  end.
Proof.
  unfold App.or_default, unprintable. destruct v as [x|]; [|reflexivity].
  destruct (truthy (Some x)); [|reflexivity]. cbn [andb].
  pose proof (value_to_string_spec x) as X.
  destruct (value_to_string x).
  - now rewrite X.
  - cbv beta iota in X; destruct X as (-> & ->). split; reflexivity.
Qed.

Lemma push_if_printable (parts : list JsValue) (v : option JsValue) :
  forallb printable (App.push_if parts v)
  = forallb printable parts && negb (unprintable v).
Proof.
  unfold App.push_if, unprintable. destruct v as [x|]; [|now rewrite andb_true_r].
  destruct (truthy (Some x)); cbn [andb negb]; [|now rewrite andb_true_r].
  rewrite forallb_app. cbn [forallb]. rewrite andb_true_r, negb_involutive.
  reflexivity.
Qed.

Lemma push_bracketed_if_spec (parts : list JsValue) (v : option JsValue) :
  match App.push_bracketed_if parts v with
  | Return parts' =>
      unprintable v = false /\ forallb printable parts' = forallb printable parts
  | Throw e => unprintable v = true /\ e = not_primitive
  end.
Proof.
  unfold App.push_bracketed_if, unprintable. destruct v as [x|]; [|auto].
  destruct (truthy (Some x)); cbn [andb]; [|auto].
  pose proof (value_to_string_spec x) as X.
  destruct (value_to_string x).
  - rewrite X. split; [reflexivity|].
    rewrite forallb_app. cbn. now rewrite andb_true_r.
  - cbv beta iota in X; destruct X as (-> & ->). split; reflexivity.
Qed.

(** The formatter never returns the empty text. *)
Lemma formatLookupData_nonempty (ip : string) (data : option MMDBRecord)
      (text : string) :
  App.formatLookupData ip data = Return text -> text <> "".
Proof.
  unfold App.formatLookupData.
  destruct data as [record|]; [|intros E; inversion E; discriminate].
  destruct (String.eqb ip "1.1.1.1"); [intros E; inversion E; discriminate|].
  destruct (has_key "autonomous_system_number" record).
  { destruct (App.or_default _ "?????"); [|discriminate].
    destruct (App.or_default _ "Unknown"); [|discriminate].
    intros E. inversion E. discriminate. }
  destruct (has_key "city" record || has_key "location" record).
  - set (parts := App.push_if _ _).
    destruct (App.join_values ", " parts) as [result|e]; [|discriminate].
    assert (Finish : forall result,
               (if (List.length parts =? 1)%nat
                then Return (result ++ " [City not specified]")
                else Return (if String.eqb result ""
                             then "Unknown Location" else result))
               = Return text -> text <> "").
    { intros r. destruct (List.length parts =? 1)%nat; intros E; inversion E.
      - apply append_nonempty_r.
      - apply or_text_nonempty. discriminate. }
    destruct (truthy _ && truthy _); [|apply Finish].
    destruct (App.toFixed2 _ _) as [lat|e]; [|discriminate].
    destruct (App.toFixed2 _ _) as [lon|e]; [|discriminate].
    apply Finish.
  - destruct (has_key "country" record); [|intros E; inversion E; discriminate].
    destruct (App.push_bracketed_if _ _) as [countryParts|e]; [|discriminate].
    destruct (App.join_values " " countryParts) as [joined|e]; [|discriminate].
    intros E. inversion E. apply or_text_nonempty. discriminate.
Qed.

Lemma toFixed2_spec (expression : string) (v : option JsValue) :
  match App.toFixed2 expression v with
  | Return _ => typeof_number v = true
  | Throw _ => typeof_number v = false
  end.
Proof. destruct v as [[]|]; reflexivity. Qed.

(** X11: the formatter throws exactly when the address is not
    "1.1.1.1" and the record has, in the branch that its keys select, a
    truthy value to show that cannot be converted to a string (an object
    with a field named toString, or an array that holds one), or, in the
    branch of the city and location keys, two truthy coordinates of
    which one is no number; in every other case it returns a text. *)
Theorem formatLookupData_throws_exactly (ip : string) (record : MMDBRecord) :
  let latitude := opt_prop (field "location" record) "latitude" in
  let longitude := opt_prop (field "location" record) "longitude" in
  (exists e, App.formatLookupData ip (Some record) = Throw e)
  <-> String.eqb ip "1.1.1.1" = false
      /\ (if has_key "autonomous_system_number" record then
            unprintable (field "autonomous_system_number" record)
            || unprintable (field "autonomous_system_organization" record)
          else if has_key "city" record || has_key "location" record then
            unprintable (App.names_en record "city")
            || unprintable (App.names_en record "country")
            || (truthy latitude && truthy longitude
                && negb (typeof_number latitude && typeof_number longitude))
          else if has_key "country" record then
            unprintable (App.names_en record "country")
            || unprintable (App.names_en record "continent")
          else false) = true.
Proof.
  cbv zeta. unfold App.formatLookupData.
  assert (No : forall text : string,
             (exists e, Return text = Throw e) <-> False)
    by (intros text; split; [intros (e & E); discriminate | tauto]).
  assert (Yes : forall e : Thrown,
             (exists e', @Throw string e = Throw e') <-> True)
    by (intros e; split; [tauto | intros _; now exists e]).
  destruct (String.eqb ip "1.1.1.1");
    [rewrite No; split; [tauto | intros (D & _); discriminate]|].
  destruct (has_key "autonomous_system_number" record).
  { pose proof (or_default_spec (field "autonomous_system_number" record) "?????") as A.
    pose proof (or_default_spec (field "autonomous_system_organization" record)
                  "Unknown") as O.
    destruct (App.or_default _ "?????").
    - rewrite A. cbn [orb]. destruct (App.or_default _ "Unknown").
      + rewrite O, No. split; [tauto | intros (_ & D); discriminate].
      + cbv beta iota in O; destruct O as (-> & _). rewrite Yes. tauto.
    - cbv beta iota in A; destruct A as (-> & _). rewrite Yes. cbn [orb]. tauto. }
  destruct (has_key "city" record || has_key "location" record).
  - pose proof (join_values_spec ", "
                  (App.push_if (App.push_if [] (App.names_en record "city"))
                     (App.names_en record "country"))) as J.
    rewrite !push_if_printable in J. cbn [forallb andb] in J.
    set (parts := App.push_if _ _) in *.
    destruct (App.join_values ", " parts) as [result|e].
    + apply andb_true_iff in J as [Jcity Jcountry].
      apply negb_true_iff in Jcity, Jcountry. rewrite Jcity, Jcountry.
      cbn [orb].
      destruct (truthy _ && truthy _); cbn [andb].
      * pose proof (toFixed2_spec "data.location.latitude"
                      (opt_prop (field "location" record) "latitude")) as Lat.
        pose proof (toFixed2_spec "data.location.longitude"
                      (opt_prop (field "location" record) "longitude")) as Lon.
        destruct (App.toFixed2 "data.location.latitude" _).
        -- rewrite Lat. cbn [andb].
           destruct (App.toFixed2 "data.location.longitude" _).
           ++ rewrite Lon. cbn [negb].
              destruct (List.length parts =? 1)%nat; rewrite No;
                (split; [tauto | intros (_ & D); discriminate]).
           ++ rewrite Lon, Yes. cbn [negb]. tauto.
        -- rewrite Lat, Yes. cbn [andb negb]. tauto.
      * destruct (List.length parts =? 1)%nat; rewrite No;
          (split; [tauto | intros (_ & D); discriminate]).
    + cbv beta iota in J; destruct J as (J & _). rewrite Yes.
      apply andb_false_iff in J.
      split; [intros _; split; [reflexivity|] | tauto].
      destruct J as [J|J]; apply negb_false_iff in J; rewrite J;
        cbn [orb]; now rewrite ?orb_true_r.
  - destruct (has_key "country" record);
      [|rewrite No; split; [tauto | intros (_ & D); discriminate]].
    pose proof (push_bracketed_if_spec
                  (App.push_if [] (App.names_en record "country"))
                  (App.names_en record "continent")) as B.
    destruct (App.push_bracketed_if _ _) as [countryParts|e].
    + cbv beta iota in B; destruct B as (-> & P). rewrite push_if_printable in P.
      cbn [forallb andb] in P. rewrite orb_false_r.
      pose proof (join_values_spec " " countryParts) as J. rewrite P in J.
      destruct (App.join_values " " countryParts).
      * apply negb_true_iff in J. rewrite J, No.
        split; [tauto | intros (_ & D); discriminate].
      * cbv beta iota in J; destruct J as (J & _). apply negb_false_iff in J. rewrite J, Yes. tauto.
    + cbv beta iota in B; destruct B as (-> & _). rewrite Yes, orb_true_r. tauto.
Qed.

(** X12: when the ASN dataset is selected and the decoded record is not
    ASN-shaped, the record put in its place is shown as
    "AS????? - Unknown" for every address but "1.1.1.1". *)
Theorem asn_fallback_text (ip : string) (r : Response) :
  ip <> "1.1.1.1" ->
  isAsnResponse r = false ->
  App.formatLookupData ip (Some (transformResult r (type_name asn)))
  = Return "AS????? - Unknown".
Proof.
  intros Hip Guard. unfold transformResult.
  cbn [type_name]. rewrite String.eqb_refl, Guard.
  unfold App.formatLookupData.
  destruct (String.eqb_spec ip "1.1.1.1") as [E|_]; [contradiction|].
  reflexivity.
Qed.

Lemma asn_fallback_text_witness :
  App.formatLookupData "8.8.8.8" (Some (transformResult record_AA (type_name asn)))
  = Return "AS????? - Unknown".
Proof.
  apply asn_fallback_text; [discriminate | reflexivity].
Defined.

(** *** The handlers of the page *)

Section HandlerFacts.

Variable Reader : Type.
Variable get : Reader -> string -> Completion (option Response) * Reader.

Lemma lookupIP_keeps_reader (context : MMDBContext Reader) (ip : string) (rd : Reader) :
  reader context = Some rd ->
  exists rd', reader (snd (lookupIP get context ip)) = Some rd'.
Proof.
  intros Hrd. unfold lookupIP. rewrite Hrd.
  destruct (Mmdb.dataset context); [|cbn; eauto].
  destruct (negb (isValidIP ip)); [cbn; eauto|].
  destruct (get rd ip) as [[[r|]|e] rd1]; cbn; eauto.
Qed.

Lemma findCIDRBlock_keeps_reader (context : MMDBContext Reader) (ip : string)
      (rd : Reader) :
  reader context = Some rd ->
  exists rd', reader (snd (findCIDRBlock get context ip)) = Some rd'.
Proof.
  intros Hrd. unfold findCIDRBlock. rewrite Hrd.
  destruct (Mmdb.dataset context); [|cbn; eauto].
  destruct (negb (isValidIP ip)); [cbn; eauto|].
  destruct (get rd ip) as [[[r|]|e] rd1]; cbn [snd]; try (cbn; eauto).
  destruct (includes "." ip).
  - destruct (findIPv4CIDRBlock get rd1 ip _). cbn. eauto.
  - destruct (findIPv6CIDRBlock get rd1 ip _). cbn. eauto.
Qed.

Lemma lookupIP_error (context : MMDBContext Reader) (ip : string)
      (ds : MMDBDataset) (rd : Reader) (e : Thrown) :
  Mmdb.dataset context = Some ds -> reader context = Some rd ->
  fst (lookupIP get context ip) = Throw e ->
  error_message e <> "No dataset loaded".
Proof.
  intros Hds Hrd. unfold lookupIP. rewrite Hds, Hrd.
  destruct (negb (isValidIP ip)); cbn [fst].
  - intros E. inversion E. discriminate.
  - destruct (get rd ip) as [[[r|]|e'] rd1]; cbn [fst]; intros E;
      inversion E. discriminate.
Qed.

Lemma findCIDRBlock_error (context : MMDBContext Reader) (ip : string)
      (ds : MMDBDataset) (rd : Reader) (e : Thrown) :
  Mmdb.dataset context = Some ds -> reader context = Some rd ->
  fst (findCIDRBlock get context ip) = Throw e ->
  error_message e <> "No dataset loaded".
Proof.
  intros Hds Hrd. unfold findCIDRBlock. rewrite Hds, Hrd.
  destruct (negb (isValidIP ip)); cbn [fst].
  - intros E. inversion E. discriminate.
  - destruct (get rd ip) as [[[r|]|e'] rd1]; cbn [fst]; try discriminate.
    destruct (includes "." ip).
    + destruct (findIPv4CIDRBlock get rd1 ip _). discriminate.
    + destruct (findIPv6CIDRBlock get rd1 ip _). discriminate.
Qed.

Lemma slice0_length {A : Type} (n : nat) (l : list A) :
  (List.length (slice0 n l) <= n)%nat.
Proof. unfold slice0. rewrite List.length_firstn. lia. Qed.

Lemma handle_keeps_ten (st : Handlers.AppState Reader) (ev : Handlers.Event Reader) :
  (List.length (Handlers.lookupResults st) <= 10)%nat ->
  (List.length (Handlers.lookupResults (Handlers.handle get st ev)) <= 10)%nat.
Proof.
  intros H. destruct ev as [dataset fetchReader|address]; cbn [Handlers.handle].
  - unfold Handlers.handleDatasetSelect.
    destruct (_ && _); [exact H|].
    destruct (loadDataset fetchReader _ dataset); cbn; lia.
  - unfold Handlers.handleLookup.
    destruct (Handlers.selectedDataset st) as [selected|]; [|exact H].
    destruct (_ || _); [exact H|].
    pose proof (slice0_length 9 (Handlers.lookupResults st)) as L.
    destruct (lookupIP get _ _) as [[data|e] context1];
      [|cbn [Handlers.record_result Handlers.lookupResults List.length]; lia].
    destruct (findCIDRBlock get _ _) as [[block|e] context2];
      cbn [Handlers.record_result Handlers.lookupResults List.length]; lia.
Qed.

End HandlerFacts.

(** X13: whatever the user does, the page keeps at most ten results:
    from a state with at most ten, every sequence of dataset choices
    and lookups leads to a state with at most ten. *)
Theorem results_stay_within_ten
        {Reader : Type} (get : Reader -> string -> Completion (option Response) * Reader)
        (events : list (Handlers.Event Reader)) (st : Handlers.AppState Reader) :
  (List.length (Handlers.lookupResults st) <= 10)%nat ->
  (List.length (Handlers.lookupResults (Handlers.run get st events)) <= 10)%nat.
Proof.
  revert st. unfold Handlers.run.
  induction events as [|ev events IH]; intros st H; cbn [fold_left].
  - exact H.
  - apply IH. now apply handle_keeps_ten.
Qed.

Lemma results_stay_within_ten_witness :
  (List.length
     (Handlers.lookupResults
        (Handlers.run SearchTree.get Handlers.initialState
           (Handlers.SelectDataset country_dataset (fun _ => Return two_quarters)
            :: repeat (Handlers.Lookup "0.0.0.1") 12))) <= 10)%nat.
Proof.
  apply results_stay_within_ten. cbn. lia.
Defined.

Section Reachable.

Variable Reader : Type.
Variable get : Reader -> string -> Completion (option Response) * Reader.

Lemma handle_keeps_sound (st : Handlers.AppState Reader) (ev : Handlers.Event Reader) :
  loaded_state st /\ sound_results st ->
  loaded_state (Handlers.handle get st ev)
  /\ sound_results (Handlers.handle get st ev).
Proof.
  intros (L & S). destruct ev as [dataset fetchReader|address]; cbn [Handlers.handle].
  - unfold Handlers.handleDatasetSelect.
    destruct (_ && _); [auto|].
    unfold loadDataset.
    destruct (fetchReader dataset) as [mmdbReader|e]; split.
    + intros _. exists dataset, mmdbReader. cbn. auto.
    + intros result [].
    + cbn. discriminate.
    + intros result [].
  - unfold Handlers.handleLookup.
    destruct (Handlers.selectedDataset st) as [selected|] eqn:Sel; [|auto].
    destruct (Handlers.isDatasetLoaded st) eqn:Loaded; cbn [negb orb]; [|auto].
    destruct (String.eqb (trim address) ""); [auto|].
    destruct (L Loaded) as (ds & rd & Sds & Cds & Crd).
    assert (ds = selected) as -> by congruence.
    (* the contexts after the two calls are loaded as before *)
    pose proof (lookupIP_dataset Reader get (Handlers.mmdbContext st) (trim address)) as D1.
    destruct (lookupIP_keeps_reader Reader get _ (trim address) rd Crd) as (rd1 & R1).
    pose proof (fun e => lookupIP_error Reader get (Handlers.mmdbContext st)
                          (trim address) selected rd e Cds Crd) as E1.
    destruct (lookupIP get (Handlers.mmdbContext st) (trim address))
      as [looked context1]. cbn [fst snd] in *.
    rewrite Cds in D1.
    assert (Old : forall c result r,
               In r (Handlers.lookupResults (Handlers.record_result st c result)) ->
               r = result \/ In r (Handlers.lookupResults st)).
    { intros c result r [E|I]; [left; now symmetry|right].
      unfold slice0 in I.
      rewrite <- (firstn_skipn 9 (Handlers.lookupResults st)).
      apply in_or_app. now left. }
    destruct looked as [data|e].
    + pose proof (findCIDRBlock_dataset Reader get context1 (trim address)) as D2.
      destruct (findCIDRBlock_keeps_reader Reader get _ (trim address) rd1 R1)
        as (rd2 & R2).
      pose proof (fun e => findCIDRBlock_error Reader get context1 (trim address)
                            selected rd1 e D1 R1) as E2.
      destruct (findCIDRBlock get context1 (trim address)) as [found context2].
      cbn [fst snd] in *. rewrite D1 in D2.
      destruct found as [block|e]; split.
      * intros _. exists selected, rd2. cbn. auto.
      * intros r I. apply Old in I. destruct I as [->|I].
        -- cbn. split; [discriminate | exists selected; cbn; split; [exact Sel | reflexivity]].
        -- destruct (S r I) as (Er & ds' & Sd & Dn). split; [exact Er|].
           exists ds'. cbn. split; assumption.
      * intros _. exists selected, rd2. cbn. auto.
      * intros r I. apply Old in I. destruct I as [->|I].
        -- cbn. split; [|exists selected; cbn; split; [exact Sel | reflexivity]].
           intros X. inversion X as [X']. now apply (E2 e eq_refl).
        -- destruct (S r I) as (Er & ds' & Sd & Dn). split; [exact Er|].
           exists ds'. cbn. split; assumption.
    + split.
      * intros _. exists selected, rd1. cbn. auto.
      * intros r I. apply Old in I. destruct I as [->|I].
        -- cbn. split; [|exists selected; cbn; split; [exact Sel | reflexivity]].
           intros X. inversion X as [X']. now apply (E1 e eq_refl).
        -- destruct (S r I) as (Er & ds' & Sd & Dn). split; [exact Er|].
           exists ds'. cbn. split; assumption.
Qed.


Lemma run_keeps_sound (events : list (Handlers.Event Reader))
      (st : Handlers.AppState Reader) :
  loaded_state st /\ sound_results st ->
  loaded_state (Handlers.run get st events)
  /\ sound_results (Handlers.run get st events).
Proof.
  revert st. unfold Handlers.run.
  induction events as [|ev events IH]; intros st H; cbn [fold_left].
  - exact H.
  - apply IH. now apply handle_keeps_sound.
Qed.

Lemma initial_sound :
  loaded_state (@Handlers.initialState Reader)
  /\ sound_results (@Handlers.initialState Reader).
Proof.
  split.
  - intros H. discriminate.
  - intros r [].
Qed.

End Reachable.

(** X14: whatever the user does from the first render on, the page says
    that a dataset is loaded only when the context holds the selected
    dataset and a reader, no result on the page carries the error of a
    missing dataset, and every result is labelled with the name of the
    selected dataset. *)
Theorem reachable_states_are_sound
        {Reader : Type} (get : Reader -> string -> Completion (option Response) * Reader)
        (events : list (Handlers.Event Reader)) :
  loaded_state (Handlers.run get Handlers.initialState events)
  /\ sound_results (Handlers.run get Handlers.initialState events).
Proof.
  apply run_keeps_sound. apply initial_sound.
Qed.

(** ** The guard of [handleLookup] and what a recorded result holds *)

Lemma trimStart_blank (s : string) : blank s = true -> trimStart s = "".
Proof.
  induction s as [|c s IH]; cbn; [reflexivity|].
  intros H. apply andb_prop in H as [C B]. rewrite C. now apply IH.
Qed.

Lemma trim_blank (s : string) : blank s = true -> trim s = "".
Proof.
  intros H. unfold trim. now rewrite trimStart_blank.
Qed.

Lemma trimStart_first (s : string) :
  trimStart s = ""
  \/ exists c rest, trimStart s = String c rest /\ is_space c = false.
Proof.
  induction s as [|c s IH]; cbn; [now left|].
  destruct (is_space c) eqn:C; [exact IH|].
  right. now exists c, s.
Qed.

Lemma trimEnd_first (c : ascii) (rest : string) :
  is_space c = false -> exists kept, trimEnd (String c rest) = String c kept.
Proof.
  intros C. cbn [trimEnd]. destruct (trimEnd rest).
  - rewrite C. now exists "".
  - eexists. reflexivity.
Qed.

Lemma trim_not_blank (s : string) : trim s <> "" -> blank (trim s) = false.
Proof.
  unfold trim. destruct (trimStart_first s) as [E|(c & rest & E & C)]; rewrite E.
  - intros H. now elim H.
  - intros _. destruct (trimEnd_first c rest C) as (kept & K). rewrite K.
    cbn. now rewrite C.
Qed.

Lemma trimStart_empty (s : string) : trimStart s = "" -> blank s = true.
Proof.
  induction s as [|c s IH]; cbn; [reflexivity|].
  destruct (is_space c); [exact IH | discriminate].
Qed.

Lemma trim_empty (s : string) : trim s = "" -> blank s = true.
Proof.
  unfold trim. destruct (trimStart_first s) as [E|(c & rest & E & C)].
  - intros _. now apply trimStart_empty.
  - rewrite E. destruct (trimEnd_first c rest C) as (kept & K). rewrite K.
    discriminate.
Qed.

Lemma trim_eqb_blank (s : string) : String.eqb (trim s) "" = blank s.
Proof.
  destruct (String.eqb_spec (trim s) "") as [E|N].
  - symmetry. now apply trim_empty.
  - destruct (blank s) eqn:B; [|reflexivity].
    elim N. now apply trim_blank.
Qed.

(** X15: a lookup is ignored, the page staying as it is, when no dataset
    is selected, when none is loaded, or when the input holds white space
    only; every other lookup puts one result in front of the nine newest,
    for the input without the white space around it, which is never
    blank. *)
Theorem lookup_guard
        {Reader : Type} (get : Reader -> string -> Completion (option Response) * Reader)
        (st : Handlers.AppState Reader) (address : string) :
  if ready st address
  then exists result,
      Handlers.lookupResults (Handlers.handleLookup get st address)
      = result :: firstn 9 (Handlers.lookupResults st)
      /\ Handlers.ip result = trim address
      /\ blank (Handlers.ip result) = false
      /\ Handlers.isLookingUp (Handlers.handleLookup get st address) = false
  else Handlers.handleLookup get st address = st.
Proof.
  unfold ready, Handlers.handleLookup.
  destruct (Handlers.selectedDataset st) as [selected|]; [|reflexivity].
  rewrite trim_eqb_blank.
  destruct (Handlers.isDatasetLoaded st); cbn [negb orb andb]; [|reflexivity].
  destruct (blank address) eqn:B; cbn [negb]; [reflexivity|].
  assert (N : blank (trim address) = false).
  { apply trim_not_blank. intros E. apply trim_empty in E. congruence. }
  destruct (lookupIP get _ _) as [[data|e] context1].
  - destruct (findCIDRBlock get _ _) as [[block|e] context2];
      eexists; cbn; (split; [reflexivity|]); auto.
  - eexists; cbn; (split; [reflexivity|]); auto.
Qed.

Section Blocks.

Variable Reader : Type.
Variable get : Reader -> string -> Completion (option Response) * Reader.

Lemma ipv6_loop_nonempty (ip target : string) (prefixes : list Z) :
  forall rd block rd',
    ipv6_loop get ip target prefixes rd = (Some block, rd') -> block <> "".
Proof.
  induction prefixes as [|prefix rest IH]; intros rd block rd'; cbn [ipv6_loop].
  - discriminate.
  - cbv zeta. destruct (get rd ip) as [[[r|]|e] rd1]; try apply IH.
    destruct (String.eqb _ _); [|apply IH].
    intros E. inversion E.
    destruct (64 <=? prefix); [apply append_nonempty_r|].
    destruct (32 <=? prefix); apply append_nonempty_r.
Qed.

Lemma findIPv6CIDRBlock_nonempty (rd : Reader) (ip target : string) :
  fst (findIPv6CIDRBlock get rd ip target) <> "".
Proof.
  unfold findIPv6CIDRBlock.
  destruct (ipv6_loop get ip target commonPrefixes rd) as [[block|] rd'] eqn:E;
    cbn [fst].
  - now apply ipv6_loop_nonempty in E.
  - apply append_nonempty_r.
Qed.

Lemma findIPv4CIDRBlock_nonempty (rd : Reader) (ip target : string) :
  fst (findIPv4CIDRBlock get rd ip target) <> "".
Proof.
  unfold findIPv4CIDRBlock.
  destruct (ipv4_loop get (ipv4_int ip) target 32 rd) as [[block|] rd'] eqn:E;
    cbn [fst].
  - apply (ipv4_loop_shape Reader get) in E; [|lia].
    destruct E as (p & _ & ->). unfold Ipv4.cidr. apply append_nonempty_r.
  - apply append_nonempty_r.
Qed.

Lemma findCIDRBlock_nonempty (context : MMDBContext Reader) (ip : string) :
  fst (findCIDRBlock get context ip) <> Return (Some "").
Proof.
  unfold findCIDRBlock.
  destruct (Mmdb.dataset context); [|discriminate].
  destruct (reader context) as [rd|]; [|discriminate].
  destruct (negb (isValidIP ip)); [discriminate|].
  destruct (get rd ip) as [[[r|]|e] rd1]; try discriminate.
  destruct (includes "." ip).
  - pose proof (findIPv4CIDRBlock_nonempty rd1 ip (JSON_stringify (Some r))) as N.
    destruct (findIPv4CIDRBlock get rd1 ip _) as [block rd2]. cbn [fst] in *.
    congruence.
  - pose proof (findIPv6CIDRBlock_nonempty rd1 ip (JSON_stringify (Some r))) as N.
    destruct (findIPv6CIDRBlock get rd1 ip _) as [block rd2]. cbn [fst] in *.
    congruence.
Qed.

Lemma nonempty_some (block : string) :
  block <> "" -> Handlers.nonempty (Some block) = Some block.
Proof.
  intros N. unfold Handlers.nonempty.
  now destruct (String.eqb_spec block "").
Qed.

Lemma nonempty_never_empty (text : option string) :
  Handlers.nonempty text <> Some "".
Proof.
  destruct text as [t|]; cbn; [|discriminate].
  destruct (String.eqb_spec t ""); [discriminate|congruence].
Qed.

Hypothesis RO : read_only get.

(** With a reader that a call leaves as it was, the outcome of the two
    calls of [handleLookup] by the answer of the reader. *)
Lemma lookup_then_block (context : MMDBContext Reader) (ds : MMDBDataset)
      (rd : Reader) (ip : string) :
  Mmdb.dataset context = Some ds -> reader context = Some rd ->
  isValidIP ip = true ->
  let context1 := snd (lookupIP get context ip) in
  match fst (get rd ip) with
  | Throw e =>
      fst (lookupIP get context ip)
      = Throw (ThrownError ("IP lookup failed: " ++ error_message e))
  | Return None =>
      fst (lookupIP get context ip) = Return None
      /\ fst (findCIDRBlock get context1 ip) = Return None
  | Return (Some r) =>
      fst (lookupIP get context ip)
      = Return (Some (transformResult r (type_name (type ds))))
      /\ exists block,
          fst (findCIDRBlock get context1 ip) = Return (Some block)
          /\ block <> ""
  end.
Proof.
  intros Hds Hrd V. cbv zeta.
  pose proof (findCIDRBlock_nonempty (snd (lookupIP get context ip)) ip) as N.
  revert N.
  unfold lookupIP, findCIDRBlock. rewrite Hds, Hrd, V. cbn [negb].
  rewrite (get_read_only Reader get RO rd ip).
  destruct (fst (get rd ip)) as [[r|]|e] eqn:G; cbn [fst snd with_reader Mmdb.dataset reader].
  - rewrite ?Hds, ?Hrd, ?V. cbn [negb]. rewrite (get_read_only Reader get RO rd ip), G.
    intros N. split; [reflexivity|].
    destruct (if includes "." ip then _ else _) as [block rd2].
    exists block. split; [reflexivity|]. cbn [fst] in N. congruence.
  - rewrite ?Hds, ?Hrd, ?V. cbn [negb]. rewrite (get_read_only Reader get RO rd ip), G.
    intros _. split; reflexivity.
  - intros _. reflexivity.
Qed.

End Blocks.

Section Classified.

Variable Reader : Type.
Variable get : Reader -> string -> Completion (option Response) * Reader.
Hypothesis RO : read_only get.

Lemma handle_keeps_classified (st : Handlers.AppState Reader)
      (ev : Handlers.Event Reader) :
  loaded_state st ->
  (forall r, In r (Handlers.lookupResults st) -> classified r) ->
  forall r, In r (Handlers.lookupResults (Handlers.handle get st ev)) ->
            classified r.
Proof.
  intros L C. destruct ev as [dataset fetchReader|address]; cbn [Handlers.handle].
  - unfold Handlers.handleDatasetSelect.
    destruct (_ && _); [exact C|].
    destruct (loadDataset fetchReader _ dataset); intros r [].
  - unfold Handlers.handleLookup.
    destruct (Handlers.selectedDataset st) as [selected|] eqn:Sel; [|exact C].
    rewrite trim_eqb_blank.
    destruct (Handlers.isDatasetLoaded st) eqn:Loaded; cbn [negb orb]; [|exact C].
    destruct (blank address) eqn:B; [exact C|].
    assert (N : blank (trim address) = false).
    { apply trim_not_blank. intros E. apply trim_empty in E. congruence. }
    destruct (L Loaded) as (ds & rd & Sds & Cds & Crd).
    assert (Old : forall c result r,
               In r (Handlers.lookupResults (Handlers.record_result st c result)) ->
               r = result \/ In r (Handlers.lookupResults st)).
    { intros c result r [E|I]; [left; now symmetry|right].
      unfold slice0 in I.
      rewrite <- (firstn_skipn 9 (Handlers.lookupResults st)).
      apply in_or_app. now left. }
    destruct (isValidIP (trim address)) eqn:V.
    + pose proof (lookup_then_block Reader get RO (Handlers.mmdbContext st) ds rd
                    (trim address) Cds Crd V) as O.
      cbv zeta in O.
      destruct (lookupIP get (Handlers.mmdbContext st) (trim address))
        as [looked context1]. cbn [fst snd] in O.
      destruct (fst (get rd (trim address))) as [[record|]|e].
      * destruct O as (-> & block & F & Nb).
        destruct (findCIDRBlock get context1 (trim address)) as [found context2].
        cbn [fst] in F. subst found.
        intros r I. apply Old in I. destruct I as [->|I]; [|now apply C].
        unfold classified.
        cbn [Handlers.ip Handlers.cidrBlock Handlers.error Handlers.data].
        rewrite V, (nonempty_some block Nb).
        split; [exact N|]. split; [congruence|]. split; [reflexivity|].
        split; discriminate.
      * destruct O as (-> & F).
        destruct (findCIDRBlock get context1 (trim address)) as [found context2].
        cbn [fst] in F. subst found.
        intros r I. apply Old in I. destruct I as [->|I]; [|now apply C].
        unfold classified.
        cbn [Handlers.ip Handlers.cidrBlock Handlers.error Handlers.data Handlers.nonempty].
        rewrite V.
        split; [exact N|]. split; [discriminate|]. split; [reflexivity|].
        split; reflexivity.
      * subst looked.
        intros r I. apply Old in I. destruct I as [->|I]; [|now apply C].
        unfold classified.
        cbn [Handlers.ip Handlers.cidrBlock Handlers.error Handlers.data Handlers.nonempty].
        rewrite V.
        split; [exact N|]. split; [discriminate|].
        split; [reflexivity|]. split; [reflexivity|]. eexists. reflexivity.
    + unfold lookupIP. rewrite Cds, Crd, V. cbn [negb].
      intros r I. apply Old in I. destruct I as [->|I]; [|now apply C].
      unfold classified.
        cbn [Handlers.ip Handlers.cidrBlock Handlers.error Handlers.data Handlers.nonempty].
        rewrite V.
      split; [exact N|]. split; [discriminate|]. auto.
Qed.

Lemma run_keeps_classified (events : list (Handlers.Event Reader))
      (st : Handlers.AppState Reader) :
  loaded_state st /\ sound_results st ->
  (forall r, In r (Handlers.lookupResults st) -> classified r) ->
  forall r, In r (Handlers.lookupResults (Handlers.run get st events)) ->
            classified r.
Proof.
  revert st. unfold Handlers.run.
  induction events as [|ev events IH]; intros st S C; cbn [fold_left].
  - exact C.
  - apply IH.
    + now apply handle_keeps_sound.
    + apply handle_keeps_classified; tauto.
Qed.

End Classified.

(** X16: with a reader that a call leaves as it was, every result on the
    page, whatever the user did to get there, is of one of four kinds: an
    address that the patterns reject, with the format error; an accepted
    address on which the reader failed, with the failure and its reason;
    an accepted address without a record, which then has no block
    either; an accepted address with a record, which then has a block.
    The address is never blank and the block never the empty text. *)
Theorem results_are_classified
        {Reader : Type} (get : Reader -> string -> Completion (option Response) * Reader)
        (events : list (Handlers.Event Reader)) (r : Handlers.LookupResult) :
  read_only get ->
  In r (Handlers.lookupResults (Handlers.run get Handlers.initialState events)) ->
  classified r.
Proof.
  intros RO. apply (run_keeps_classified Reader get RO).
  - apply initial_sound.
  - intros r' [].
Qed.

Lemma results_are_classified_witness :
  classified
    {| Handlers.ip := "8.8.8.8"; Handlers.dataset := "GeoLite2-Country";
       Handlers.data := Some record_AA;
       Handlers.cidrBlock := Some "8.8.8.8/29";
       Handlers.error := None |}.
Proof.
  apply (results_are_classified (table_get one_good_entry)
           [Handlers.SelectDataset country_dataset (fun _ => Return tt);
            Handlers.Lookup " 8.8.8.8 "; Handlers.Lookup "9.9.9.9"]).
  - intros rd ip. reflexivity.
  - vm_compute. right. left. reflexivity.
Defined.

(** ** The body of a result card *)

Lemma nonempty_is_nonempty (text : option string) (t : string) :
  Handlers.nonempty text = Some t -> text = Some t /\ t <> "".
Proof.
  destruct text as [t'|]; cbn; [|discriminate].
  destruct (String.eqb_spec t' ""); [discriminate|].
  intros E. inversion E. subst. auto.
Qed.

(** X17: a result card never has an empty body: it shows the error of the
    result when that is not the empty text, else the formatted record
    when there is one, with a block that is not the empty text, else the
    description of the reserved range or the text for an absent record;
    and the card fails to render exactly when the formatter throws on
    the record. *)
Theorem card_body_is_never_empty (result : Handlers.LookupResult) :
  match Handlers.cardBody result with
  | Return (Handlers.ErrorBody text) =>
      Handlers.error result = Some text /\ text <> ""
  | Return (Handlers.DataBody text block) =>
      Handlers.nonempty (Handlers.error result) = None
      /\ App.formatLookupData (Handlers.ip result) (Handlers.data result)
         = Return text
      /\ Handlers.data result <> None /\ text <> "" /\ block <> Some ""
  | Return (Handlers.NoDataBody text) =>
      Handlers.nonempty (Handlers.error result) = None
      /\ Handlers.data result = None /\ text <> ""
  | Throw e =>
      Handlers.nonempty (Handlers.error result) = None
      /\ Handlers.data result <> None
      /\ App.formatLookupData (Handlers.ip result) (Handlers.data result)
         = Throw e
  end.
Proof.
  unfold Handlers.cardBody.
  destruct (Handlers.nonempty (Handlers.error result)) as [text|] eqn:E.
  - now apply nonempty_is_nonempty.
  - destruct (Handlers.data result) as [record|].
    + destruct (App.formatLookupData (Handlers.ip result) (Some record))
        as [text|e] eqn:F.
      * split; [reflexivity|]. split; [reflexivity|]. split; [discriminate|].
        split; [|apply nonempty_never_empty].
        now apply (formatLookupData_nonempty (Handlers.ip result) (Some record)).
      * split; [reflexivity|]. split; [discriminate|reflexivity].
    + split; [reflexivity|]. split; [reflexivity|].
      destruct (Handlers.nonempty (getIPRangeDescription (Handlers.ip result)))
        as [text|] eqn:D.
      * now apply nonempty_is_nonempty in D.
      * discriminate.
Qed.

(** ** Handlers and the reader *)

(** X18: a lookup of an address that the patterns reject leaves the
    context and its reader as they were, whatever the reader is: no call
    of [get] is made for it. *)
Theorem rejected_address_never_reaches_reader
        {Reader : Type} (get : Reader -> string -> Completion (option Response) * Reader)
        (st : Handlers.AppState Reader) (address : string) :
  isValidIP (trim address) = false ->
  Handlers.mmdbContext (Handlers.handleLookup get st address)
  = Handlers.mmdbContext st.
Proof.
  intros V. unfold Handlers.handleLookup.
  destruct (Handlers.selectedDataset st) as [selected|]; [|reflexivity].
  destruct (_ || _); [reflexivity|].
  unfold lookupIP.
  destruct (Mmdb.dataset (Handlers.mmdbContext st)); [|reflexivity].
  destruct (reader (Handlers.mmdbContext st)); [|reflexivity].
  rewrite V. reflexivity.
Qed.

Lemma rejected_address_never_reaches_reader_witness :
  let st := Handlers.run (counted SearchTree.get) Handlers.initialState
              [Handlers.SelectDataset country_dataset
                 (fun _ => Return (two_quarters, 0%nat))] in
  Handlers.mmdbContext (Handlers.handleLookup (counted SearchTree.get) st "1.2.3")
  = Handlers.mmdbContext st.
Proof.
  cbv zeta. apply rejected_address_never_reaches_reader. reflexivity.
Defined.

(** X19: when the download of a newly chosen dataset fails, the page
    shows no results, keeps the context it had, and ignores every lookup
    that follows. *)
Theorem failed_load_blocks_lookups
        {Reader : Type} (get : Reader -> string -> Completion (option Response) * Reader)
        (fetchReader : MMDBDataset -> Completion Reader)
        (st : Handlers.AppState Reader) (dataset : MMDBDataset) (e : Thrown)
        (addresses : list string) :
  already_loaded st dataset = false ->
  fetchReader dataset = Throw e ->
  let st' := Handlers.handleDatasetSelect fetchReader st dataset in
  Handlers.lookupResults st' = []
  /\ Handlers.mmdbContext st' = Handlers.mmdbContext st
  /\ Handlers.run get st' (map Handlers.Lookup addresses) = st'.
Proof.
  intros A F. cbv zeta.
  unfold Handlers.handleDatasetSelect. unfold already_loaded in A. rewrite A.
  unfold loadDataset. rewrite F.
  split; [reflexivity|]. split; [reflexivity|].
  unfold Handlers.run.
  induction addresses as [|address addresses IH]; [reflexivity|].
  cbn [map fold_left Handlers.handle]. exact IH.
Qed.

Lemma failed_load_blocks_lookups_witness :
  let st' := Handlers.handleDatasetSelect
               (fun _ => Throw (ThrownError "Failed to fetch"))
               (Handlers.run SearchTree.get Handlers.initialState
                  [Handlers.SelectDataset country_dataset (fun _ => Return two_quarters);
                   Handlers.Lookup "0.0.0.1"])
               asn_dataset in
  Handlers.lookupResults st' = []
  /\ Handlers.mmdbContext st'
     = Handlers.mmdbContext
         (Handlers.run SearchTree.get Handlers.initialState
            [Handlers.SelectDataset country_dataset (fun _ => Return two_quarters);
             Handlers.Lookup "0.0.0.1"])
  /\ Handlers.run SearchTree.get st'
       (map Handlers.Lookup ["0.0.0.1"; "64.0.0.1"]) = st'.
Proof.
  apply (failed_load_blocks_lookups SearchTree.get
           (fun _ => Throw (ThrownError "Failed to fetch")) _ asn_dataset
           (ThrownError "Failed to fetch") ["0.0.0.1"; "64.0.0.1"]).
  - vm_compute. reflexivity.
  - reflexivity.
Defined.
